(** * MicroMart backend (server.py): cart, order, payment and seed handlers

    A shallow embedding of the request handlers of [server.py] over an
    explicit model of the document store, followed by the properties of
    the cart engine, the order engine, the payment stub and the catalog
    seed.

    Modelling conventions.
    - A MongoDB collection is a list of documents in insertion order;
      [find_one], [replace_one], [update_one] and [delete_one] act on the
      first document that matches the filter.
    - A handler is a computation in the monad [M]: it threads the store
      and stops at the first raised [HTTPException].
    - [uuid.uuid4()] and [datetime.now(timezone.utc)] are answered by an
      environment [Env] that comes with each request; nothing is assumed
      about the values it hands out.
    - Python [int] is [Z].  Python [float] is an abstract type with the
      operations the handlers use ([0], [+], [float * int], decimal
      literals); no arithmetic law is assumed, so every result below holds
      for any implementation of these operations.  The integer [0] that
      [sum] starts from and the literal [0.0] are one value, [f_zero].
    - Authentication ([get_current_user]) has run before a handler body
      starts; the handler receives the resolved [User].
    - Requests are served one at a time: a run of the service is a list of
      requests, each handled to its end before the next one starts.
    - An exception that is not an [HTTPException] (an [OverflowError] of a
      number conversion or of the store's encoder, a [ValueError] of a
      library, an error of the store) leaves the handler before its next
      write; it is the answer [internal_server_error].  The store keeps
      integers of at most 8 bytes: a handler that puts an integer of its
      request into a document ([add_to_cart], [create_product]) fails in
      this way when the integer does not fit; integers read from the store
      fit already.
    - A timestamp is an abstract value.  The store's own representation of
      timestamps (MongoDB keeps milliseconds and no zone) is not modelled:
      a document read back is compared with a document built in memory
      on its other fields only. *)

From Stdlib Require Import List String ZArith QArith Bool Lia DecimalString.
Import ListNotations.

Local Open Scope string_scope.
Local Open Scope Z_scope.
Local Open Scope list_scope.

(** ** Numbers *)

Class FloatOps (float : Type) : Type := {
  f_zero : float;                       (* 0 / 0.0 *)
  f_add : float -> float -> float;      (* a + b *)
  f_mul_int : float -> Z -> float;      (* a * n, n an int *)
  f_lit : Z -> nat -> float             (* decimal literal m * 10^-e *)
}.

(** Rationals as one implementation, used to run the handlers. *)
#[export] Instance Q_FloatOps : FloatOps Q := {
  f_zero := 0%Q;
  f_add := Qplus;
  f_mul_int := fun a n => Qmult a (inject_Z n);
  f_lit := fun m e => Qmake m (Z.to_pos (10 ^ Z.of_nat e))
}.

(** ** Environment and errors *)

Definition datetime : Type := Z.

Record Env : Type := {
  uuid4 : nat -> string;      (* the k-th identifier drawn while serving the request *)
  utcnow : nat -> datetime    (* the k-th clock reading *)
}.

Record HTTPException : Type := {
  status_code : Z;
  detail : string
}.

(** The spec's error classes, by status code. *)
Definition NotFound (e : HTTPException) : Prop := status_code e = 404.
Definition InvalidState (e : HTTPException) : Prop := status_code e = 400.

(** the answer to an exception the handler does not catch *)
Definition internal_server_error : HTTPException :=
  {| status_code := 500; detail := "Internal Server Error" |}.

(** a Python [int] the store can encode: a BSON integer has at most 8 bytes *)
Definition fits_int64 (n : Z) : bool := (- 2 ^ 63 <=? n) && (n <? 2 ^ 63).

(** a Python [int] that [float * int] can convert to a float: one that does
    not round to 2^1024 or beyond *)
Definition fits_double (n : Z) : bool := Z.abs n <? 2 ^ 1024 - 2 ^ 970.

(** ** List operations behind the store primitives *)

Section FirstMatch.
Context {D : Type}.

(** first document matching [q] replaced by [d]; [None] when none matches *)
Fixpoint replace_first (q : D -> bool) (d : D) (l : list D) : option (list D) :=
  match l with
  | [] => None
  | x :: r => if q x then Some (d :: r)
              else option_map (cons x) (replace_first q d r)
  end.

(** first document matching [q] rewritten by [f] *)
Fixpoint update_first (q : D -> bool) (f : D -> D) (l : list D) : list D :=
  match l with
  | [] => []
  | x :: r => if q x then f x :: r else x :: update_first q f r
  end.

(** first document matching [q] removed *)
Fixpoint delete_first (q : D -> bool) (l : list D) : list D :=
  match l with
  | [] => []
  | x :: r => if q x then r else x :: delete_first q r
  end.

(** position of the first element matching [q] *)
Fixpoint find_index (q : D -> bool) (l : list D) : option nat :=
  match l with
  | [] => None
  | x :: r => if q x then Some O else option_map S (find_index q r)
  end.

(** in-place update of the element at position [i] *)
Fixpoint update_at (i : nat) (f : D -> D) (l : list D) : list D :=
  match l, i with
  | [], _ => []
  | x :: r, O => f x :: r
  | x :: r, S j => x :: update_at j f r
  end.
End FirstMatch.

Section MicroMart.
Context {float : Type} {FO : FloatOps float}.

(** ** Data model (the pydantic models, which are also the stored documents) *)

Record User : Type := {
  u_id : string;
  u_email : string;
  u_first_name : string;
  u_last_name : string;
  u_created_at : datetime
}.

Record Product : Type := {
  p_id : string;
  p_name : string;
  p_description : string;
  p_price : float;
  p_image_url : string;
  p_category : string;
  p_stock : Z;
  p_created_at : datetime
}.

Record ProductCreate : Type := {
  pc_name : string;
  pc_description : string;
  pc_price : float;
  pc_image_url : string;
  pc_category : string;
  pc_stock : Z
}.

Record CartItem : Type := {
  ci_product_id : string;
  ci_quantity : Z;
  ci_price : float
}.

Record Cart : Type := {
  cart_id : string;
  cart_user_id : string;
  cart_items : list CartItem;
  cart_total : float;
  cart_updated_at : datetime
}.

Record AddToCartRequest : Type := {
  req_product_id : string;
  req_quantity : Z
}.

Record OrderItem : Type := {
  oi_product_id : string;
  oi_product_name : string;
  oi_quantity : Z;
  oi_price : float
}.

Record Order : Type := {
  order_id : string;
  order_user_id : string;
  order_items : list OrderItem;
  order_total : float;
  order_status : string;
  order_shipping_address : string;
  order_created_at : datetime
}.

Record OrderCreate : Type := {
  oc_shipping_address : string
}.

Record Payment : Type := {
  pay_id : string;
  pay_order_id : string;
  pay_amount : float;
  pay_status : string;
  pay_payment_method : string;
  pay_created_at : datetime
}.

(** [Cart(user_id=...)]: the defaults of the model *)
Definition Cart_new (env : Env) (uid : string) : Cart :=
  {| cart_id := uuid4 env 0;
     cart_user_id := uid;
     cart_items := [];
     cart_total := f_zero;
     cart_updated_at := utcnow env 0 |}.

(** the [Product] built from the fields of a [ProductCreate] *)
Definition Product_new (ident : string) (now : datetime) (d : ProductCreate) : Product :=
  {| p_id := ident;
     p_name := pc_name d;
     p_description := pc_description d;
     p_price := pc_price d;
     p_image_url := pc_image_url d;
     p_category := pc_category d;
     p_stock := pc_stock d;
     p_created_at := now |}.

(** ** The store *)

Record Db : Type := {
  products : list Product;
  carts : list Cart;
  orders : list Order;
  payments : list Payment
}.

Definition empty_db : Db :=
  {| products := []; carts := []; orders := []; payments := [] |}.

(** A collection of the store: how to read it and how to write it back. *)
Record Collection (D : Type) : Type := {
  coll_get : Db -> list D;
  coll_set : list D -> Db -> Db
}.
Arguments coll_get {D} _ _.
Arguments coll_set {D} _ _ _.

Definition db_products : Collection Product :=
  {| coll_get := products;
     coll_set := fun l db => {| products := l; carts := carts db;
                                orders := orders db; payments := payments db |} |}.
Definition db_carts : Collection Cart :=
  {| coll_get := carts;
     coll_set := fun l db => {| products := products db; carts := l;
                                orders := orders db; payments := payments db |} |}.
Definition db_orders : Collection Order :=
  {| coll_get := orders;
     coll_set := fun l db => {| products := products db; carts := carts db;
                                orders := l; payments := payments db |} |}.
Definition db_payments : Collection Payment :=
  {| coll_get := payments;
     coll_set := fun l db => {| products := products db; carts := carts db;
                                orders := orders db; payments := l |} |}.

(** ** The handler monad: store passing with exceptions *)

Definition M (A : Type) : Type := Db -> Db * (HTTPException + A).

Definition ret {A : Type} (a : A) : M A := fun db => (db, inr a).

Definition raise {A : Type} (e : HTTPException) : M A := fun db => (db, inl e).

Definition bind {A B : Type} (m : M A) (k : A -> M B) : M B :=
  fun db => match m db with
            | (db', inl e) => (db', inl e)
            | (db', inr a) => k a db'
            end.

Notation "x <- m ;; k" := (bind m (fun x => k))
  (at level 61, m at next level, right associativity).
Notation "m ;;; k" := (bind m (fun _ => k))
  (at level 61, right associativity).

(** ** Store primitives (the motor collection methods the handlers call) *)

Definition find_one {D : Type} (c : Collection D) (q : D -> bool) : M (option D) :=
  fun db => (db, inr (find q (coll_get c db))).

(** [find(q).to_list(n)] *)
Definition find_to_list {D : Type} (c : Collection D) (q : D -> bool) (n : nat)
  : M (list D) :=
  fun db => (db, inr (firstn n (filter q (coll_get c db)))).

Definition count_documents {D : Type} (c : Collection D) : M Z :=
  fun db => (db, inr (Z.of_nat (List.length (coll_get c db)))).

Definition insert_one {D : Type} (c : Collection D) (d : D) : M unit :=
  fun db => (coll_set c (coll_get c db ++ [d]) db, inr tt).

Definition insert_many {D : Type} (c : Collection D) (ds : list D) : M unit :=
  fun db => (coll_set c (coll_get c db ++ ds) db, inr tt).

Definition replace_one {D : Type} (c : Collection D) (q : D -> bool) (d : D)
  (upsert : bool) : M unit :=
  fun db =>
    match replace_first q d (coll_get c db) with
    | Some l => (coll_set c l db, inr tt)
    | None => if upsert then (coll_set c (coll_get c db ++ [d]) db, inr tt)
              else (db, inr tt)
    end.

Definition update_one {D : Type} (c : Collection D) (q : D -> bool) (f : D -> D)
  : M unit :=
  fun db => (coll_set c (update_first q f (coll_get c db)) db, inr tt).

Definition delete_one {D : Type} (c : Collection D) (q : D -> bool) : M unit :=
  fun db => (coll_set c (delete_first q (coll_get c db)) db, inr tt).

(** Filters. *)
Definition product_by_id (pid : string) (p : Product) : bool :=
  String.eqb (p_id p) pid.
Definition cart_by_user (uid : string) (c : Cart) : bool :=
  String.eqb (cart_user_id c) uid.
Definition order_by_id (oid : string) (o : Order) : bool :=
  String.eqb (order_id o) oid.
Definition order_by_user (uid : string) (o : Order) : bool :=
  String.eqb (order_user_id o) uid.
Definition order_by_id_user (oid uid : string) (o : Order) : bool :=
  String.eqb (order_id o) oid && String.eqb (order_user_id o) uid.

(** ** Cart service *)

(** [sum(item.price * item.quantity for item in items)] *)
Definition cart_sum (items : list CartItem) : float :=
  fold_left (fun acc it => f_add acc (f_mul_int (ci_price it) (ci_quantity it)))
            items f_zero.

(** GET /cart *)
Definition get_cart (env : Env) (current_user : User) : M Cart :=
  cart_data <- find_one db_carts (cart_by_user (u_id current_user)) ;;
  match cart_data with
  | None =>
      let cart := Cart_new env (u_id current_user) in
      insert_one db_carts cart ;;;
      ret cart
  | Some cart => ret cart
  end.

(** [existing_item.quantity += n]: the item is the one stored in the list *)
Definition add_quantity (n : Z) (ci : CartItem) : CartItem :=
  {| ci_product_id := ci_product_id ci;
     ci_quantity := ci_quantity ci + n;
     ci_price := ci_price ci |}.

Definition item_is (pid : string) (ci : CartItem) : bool :=
  String.eqb (ci_product_id ci) pid.

(** every quantity converts to a float in [item.price * item.quantity] *)
Definition quantities_convert (items : list CartItem) : bool :=
  forallb (fun it => fits_double (ci_quantity it)) items.

(** every quantity can be encoded when [cart.dict()] is written *)
Definition quantities_fit (items : list CartItem) : bool :=
  forallb (fun it => fits_int64 (ci_quantity it)) items.

(** POST /cart/add.  [existing_item] is a reference into [cart.items],
    kept here as the position of the item it points to.  The sum raises
    [OverflowError] on a quantity too large for a float, and the write on a
    quantity of more than 8 bytes; [updated_at] is the second clock reading
    when [Cart(...)] has taken the first. *)
Definition add_to_cart (env : Env) (item : AddToCartRequest) (current_user : User)
  : M string :=
  product <- find_one db_products (product_by_id (req_product_id item)) ;;
  match product with
  | None => raise {| status_code := 404; detail := "Product not found" |}
  | Some product =>
      cart_data <- find_one db_carts (cart_by_user (u_id current_user)) ;;
      let cart := match cart_data with
                  | None => Cart_new env (u_id current_user)
                  | Some c => c
                  end in
      let existing_item := find_index (item_is (req_product_id item)) (cart_items cart) in
      let items :=
        match existing_item with
        | Some i => update_at i (add_quantity (req_quantity item)) (cart_items cart)
        | None => cart_items cart ++
                    [ {| ci_product_id := req_product_id item;
                         ci_quantity := req_quantity item;
                         ci_price := p_price product |} ]
        end in
      if negb (quantities_convert items) then raise internal_server_error
      else
        let now := utcnow env match cart_data with None => 1%nat | Some _ => 0%nat end in
        if negb (quantities_fit items) then raise internal_server_error
        else
          replace_one db_carts (cart_by_user (u_id current_user))
            {| cart_id := cart_id cart;
               cart_user_id := cart_user_id cart;
               cart_items := items;
               cart_total := cart_sum items;
               cart_updated_at := now |}
            true ;;;
          ret "Item added to cart"
  end.

(** DELETE /cart/remove/{product_id} *)
Definition remove_from_cart (env : Env) (product_id : string) (current_user : User)
  : M string :=
  cart_data <- find_one db_carts (cart_by_user (u_id current_user)) ;;
  match cart_data with
  | None => raise {| status_code := 404; detail := "Cart not found" |}
  | Some cart =>
      let items := filter (fun it => negb (item_is product_id it)) (cart_items cart) in
      replace_one db_carts (cart_by_user (u_id current_user))
        {| cart_id := cart_id cart;
           cart_user_id := cart_user_id cart;
           cart_items := items;
           cart_total := cart_sum items;
           cart_updated_at := utcnow env 0 |}
        false ;;;
      ret "Item removed from cart"
  end.

(** ** Order service *)

(** a [for] loop whose body talks to the store, with the loop-carried value *)
Fixpoint for_each {A S : Type} (l : list A) (body : S -> A -> M S) (s : S) : M S :=
  match l with
  | [] => ret s
  | x :: r => s' <- body s x ;; for_each r body s'
  end.

(** POST /orders *)
Definition create_order (env : Env) (order_data : OrderCreate) (current_user : User)
  : M Order :=
  cart_data <- find_one db_carts (cart_by_user (u_id current_user)) ;;
  match cart_data with
  | None => raise {| status_code := 400; detail := "Cart is empty" |}
  | Some cart =>
      match cart_items cart with
      | [] => raise {| status_code := 400; detail := "Cart is empty" |}
      | _ :: _ =>
          order_items <-
            for_each (cart_items cart)
              (fun order_items cart_item =>
                 product <- find_one db_products
                              (product_by_id (ci_product_id cart_item)) ;;
                 match product with
                 | Some product =>
                     ret (order_items ++
                            [ {| oi_product_id := ci_product_id cart_item;
                                 oi_product_name := p_name product;
                                 oi_quantity := ci_quantity cart_item;
                                 oi_price := ci_price cart_item |} ])
                 | None => ret order_items
                 end)
              [] ;;
          let order :=
            {| order_id := uuid4 env 0;
               order_user_id := u_id current_user;
               order_items := order_items;
               order_total := cart_total cart;
               order_status := "pending";
               order_shipping_address := oc_shipping_address order_data;
               order_created_at := utcnow env 0 |} in
          insert_one db_orders order ;;;
          delete_one db_carts (cart_by_user (u_id current_user)) ;;;
          ret order
      end
  end.

(** GET /orders *)
Definition get_orders (current_user : User) : M (list Order) :=
  find_to_list db_orders (order_by_user (u_id current_user)) 100.

(** GET /orders/{order_id} *)
Definition get_order (oid : string) (current_user : User) : M Order :=
  order <- find_one db_orders (order_by_id_user oid (u_id current_user)) ;;
  match order with
  | None => raise {| status_code := 404; detail := "Order not found" |}
  | Some order => ret order
  end.

(** ** Payment service *)

(** [{"$set": {"status": s}}] *)
Definition set_status (s : string) (o : Order) : Order :=
  {| order_id := order_id o;
     order_user_id := order_user_id o;
     order_items := order_items o;
     order_total := order_total o;
     order_status := s;
     order_shipping_address := order_shipping_address o;
     order_created_at := order_created_at o |}.

(** POST /payments/{order_id} *)
Definition process_payment (env : Env) (oid : string) (current_user : User)
  : M Payment :=
  order <- find_one db_orders (order_by_id_user oid (u_id current_user)) ;;
  match order with
  | None => raise {| status_code := 404; detail := "Order not found" |}
  | Some order =>
      let payment :=
        {| pay_id := uuid4 env 0;
           pay_order_id := oid;
           pay_amount := order_total order;
           pay_status := "completed";
           pay_payment_method := "mock";
           pay_created_at := utcnow env 0 |} in
      insert_one db_payments payment ;;;
      update_one db_orders (order_by_id oid) (set_status "paid") ;;;
      ret payment
  end.

(** ** Product service *)

(** GET /products/{product_id} *)
Definition get_product (pid : string) : M Product :=
  product <- find_one db_products (product_by_id pid) ;;
  match product with
  | None => raise {| status_code := 404; detail := "Product not found" |}
  | Some product => ret product
  end.

(** POST /products.  The write raises [OverflowError] on a stock of more
    than 8 bytes. *)
Definition create_product (env : Env) (product_data : ProductCreate) : M Product :=
  let product := Product_new (uuid4 env 0) (utcnow env 0) product_data in
  if negb (fits_int64 (p_stock product)) then raise internal_server_error
  else
    insert_one db_products product ;;;
    ret product.

(** ** Catalog seed *)

Definition sample_products : list ProductCreate :=
  [
    {| pc_name := "Premium Dental Care Set";
       pc_description := "Complete oral care solution with professional-grade toothpaste and accessories";
       pc_price := f_lit 2999 2;
       pc_image_url := "https://images.unsplash.com/photo-1691096673040-1632eb4b0a9d?crop=entropy&cs=srgb&fm=jpg&ixid=M3w3NTY2NzB8MHwxfHNlYXJjaHwxfHxlY29tbWVyY2UlMjBwcm9kdWN0c3xlbnwwfHx8fDE3NTc4OTg1Mjd8MA&ixlib=rb-4.1.0&q=85";
       pc_category := "Health & Beauty";
       pc_stock := 50 |};
    {| pc_name := "Professional Toothpaste Duo";
       pc_description := "Twin pack of premium fluoride toothpaste for complete dental protection";
       pc_price := f_lit 1999 2;
       pc_image_url := "https://images.unsplash.com/photo-1691096673789-ae6a7492fd97?crop=entropy&cs=srgb&fm=jpg&ixid=M3w3NTY2NzB8MHwxfHNlYXJjaHwyfHxlY29tbWVyY2UlMjBwcm9kdWN0c3xlbnwwfHx8fDE3NTc4OTg1Mjd8MA&ixlib=rb-4.1.0&q=85";
       pc_category := "Health & Beauty";
       pc_stock := 75 |};
    {| pc_name := "Lifestyle Essentials Bundle";
       pc_description := "Curated collection of daily essentials and wellness products";
       pc_price := f_lit 8999 2;
       pc_image_url := "https://images.unsplash.com/photo-1691096674326-74cfe19c04cc?crop=entropy&cs=srgb&fm=jpg&ixid=M3w3NTY2NzB8MHwxfHNlYXJjaHwzfHxlY29tbWVyY2UlMjBwcm9kdWN0c3xlbnwwfHx8fDE3NTc4OTg1Mjd8MA&ixlib=rb-4.1.0&q=85";
       pc_category := "Lifestyle";
       pc_stock := 30 |};
    {| pc_name := "Complete Oral Health Kit";
       pc_description := "Professional dental care system with advanced whitening formula";
       pc_price := f_lit 4599 2;
       pc_image_url := "https://images.unsplash.com/photo-1691096674749-29069acd529c?crop=entropy&cs=srgb&fm=jpg&ixid=M3w3NTY2NzB8MHwxfHNlYXJjaHw0fHxlY29tbWVyY2UlMjBwcm9kdWN0c3xlbnwwfHx8fDE3NTc4OTg1Mjd8MA&ixlib=rb-4.1.0&q=85";
       pc_category := "Health & Beauty";
       pc_stock := 40 |};
    {| pc_name := "Glossier Beauty Collection";
       pc_description := "Premium cosmetics and skincare products for modern beauty routines";
       pc_price := f_lit 12500 2;
       pc_image_url := "https://images.unsplash.com/photo-1629198688000-71f23e745b6e?crop=entropy&cs=srgb&fm=jpg&ixid=M3w3NDQ2NDF8MHwxfHNlYXJjaHwxfHxwcm9kdWN0c3xlbnwwfHx8fDE3NTc4OTg1MzJ8MA&ixlib=rb-4.1.0&q=85";
       pc_category := "Beauty";
       pc_stock := 25 |};
    {| pc_name := "Nike Air Performance Sneaker";
       pc_description := "High-performance athletic footwear with advanced cushioning technology";
       pc_price := f_lit 15999 2;
       pc_image_url := "https://images.unsplash.com/photo-1542291026-7eec264c27ff?crop=entropy&cs=srgb&fm=jpg&ixid=M3w3NDQ2NDF8MHwxfHNlYXJjaHwyfHxwcm9kdWN0c3xlbnwwfHx8fDE3NTc4OTg1MzJ8MA&ixlib=rb-4.1.0&q=85";
       pc_category := "Fashion";
       pc_stock := 60 |};
    {| pc_name := "Curology Skincare System";
       pc_description := "Personalized skincare solution with custom formulated treatments";
       pc_price := f_lit 7999 2;
       pc_image_url := "https://images.unsplash.com/photo-1571781926291-c477ebfd024b?crop=entropy&cs=srgb&fm=jpg&ixid=M3w3NDQ2NDF8MHwxfHNlYXJjaHwzfHxwcm9kdWN0c3xlbnwwfHx8fDE3NTc4OTg1MzJ8MA&ixlib=rb-4.1.0&q=85";
       pc_category := "Skincare";
       pc_stock := 35 |};
    {| pc_name := "Minimalist Bottle Collection";
       pc_description := "Elegant glass bottles perfect for storage and home organization";
       pc_price := f_lit 3999 2;
       pc_image_url := "https://images.unsplash.com/photo-1611930022073-b7a4ba5fcccd?crop=entropy&cs=srgb&fm=jpg&ixid=M3w3NDQ2NDF8MHwxfHNlYXJjaHw0fHxwcm9kdWN0c3xlbnwwfHx8fDE3NTc4OTg1MzJ8MA&ixlib=rb-4.1.0&q=85";
       pc_category := "Home & Living";
       pc_stock := 20 |}
  ].

(** [[Product(...) for product_data in l]]: the k-th model draws the k-th
    identifier and clock reading *)
Fixpoint products_from (env : Env) (k : nat) (l : list ProductCreate) : list Product :=
  match l with
  | [] => []
  | d :: r => Product_new (uuid4 env k) (utcnow env k) d :: products_from env (S k) r
  end.

(** [str(n)] for a length *)
Definition str_of_len (n : nat) : string := NilZero.string_of_uint (Nat.to_uint n).

(** POST /admin/init-products *)
Definition initialize_sample_products (env : Env) : M string :=
  existing_products <- count_documents db_products ;;
  if 0 <? existing_products then ret "Products already initialized"
  else
    let products := products_from env 0 sample_products in
    insert_many db_products products ;;;
    ret ("Initialized " ++ str_of_len (List.length products) ++ " sample products")%string.

(** ** Requests and runs of the service *)

Inductive Request : Type :=
| GetProduct (product_id : string)
| CreateProduct (product_data : ProductCreate)
| GetCart (current_user : User)
| AddToCart (item : AddToCartRequest) (current_user : User)
| RemoveFromCart (product_id : string) (current_user : User)
| CreateOrder (order_data : OrderCreate) (current_user : User)
| GetOrders (current_user : User)
| GetOrder (order_id : string) (current_user : User)
| ProcessPayment (order_id : string) (current_user : User)
| InitializeSampleProducts.

Inductive Response : Type :=
| RProduct (p : Product)
| RCart (c : Cart)
| ROrder (o : Order)
| ROrders (l : list Order)
| RPayment (p : Payment)
| RMessage (message : string).

Definition fmap {A B : Type} (f : A -> B) (m : M A) : M B :=
  a <- m ;; ret (f a).

(** the router: one request served against the store *)
Definition handle (env : Env) (r : Request) : M Response :=
  match r with
  | GetProduct pid => fmap RProduct (get_product pid)
  | CreateProduct d => fmap RProduct (create_product env d)
  | GetCart u => fmap RCart (get_cart env u)
  | AddToCart item u => fmap RMessage (add_to_cart env item u)
  | RemoveFromCart pid u => fmap RMessage (remove_from_cart env pid u)
  | CreateOrder od u => fmap ROrder (create_order env od u)
  | GetOrders u => fmap ROrders (get_orders u)
  | GetOrder oid u => fmap ROrder (get_order oid u)
  | ProcessPayment oid u => fmap RPayment (process_payment env oid u)
  | InitializeSampleProducts => fmap RMessage (initialize_sample_products env)
  end.

Definition step (db : Db) (er : Env * Request) : Db :=
  fst (handle (fst er) (snd er) db).

(** the store after serving the requests of [trace] in order *)
Definition run (trace : list (Env * Request)) (db : Db) : Db :=
  fold_left step trace db.

(** the stores the service can reach from an empty database *)
Definition reachable (db : Db) : Prop :=
  exists trace, db = run trace empty_db.

(** [find_one] on the carts of a store, as a plain function *)
Definition cart_of (uid : string) (db : Db) : option Cart :=
  find (cart_by_user uid) (carts db).

Definition product_of (pid : string) (db : Db) : option Product :=
  find (product_by_id pid) (products db).


(** ** Invariants of the store *)

(** a cart whose stored total is the sum over its items, with one line
    item per product id *)
Definition cart_ok (c : Cart) : Prop :=
  cart_total c = cart_sum (cart_items c) /\
  NoDup (map ci_product_id (cart_items c)).

Definition status_ok (o : Order) : Prop :=
  order_status o = "pending" \/ order_status o = "paid".

Definition store_ok (db : Db) : Prop :=
  Forall cart_ok (carts db) /\
  NoDup (map cart_user_id (carts db)) /\
  Forall status_ok (orders db).

(** * Facts about the list operations *)

Lemma replace_first_none {D : Type} (q : D -> bool) (d : D) (l : list D) :
  replace_first q d l = None <-> find q l = None.
Proof.
  induction l as [|x r IH]; simpl; [tauto|].
  destruct (q x); [split; discriminate|].
  destruct (replace_first q d r); simpl; split; intro E;
    try discriminate; try (apply IH; assumption).
  apply IH in E. discriminate.
Qed.

Lemma replace_first_find {D : Type} (q : D -> bool) (d : D) (l l' : list D) :
  replace_first q d l = Some l' -> q d = true -> find q l' = Some d.
Proof.
  revert l'. induction l as [|x r IH]; simpl; intros l' E Hd; [discriminate|].
  destruct (q x) eqn:Hx.
  - injection E as <-. simpl. now rewrite Hd.
  - destruct (replace_first q d r) as [r'|]; [|discriminate].
    injection E as <-. simpl. rewrite Hx. now apply IH.
Qed.

Lemma replace_first_Forall {D : Type} (P : D -> Prop) (q : D -> bool) (d : D)
  (l l' : list D) :
  Forall P l -> P d -> replace_first q d l = Some l' -> Forall P l'.
Proof.
  intros Hl Hd. revert l'. induction Hl as [|x r Hx Hr IH]; simpl; intros l' E;
    [discriminate|].
  destruct (q x).
  - injection E as <-. now constructor.
  - destruct (replace_first q d r) as [r'|]; [|discriminate].
    injection E as <-. constructor; auto.
Qed.

Lemma replace_first_map {D K : Type} (k : D -> K) (q : D -> bool) (d : D)
  (l l' : list D) :
  (forall x, q x = true -> k x = k d) ->
  replace_first q d l = Some l' -> map k l' = map k l.
Proof.
  intros Hq. revert l'. induction l as [|x r IH]; simpl; intros l' E; [discriminate|].
  destruct (q x) eqn:Hx.
  - injection E as <-. simpl. now rewrite (Hq x Hx).
  - destruct (replace_first q d r) as [r'|]; [|discriminate].
    injection E as <-. simpl. f_equal. now apply IH.
Qed.

Lemma find_app {D : Type} (q : D -> bool) (l1 l2 : list D) :
  find q (l1 ++ l2) = match find q l1 with Some x => Some x | None => find q l2 end.
Proof.
  induction l1 as [|x r IH]; simpl; [reflexivity|]. now destruct (q x).
Qed.

Lemma delete_first_Forall {D : Type} (P : D -> Prop) (q : D -> bool) (l : list D) :
  Forall P l -> Forall P (delete_first q l).
Proof.
  induction 1 as [|x r Hx Hr IH]; simpl; [constructor|].
  destruct (q x); [assumption|now constructor].
Qed.

Lemma delete_first_incl {D : Type} (q : D -> bool) (l : list D) :
  incl (delete_first q l) l.
Proof.
  induction l as [|x r IH]; simpl; [apply incl_refl|].
  destruct (q x); [apply incl_tl, incl_refl|].
  intros y [->|Hy]; [now left|right; now apply IH].
Qed.

Lemma delete_first_NoDup {D K : Type} (k : D -> K) (q : D -> bool) (l : list D) :
  NoDup (map k l) -> NoDup (map k (delete_first q l)).
Proof.
  induction l as [|x r IH]; simpl; intros Hn; [constructor|].
  inversion Hn as [|? ? Hx Hr]; subst.
  destruct (q x); [assumption|]. simpl. constructor; [|now apply IH].
  intros Hin. apply Hx. apply in_map_iff in Hin as [y [Ey Hy]].
  apply in_map_iff. exists y. split; [assumption|].
  now apply (delete_first_incl q r).
Qed.

(** with one document per key, deleting the first match leaves no match *)
Lemma delete_first_find {D K : Type} (k : D -> K) (key : K) (q : D -> bool)
  (l : list D) :
  (forall x, q x = true <-> k x = key) ->
  NoDup (map k l) -> find q (delete_first q l) = None.
Proof.
  intros Hq. induction l as [|x r IH]; simpl; intros Hn; [reflexivity|].
  inversion Hn as [|? ? Hx Hr]; subst.
  destruct (q x) eqn:Ex.
  - destruct (find q r) as [y|] eqn:Ey; [|reflexivity].
    exfalso. apply Hx. apply find_some in Ey as [Hy Qy].
    apply Hq in Ex. apply Hq in Qy. rewrite Ex, <- Qy. now apply in_map.
  - simpl. rewrite Ex. now apply IH.
Qed.

Lemma NoDup_map_snoc {D K : Type} (k : D -> K) (q : D -> bool) (d : D) (l : list D) :
  (forall x, k x = k d -> q x = true) ->
  find q l = None -> NoDup (map k l) -> NoDup (map k (l ++ [d])).
Proof.
  intros Hq Hf Hn. rewrite map_app. simpl.
  apply NoDup_app.
  - assumption.
  - constructor; [intros []|constructor].
  - intros a Ha [<-|[]]. apply in_map_iff in Ha as [x [Ex Hx]].
    apply (find_none _ _ Hf) in Hx. rewrite (Hq x Ex) in Hx. discriminate.
Qed.

Lemma update_first_Forall {D : Type} (P : D -> Prop) (q : D -> bool) (f : D -> D)
  (l : list D) :
  (forall x, P x -> P (f x)) -> Forall P l -> Forall P (update_first q f l).
Proof.
  intros Hf. induction 1 as [|x r Hx Hr IH]; simpl; [constructor|].
  destruct (q x); constructor; auto.
Qed.

(** what [find_index] finds: the first matching position *)
Lemma find_index_some {D : Type} (q : D -> bool) (l : list D) (i : nat) :
  find_index q l = Some i ->
  exists l1 x l2, l = l1 ++ x :: l2 /\ List.length l1 = i /\ q x = true /\
                  Forall (fun y => q y = false) l1.
Proof.
  revert i. induction l as [|x r IH]; simpl; intros i E; [discriminate|].
  destruct (q x) eqn:Hx.
  - injection E as <-. exists [], x, r. repeat split; auto.
  - destruct (find_index q r) as [j|]; [|discriminate]. injection E as <-.
    destruct (IH j eq_refl) as (l1 & y & l2 & -> & Hl & Hy & H1).
    exists (x :: l1), y, l2. simpl. repeat split; auto.
Qed.

Lemma find_index_none {D : Type} (q : D -> bool) (l : list D) :
  find_index q l = None <-> Forall (fun y => q y = false) l.
Proof.
  induction l as [|x r IH]; simpl; [split; auto|].
  destruct (q x) eqn:Hx.
  - split; [discriminate|]. intros Hn. inversion Hn; congruence.
  - destruct (find_index q r); simpl; split; intros Hn; try discriminate.
    + inversion Hn as [|? ? _ Hr]; subst. apply IH in Hr. discriminate.
    + constructor; [assumption|now apply IH].
    + reflexivity.
Qed.

Lemma find_index_first {D : Type} (q : D -> bool) (l1 l2 : list D) (x : D) :
  Forall (fun y => q y = false) l1 -> q x = true ->
  find_index q (l1 ++ x :: l2) = Some (List.length l1).
Proof.
  induction 1 as [|y r Hy Hr IH]; simpl; intros Hx.
  - now rewrite Hx.
  - rewrite Hy, IH by assumption. reflexivity.
Qed.

Lemma update_at_app {D : Type} (f : D -> D) (l1 l2 : list D) (x : D) :
  update_at (List.length l1) f (l1 ++ x :: l2) = l1 ++ f x :: l2.
Proof.
  induction l1 as [|y r IH]; simpl; [reflexivity|]. now rewrite IH.
Qed.


(** * What each handler does to the store *)

Ltac unfold_store :=
  unfold bind, ret, raise, find_one, find_to_list, count_documents, insert_one,
    insert_many, replace_one, update_one, delete_one;
  cbn [coll_get coll_set db_products db_carts db_orders db_payments
       products carts orders payments fst snd].

(** the cart [add_to_cart] writes back *)
Definition cart_after_add (env : Env) (item : AddToCartRequest) (product : Product)
  (uid : string) (cart_data : option Cart) : Cart :=
  let cart := match cart_data with None => Cart_new env uid | Some c => c end in
  let items :=
    match find_index (item_is (req_product_id item)) (cart_items cart) with
    | Some i => update_at i (add_quantity (req_quantity item)) (cart_items cart)
    | None => cart_items cart ++
                [ {| ci_product_id := req_product_id item;
                     ci_quantity := req_quantity item;
                     ci_price := p_price product |} ]
    end in
  {| cart_id := cart_id cart;
     cart_user_id := cart_user_id cart;
     cart_items := items;
     cart_total := cart_sum items;
     cart_updated_at :=
       utcnow env match cart_data with None => 1%nat | Some _ => 0%nat end |}.

Lemma fits_int64_double (n : Z) : fits_int64 n = true -> fits_double n = true.
Proof.
  unfold fits_int64, fits_double. rewrite andb_true_iff, Z.leb_le, !Z.ltb_lt.
  assert (H : 2 ^ 63 < 2 ^ 1024 - 2 ^ 970) by reflexivity.
  set (a := 2 ^ 63) in *. set (b := 2 ^ 1024 - 2 ^ 970) in *. lia.
Qed.

Lemma quantities_fit_convert (items : list CartItem) :
  quantities_fit items = true -> quantities_convert items = true.
Proof.
  unfold quantities_fit, quantities_convert. rewrite !forallb_forall.
  intros H it Hit. apply fits_int64_double. now apply H.
Qed.

Lemma add_to_cart_run (env : Env) (item : AddToCartRequest) (u : User) (db : Db) :
  add_to_cart env item u db =
  match product_of (req_product_id item) db with
  | None => (db, inl {| status_code := 404; detail := "Product not found" |})
  | Some product =>
      let cart' := cart_after_add env item product (u_id u) (cart_of (u_id u) db) in
      if quantities_fit (cart_items cart')
      then (coll_set db_carts
              (match replace_first (cart_by_user (u_id u)) cart' (carts db) with
               | Some l => l
               | None => carts db ++ [cart']
               end) db,
            inr "Item added to cart")
      else (db, inl internal_server_error)
  end.
Proof.
  unfold add_to_cart, product_of, cart_of, cart_after_add. unfold_store.
  destruct (find (product_by_id (req_product_id item)) (products db)); [|reflexivity].
  cbn zeta. cbn [cart_items].
  match goal with |- context [quantities_fit ?l] =>
    destruct (quantities_fit l) eqn:Hfit;
    [rewrite (quantities_fit_convert l Hfit)|destruct (quantities_convert l)] end;
    cbn [negb]; try reflexivity.
  match goal with |- context [replace_first ?q ?c ?l] =>
    destruct (replace_first q c l) end; reflexivity.
Qed.

Lemma create_product_run (env : Env) (d : ProductCreate) (db : Db) :
  create_product env d db =
  if fits_int64 (pc_stock d)
  then (coll_set db_products
          (products db ++ [Product_new (uuid4 env 0) (utcnow env 0) d]) db,
        inr (Product_new (uuid4 env 0) (utcnow env 0) d))
  else (db, inl internal_server_error).
Proof.
  unfold create_product. cbn [p_stock Product_new].
  destruct (fits_int64 (pc_stock d)); reflexivity.
Qed.

Lemma remove_from_cart_run (env : Env) (pid : string) (u : User) (db : Db) :
  remove_from_cart env pid u db =
  match cart_of (u_id u) db with
  | None => (db, inl {| status_code := 404; detail := "Cart not found" |})
  | Some cart =>
      let items := filter (fun it => negb (item_is pid it)) (cart_items cart) in
      let cart' := {| cart_id := cart_id cart;
                      cart_user_id := cart_user_id cart;
                      cart_items := items;
                      cart_total := cart_sum items;
                      cart_updated_at := utcnow env 0 |} in
      (match replace_first (cart_by_user (u_id u)) cart' (carts db) with
       | Some l => coll_set db_carts l db
       | None => db
       end,
       inr "Item removed from cart")
  end.
Proof.
  unfold remove_from_cart, cart_of. unfold_store.
  destruct (find (cart_by_user (u_id u)) (carts db)); [|reflexivity].
  cbn zeta.
  match goal with |- context [replace_first ?q ?c ?l] =>
    destruct (replace_first q c l) end; reflexivity.
Qed.

Lemma get_cart_run (env : Env) (u : User) (db : Db) :
  get_cart env u db =
  match cart_of (u_id u) db with
  | None => (coll_set db_carts (carts db ++ [Cart_new env (u_id u)]) db,
             inr (Cart_new env (u_id u)))
  | Some cart => (db, inr cart)
  end.
Proof.
  unfold get_cart, cart_of. unfold_store.
  destruct (find (cart_by_user (u_id u)) (carts db)); reflexivity.
Qed.

(** the order line items a cart line item gives rise to: one, or none when
    its product does not resolve *)
Definition order_lines (db : Db) (ci : CartItem) : list OrderItem :=
  match product_of (ci_product_id ci) db with
  | Some product => [ {| oi_product_id := ci_product_id ci;
                         oi_product_name := p_name product;
                         oi_quantity := ci_quantity ci;
                         oi_price := ci_price ci |} ]
  | None => []
  end.

Lemma order_items_loop (db : Db) (items : list CartItem) (acc : list OrderItem) :
  for_each items
    (fun order_items cart_item =>
       product <- find_one db_products (product_by_id (ci_product_id cart_item)) ;;
       match product with
       | Some product =>
           ret (order_items ++
                  [ {| oi_product_id := ci_product_id cart_item;
                       oi_product_name := p_name product;
                       oi_quantity := ci_quantity cart_item;
                       oi_price := ci_price cart_item |} ])
       | None => ret order_items
       end) acc db
  = (db, inr (acc ++ flat_map (order_lines db) items)).
Proof.
  revert acc. induction items as [|ci r IH]; intros acc; simpl.
  - unfold ret. now rewrite app_nil_r.
  - unfold bind at 1. unfold bind at 1. unfold find_one at 1. cbn [coll_get db_products].
    unfold order_lines at 1, product_of.
    destruct (find (product_by_id (ci_product_id ci)) (products db)) as [p|];
      unfold ret at 1; rewrite IH; [now rewrite <- app_assoc|reflexivity].
Qed.

Definition order_of_cart (env : Env) (order_data : OrderCreate) (uid : string)
  (db : Db) (cart : Cart) : Order :=
  {| order_id := uuid4 env 0;
     order_user_id := uid;
     order_items := flat_map (order_lines db) (cart_items cart);
     order_total := cart_total cart;
     order_status := "pending";
     order_shipping_address := oc_shipping_address order_data;
     order_created_at := utcnow env 0 |}.

Lemma create_order_run (env : Env) (od : OrderCreate) (u : User) (db : Db) :
  create_order env od u db =
  match cart_of (u_id u) db with
  | None => (db, inl {| status_code := 400; detail := "Cart is empty" |})
  | Some cart =>
      match cart_items cart with
      | [] => (db, inl {| status_code := 400; detail := "Cart is empty" |})
      | _ :: _ =>
          ({| products := products db;
              carts := delete_first (cart_by_user (u_id u)) (carts db);
              orders := orders db ++ [order_of_cart env od (u_id u) db cart];
              payments := payments db |},
           inr (order_of_cart env od (u_id u) db cart))
      end
  end.
Proof.
  unfold create_order, cart_of. unfold bind at 1. unfold find_one at 1.
  cbn [coll_get db_carts].
  destruct (find (cart_by_user (u_id u)) (carts db)) as [cart|]; [|reflexivity].
  destruct (cart_items cart) as [|ci r] eqn:E; [reflexivity|].
  unfold bind at 1. rewrite order_items_loop.
  unfold_store. unfold order_of_cart. rewrite E. reflexivity.
Qed.

Lemma process_payment_run (env : Env) (oid : string) (u : User) (db : Db) :
  process_payment env oid u db =
  match find (order_by_id_user oid (u_id u)) (orders db) with
  | None => (db, inl {| status_code := 404; detail := "Order not found" |})
  | Some order =>
      let payment := {| pay_id := uuid4 env 0;
                        pay_order_id := oid;
                        pay_amount := order_total order;
                        pay_status := "completed";
                        pay_payment_method := "mock";
                        pay_created_at := utcnow env 0 |} in
      ({| products := products db;
          carts := carts db;
          orders := update_first (order_by_id oid) (set_status "paid") (orders db);
          payments := payments db ++ [payment] |},
       inr payment)
  end.
Proof.
  unfold process_payment. unfold_store.
  destruct (find (order_by_id_user oid (u_id u)) (orders db)); reflexivity.
Qed.

Lemma initialize_sample_products_run (env : Env) (db : Db) :
  initialize_sample_products env db =
  match products db with
  | [] => (coll_set db_products (products_from env 0 sample_products) db,
           inr "Initialized 8 sample products")
  | _ :: _ => (db, inr "Products already initialized")
  end.
Proof.
  unfold initialize_sample_products. unfold_store.
  destruct (products db) as [|p r] eqn:E.
  - change (0 <? Z.of_nat (List.length (@nil Product))) with false.
    cbv beta iota. rewrite E. reflexivity.
  - replace (0 <? Z.of_nat (List.length (p :: r))) with true; [reflexivity|].
    symmetry. apply Z.ltb_lt. simpl List.length. lia.
Qed.


(** * The invariants hold in every reachable store *)

Lemma cart_by_user_true (uid : string) (c : Cart) :
  cart_by_user uid c = true <-> cart_user_id c = uid.
Proof. unfold cart_by_user. apply String.eqb_eq. Qed.

Lemma item_is_true (pid : string) (ci : CartItem) :
  item_is pid ci = true <-> ci_product_id ci = pid.
Proof. unfold item_is. apply String.eqb_eq. Qed.

Lemma item_is_false (pid : string) (ci : CartItem) :
  item_is pid ci = false <-> ci_product_id ci <> pid.
Proof. unfold item_is. apply String.eqb_neq. Qed.

Lemma cart_of_user (uid : string) (db : Db) (c : Cart) :
  cart_of uid db = Some c -> cart_user_id c = uid /\ In c (carts db).
Proof.
  unfold cart_of. intros E. apply find_some in E as [Hin Hq].
  split; [now apply cart_by_user_true|assumption].
Qed.

Lemma replace_cart_users (uid : string) (d : Cart) (l l' : list Cart) :
  cart_user_id d = uid ->
  replace_first (cart_by_user uid) d l = Some l' ->
  map cart_user_id l' = map cart_user_id l.
Proof.
  intros Hd E. apply (replace_first_map cart_user_id _ _ _ _) in E; [assumption|].
  intros x Hx. apply cart_by_user_true in Hx. congruence.
Qed.

Lemma update_at_map {D K : Type} (k : D -> K) (f : D -> D) (i : nat) (l : list D) :
  (forall x, k (f x) = k x) -> map k (update_at i f l) = map k l.
Proof.
  intros Hf. revert i. induction l as [|x r IH]; intros [|j]; simpl;
    rewrite ?Hf, ?IH; reflexivity.
Qed.

Lemma filter_map_NoDup {D K : Type} (k : D -> K) (p : D -> bool) (l : list D) :
  NoDup (map k l) -> NoDup (map k (filter p l)).
Proof.
  induction l as [|x r IH]; simpl; intros Hn; [constructor|].
  inversion Hn as [|? ? Hx Hr]; subst.
  destruct (p x); simpl; [constructor|]; auto.
  intros Hin. apply Hx. apply in_map_iff in Hin as [y [Ey Hy]].
  apply in_map_iff. exists y. split; [assumption|].
  now apply filter_In in Hy as [Hy _].
Qed.

Lemma cart_after_add_user (env : Env) (item : AddToCartRequest) (product : Product)
  (uid : string) (db : Db) :
  cart_user_id (cart_after_add env item product uid (cart_of uid db)) = uid.
Proof.
  unfold cart_after_add. cbn [cart_user_id].
  destruct (cart_of uid db) as [c|] eqn:E; [|reflexivity].
  now apply cart_of_user in E as [E _].
Qed.

Lemma cart_after_add_ok (env : Env) (item : AddToCartRequest) (product : Product)
  (uid : string) (cart_data : option Cart) :
  (forall c, cart_data = Some c -> NoDup (map ci_product_id (cart_items c))) ->
  cart_ok (cart_after_add env item product uid cart_data).
Proof.
  intros Hc. unfold cart_ok, cart_after_add. cbn [cart_total cart_items].
  split; [reflexivity|].
  assert (Hn : NoDup (map ci_product_id
            (cart_items match cart_data with
                        | Some c => c
                        | None => Cart_new env uid
                        end))).
  { destruct cart_data as [c|]; [now apply Hc|constructor]. }
  destruct (find_index _ _) as [i|] eqn:E.
  - rewrite update_at_map; [assumption|reflexivity].
  - rewrite map_app. simpl. apply NoDup_app; [assumption| |].
    + constructor; [intros []|constructor].
    + intros a Ha [<-|[]]. apply in_map_iff in Ha as [x [Ex Hx]].
      apply find_index_none in E. rewrite Forall_forall in E.
      apply E in Hx. apply item_is_false in Hx. contradiction.
Qed.

Lemma add_to_cart_ok (env : Env) (item : AddToCartRequest) (u : User) (db : Db) :
  store_ok db -> store_ok (fst (add_to_cart env item u db)).
Proof.
  intros (Hc & Hu & Ho). rewrite add_to_cart_run.
  destruct (product_of (req_product_id item) db) as [product|]; cbn zeta;
    [|now repeat split].
  set (cart' := cart_after_add env item product (u_id u) (cart_of (u_id u) db)).
  assert (Hok : cart_ok cart').
  { apply cart_after_add_ok. intros c E. apply cart_of_user in E as [_ Hin].
    rewrite Forall_forall in Hc. now apply Hc. }
  assert (Hid : cart_user_id cart' = u_id u) by apply cart_after_add_user.
  destruct (quantities_fit (cart_items cart')); [|now repeat split].
  destruct (replace_first (cart_by_user (u_id u)) cart' (carts db)) as [l|] eqn:E;
    cbn [fst coll_set db_carts]; unfold store_ok; cbn [carts orders].
  - repeat split; [|rewrite (replace_cart_users _ _ _ _ Hid E)|]; try assumption.
    eapply replace_first_Forall; eauto.
  - apply replace_first_none in E. repeat split; try assumption.
    + apply Forall_app. split; [assumption|now constructor].
    + apply (NoDup_map_snoc cart_user_id (cart_by_user (u_id u))); try assumption.
      intros x Hx. apply cart_by_user_true. congruence.
Qed.

Lemma remove_from_cart_ok (env : Env) (pid : string) (u : User) (db : Db) :
  store_ok db -> store_ok (fst (remove_from_cart env pid u db)).
Proof.
  intros (Hc & Hu & Ho). rewrite remove_from_cart_run.
  destruct (cart_of (u_id u) db) as [c|] eqn:Ec; cbn zeta; [|now repeat split].
  apply cart_of_user in Ec as [Hid Hin].
  match goal with |- context [replace_first ?q ?c ?l] =>
    destruct (replace_first q c l) as [l'|] eqn:E end;
    cbn [fst coll_set db_carts]; [|now repeat split].
  unfold store_ok; cbn [carts orders]. repeat split; try assumption.
  - eapply replace_first_Forall; [exact Hc| |exact E].
    split; cbn [cart_total cart_items]; [reflexivity|].
    apply filter_map_NoDup. rewrite Forall_forall in Hc. now apply Hc.
  - apply replace_cart_users in E; [|exact Hid]. now rewrite E.
Qed.

Lemma get_cart_ok (env : Env) (u : User) (db : Db) :
  store_ok db -> store_ok (fst (get_cart env u db)).
Proof.
  intros (Hc & Hu & Ho). rewrite get_cart_run.
  destruct (cart_of (u_id u) db) as [c|] eqn:Ec; [now repeat split|].
  cbn [fst coll_set db_carts]. unfold store_ok; cbn [carts orders].
  repeat split; try assumption.
  - apply Forall_app. split; [assumption|]. constructor; [|constructor].
    split; [reflexivity|constructor].
  - apply (NoDup_map_snoc cart_user_id (cart_by_user (u_id u))); try assumption.
    intros x Hx. now apply cart_by_user_true.
Qed.

Lemma create_order_ok (env : Env) (od : OrderCreate) (u : User) (db : Db) :
  store_ok db -> store_ok (fst (create_order env od u db)).
Proof.
  intros (Hc & Hu & Ho). rewrite create_order_run.
  destruct (cart_of (u_id u) db) as [c|]; [|now repeat split].
  destruct (cart_items c); [now repeat split|].
  cbn [fst]. unfold store_ok; cbn [carts orders]. repeat split.
  - now apply delete_first_Forall.
  - now apply delete_first_NoDup.
  - apply Forall_app. split; [assumption|]. constructor; [|constructor].
    now left.
Qed.

Lemma set_status_paid_ok (o : Order) : status_ok (set_status "paid" o).
Proof. now right. Qed.

Lemma process_payment_ok (env : Env) (oid : string) (u : User) (db : Db) :
  store_ok db -> store_ok (fst (process_payment env oid u db)).
Proof.
  intros (Hc & Hu & Ho). rewrite process_payment_run.
  destruct (find _ (orders db)); [|now repeat split].
  cbn [fst]. unfold store_ok; cbn [carts orders]. repeat split; try assumption.
  apply update_first_Forall; [|assumption]. intros x _. apply set_status_paid_ok.
Qed.

Lemma fst_fmap {A B : Type} (f : A -> B) (m : M A) (db : Db) :
  fst (fmap f m db) = fst (m db).
Proof. unfold fmap, bind, ret. now destruct (m db) as [db' [e|a]]. Qed.

Lemma snd_fmap {A B : Type} (f : A -> B) (m : M A) (db : Db) :
  snd (fmap f m db) = match snd (m db) with inl e => inl e | inr a => inr (f a) end.
Proof. unfold fmap, bind, ret. now destruct (m db) as [db' [e|a]]. Qed.

Lemma step_ok (db : Db) (er : Env * Request) : store_ok db -> store_ok (step db er).
Proof.
  intros Hdb. destruct er as [env r]. unfold step. cbn [fst snd].
  destruct r; cbn [handle]; rewrite fst_fmap.
  - unfold get_product. unfold_store. now destruct (find _ _).
  - rewrite create_product_run. now destruct (fits_int64 _).
  - now apply get_cart_ok.
  - now apply add_to_cart_ok.
  - now apply remove_from_cart_ok.
  - now apply create_order_ok.
  - exact Hdb.
  - unfold get_order. unfold_store. now destruct (find _ _).
  - now apply process_payment_ok.
  - rewrite initialize_sample_products_run. now destruct (products db).
Qed.

Lemma run_ok (trace : list (Env * Request)) (db : Db) :
  store_ok db -> store_ok (run trace db).
Proof.
  revert db. induction trace as [|er trace IH]; intros db Hdb; simpl; [assumption|].
  apply IH. now apply step_ok.
Qed.

Lemma empty_db_ok : store_ok empty_db.
Proof. repeat split; constructor. Qed.

Lemma reachable_ok (db : Db) : reachable db -> store_ok db.
Proof. intros [trace ->]. apply run_ok, empty_db_ok. Qed.


(** * The cart engine *)

Lemma reachable_cart_ok (trace : list (Env * Request)) (c : Cart) :
  In c (carts (run trace empty_db)) -> cart_ok c.
Proof.
  intros Hin. destruct (run_ok trace empty_db empty_db_ok) as (Hc & _ & _).
  rewrite Forall_forall in Hc. now apply Hc.
Qed.

(** the cart a successful [add_to_cart] leaves for the user *)
Lemma add_to_cart_stored (env : Env) (item : AddToCartRequest) (u : User) (db : Db)
  (product : Product) :
  product_of (req_product_id item) db = Some product ->
  quantities_fit
    (cart_items (cart_after_add env item product (u_id u) (cart_of (u_id u) db)))
    = true ->
  add_to_cart env item u db =
    (fst (add_to_cart env item u db), inr "Item added to cart") /\
  cart_of (u_id u) (fst (add_to_cart env item u db)) =
    Some (cart_after_add env item product (u_id u) (cart_of (u_id u) db)) /\
  products (fst (add_to_cart env item u db)) = products db.
Proof.
  intros Hp Hfit. rewrite add_to_cart_run, Hp. cbn zeta. rewrite Hfit. cbn [fst].
  split; [reflexivity|]. split; [|reflexivity].
  unfold cart_of at 1. cbn [coll_set db_carts carts].
  pose proof (cart_after_add_user env item product (u_id u) db) as Hid.
  apply cart_by_user_true in Hid.
  destruct (replace_first _ _ (carts db)) as [l|] eqn:E.
  - now apply (replace_first_find _ _ _ _ E).
  - apply replace_first_none in E. rewrite find_app, E. simpl. now rewrite Hid.
Qed.

Lemma add_to_cart_outcome (env : Env) (item : AddToCartRequest) (u : User) (db db' : Db)
  (msg : string) :
  add_to_cart env item u db = (db', inr msg) ->
  exists product,
    product_of (req_product_id item) db = Some product /\
    quantities_fit
      (cart_items (cart_after_add env item product (u_id u) (cart_of (u_id u) db)))
      = true.
Proof.
  rewrite add_to_cart_run.
  destruct (product_of (req_product_id item) db) as [product|]; [|discriminate].
  cbn zeta. destruct (quantities_fit _) eqn:Hfit; [|discriminate].
  intros _. now exists product.
Qed.

(** an add whose resulting quantities the store cannot hold *)
Lemma add_to_cart_overflow (env : Env) (item : AddToCartRequest) (u : User) (db : Db)
  (product : Product) :
  product_of (req_product_id item) db = Some product ->
  quantities_fit
    (cart_items (cart_after_add env item product (u_id u) (cart_of (u_id u) db)))
    = false ->
  add_to_cart env item u db = (db, inl internal_server_error).
Proof. intros Hp Hfit. rewrite add_to_cart_run, Hp. cbn zeta. now rewrite Hfit. Qed.

(** the cart a successful [remove_from_cart] leaves for the user *)
Lemma remove_from_cart_stored (env : Env) (pid : string) (u : User) (db : Db) (c : Cart) :
  cart_of (u_id u) db = Some c ->
  exists db',
    remove_from_cart env pid u db = (db', inr "Item removed from cart") /\
    cart_of (u_id u) db' =
      Some {| cart_id := cart_id c;
              cart_user_id := cart_user_id c;
              cart_items := filter (fun it => negb (item_is pid it)) (cart_items c);
              cart_total :=
                cart_sum (filter (fun it => negb (item_is pid it)) (cart_items c));
              cart_updated_at := utcnow env 0 |} /\
    products db' = products db /\ orders db' = orders db /\
    payments db' = payments db.
Proof.
  intros Hc. rewrite remove_from_cart_run, Hc. cbn zeta.
  destruct (cart_of_user _ _ _ Hc) as [Hid _].
  match goal with |- context [replace_first ?q ?c ?l] =>
    destruct (replace_first q c l) as [l'|] eqn:E end.
  - eexists. split; [reflexivity|]. split; [|now repeat split].
    unfold cart_of. cbn [coll_set db_carts carts].
    apply (replace_first_find _ _ _ _ E). now apply cart_by_user_true.
  - apply replace_first_none in E. unfold cart_of in Hc. congruence.
Qed.

(** C1. After every operation of every sequence of requests served from an
    empty database, each stored cart's total is the sum of price times
    quantity over its line items; a freshly created cart has no items and
    total 0; and whatever the store held before, the cart written by a
    successful add or remove carries the sum just recomputed from its
    items. *)
Theorem cart_total_invariant :
  (forall env uid,
      cart_items (Cart_new env uid) = [] /\
      cart_total (Cart_new env uid) = f_zero /\
      cart_sum (cart_items (Cart_new env uid)) = f_zero) /\
  (forall trace c,
      In c (carts (run trace empty_db)) ->
      cart_total c = cart_sum (cart_items c)) /\
  (forall env item u db db' msg,
      add_to_cart env item u db = (db', inr msg) ->
      exists c, cart_of (u_id u) db' = Some c /\
                cart_total c = cart_sum (cart_items c)) /\
  (forall env pid u db db' msg,
      remove_from_cart env pid u db = (db', inr msg) ->
      exists c, cart_of (u_id u) db' = Some c /\
                cart_total c = cart_sum (cart_items c)).
Proof.
  split; [|split; [|split]].
  - intros env uid. repeat split.
  - intros trace c Hin. now apply reachable_cart_ok in Hin as [Ht _].
  - intros env item u db db' msg E.
    destruct (add_to_cart_outcome _ _ _ _ _ _ E) as (product & Hp & Hfit).
    destruct (add_to_cart_stored env item u db product Hp Hfit) as (_ & Hc & _).
    rewrite E in Hc. cbn [fst] in Hc. eexists. split; [exact Hc|reflexivity].
  - intros env pid u db db' msg E.
    destruct (cart_of (u_id u) db) as [c|] eqn:Hc.
    + destruct (remove_from_cart_stored env pid u db c Hc) as (db1 & E1 & Hc1 & _).
      rewrite E in E1. injection E1 as <- _.
      eexists. split; [exact Hc1|reflexivity].
    + rewrite remove_from_cart_run, Hc in E. discriminate.
Qed.

(** the items [add_to_cart] computes when the cart holds the product *)
Lemma cart_after_add_existing (env : Env) (item : AddToCartRequest) (product : Product)
  (uid : string) (c : Cart) (l1 l2 : list CartItem) (it : CartItem) :
  cart_items c = l1 ++ it :: l2 ->
  Forall (fun ci => ci_product_id ci <> req_product_id item) l1 ->
  ci_product_id it = req_product_id item ->
  cart_items (cart_after_add env item product uid (Some c))
  = l1 ++ add_quantity (req_quantity item) it :: l2.
Proof.
  intros Hl H1 Hit. unfold cart_after_add. cbn [cart_items]. rewrite Hl.
  rewrite find_index_first.
  - apply update_at_app.
  - eapply Forall_impl; [|exact H1]. intros ci Hci. now apply item_is_false.
  - now apply item_is_true.
Qed.

(** the items [add_to_cart] computes when the cart does not hold it *)
Lemma cart_after_add_fresh (env : Env) (item : AddToCartRequest) (product : Product)
  (uid : string) (cart_data : option Cart) :
  (forall c, cart_data = Some c ->
             Forall (fun ci => ci_product_id ci <> req_product_id item) (cart_items c)) ->
  cart_items (cart_after_add env item product uid cart_data)
  = match cart_data with Some c => cart_items c | None => [] end ++
    [ {| ci_product_id := req_product_id item;
         ci_quantity := req_quantity item;
         ci_price := p_price product |} ].
Proof.
  intros Hc. unfold cart_after_add. cbn [cart_items].
  assert (Hn : find_index (item_is (req_product_id item))
                 (cart_items match cart_data with
                             | Some c => c
                             | None => Cart_new env uid
                             end) = None).
  { apply find_index_none. destruct cart_data as [c|]; [|constructor].
    eapply Forall_impl; [|exact (Hc c eq_refl)].
    intros ci Hci. now apply item_is_false. }
  rewrite Hn. now destruct cart_data.
Qed.

(** merging into the first line item of the requested product *)
Lemma add_to_cart_existing (env : Env) (item : AddToCartRequest) (u : User) (db : Db)
  (product : Product) (c : Cart) (l1 l2 : list CartItem) (it : CartItem) :
  product_of (req_product_id item) db = Some product ->
  cart_of (u_id u) db = Some c ->
  cart_items c = l1 ++ it :: l2 ->
  Forall (fun ci => ci_product_id ci <> req_product_id item) l1 ->
  ci_product_id it = req_product_id item ->
  quantities_fit (l1 ++ add_quantity (req_quantity item) it :: l2) = true ->
  exists db' c',
    add_to_cart env item u db = (db', inr "Item added to cart") /\
    cart_of (u_id u) db' = Some c' /\
    products db' = products db /\
    cart_items c' = l1 ++ add_quantity (req_quantity item) it :: l2.
Proof.
  intros Hp Hc Hl H1 Hit Hfit.
  pose proof (cart_after_add_existing env item product (u_id u) c l1 l2 it Hl H1 Hit)
    as Hitems.
  destruct (add_to_cart_stored env item u db product Hp) as (E & Hc' & Hprod).
  { now rewrite Hc, Hitems. }
  eexists. eexists. split; [exact E|]. split; [exact Hc'|]. split; [exact Hprod|].
  now rewrite Hc.
Qed.

(** appending a line item when the cart has none for the product *)
Lemma add_to_cart_fresh (env : Env) (item : AddToCartRequest) (u : User) (db : Db)
  (product : Product) :
  product_of (req_product_id item) db = Some product ->
  (forall c, cart_of (u_id u) db = Some c ->
             Forall (fun ci => ci_product_id ci <> req_product_id item) (cart_items c)) ->
  quantities_fit
    (match cart_of (u_id u) db with Some c => cart_items c | None => [] end ++
     [ {| ci_product_id := req_product_id item;
          ci_quantity := req_quantity item;
          ci_price := p_price product |} ]) = true ->
  exists db' c',
    add_to_cart env item u db = (db', inr "Item added to cart") /\
    cart_of (u_id u) db' = Some c' /\
    products db' = products db /\
    cart_items c' =
      match cart_of (u_id u) db with Some c => cart_items c | None => [] end ++
      [ {| ci_product_id := req_product_id item;
           ci_quantity := req_quantity item;
           ci_price := p_price product |} ].
Proof.
  intros Hp Hc Hfit.
  pose proof (cart_after_add_fresh env item product (u_id u) (cart_of (u_id u) db) Hc)
    as Hitems.
  destruct (add_to_cart_stored env item u db product Hp) as (E & Hc' & Hprod).
  { now rewrite Hitems. }
  eexists. eexists. split; [exact E|]. split; [exact Hc'|]. split; [exact Hprod|].
  exact Hitems.
Qed.

Lemma filter_none {D : Type} (q : D -> bool) (l : list D) :
  Forall (fun y => q y = false) l -> filter q l = [].
Proof.
  induction 1 as [|x r Hx Hr IH]; simpl; [reflexivity|]. now rewrite Hx.
Qed.

Lemma filter_all {D : Type} (q : D -> bool) (l : list D) :
  Forall (fun y => q y = true) l -> filter q l = l.
Proof.
  induction 1 as [|x r Hx Hr IH]; simpl; [reflexivity|]. now rewrite Hx, IH.
Qed.

Lemma NoDup_split_others (l1 l2 : list CartItem) (it : CartItem) :
  NoDup (map ci_product_id (l1 ++ it :: l2)) ->
  Forall (fun ci => ci_product_id ci <> ci_product_id it) l1 /\
  Forall (fun ci => ci_product_id ci <> ci_product_id it) l2.
Proof.
  rewrite map_app. simpl. intros Hn.
  apply NoDup_remove_2 in Hn. rewrite in_app_iff in Hn.
  split; apply Forall_forall; intros ci Hci E; apply Hn; [left|right];
    rewrite <- E; now apply in_map.
Qed.


(** every line item of every stored cart names a product of the catalog *)
Definition lines_resolve (db : Db) : Prop :=
  forall c ci,
    In c (carts db) -> In ci (cart_items c) ->
    exists product, product_of (ci_product_id ci) db = Some product.

Lemma replace_first_In {D : Type} (q : D -> bool) (d : D) (l l' : list D) (x : D) :
  replace_first q d l = Some l' -> In x l' -> x = d \/ In x l.
Proof.
  revert l'. induction l as [|y r IH]; simpl; intros l' E Hin; [discriminate|].
  destruct (q y).
  - injection E as <-. destruct Hin as [<-|Hin]; auto.
  - destruct (replace_first q d r) as [r'|]; [|discriminate].
    injection E as <-. destruct Hin as [<-|Hin]; auto.
    destruct (IH r' eq_refl Hin); auto.
Qed.

Lemma update_at_In {D : Type} (f : D -> D) (i : nat) (l : list D) (y : D) :
  In y (update_at i f l) -> In y l \/ exists x, In x l /\ y = f x.
Proof.
  revert i. induction l as [|x r IH]; intros [|j]; simpl; auto.
  - intros [<-|Hin]; [right; exists x|]; auto.
  - intros [<-|Hin]; auto. destruct (IH j Hin) as [H|(z & Hz & ->)]; auto.
    right. exists z. auto.
Qed.

Lemma cart_after_add_resolves (env : Env) (item : AddToCartRequest) (product : Product)
  (uid : string) (db : Db) (ci : CartItem) :
  lines_resolve db ->
  product_of (req_product_id item) db = Some product ->
  In ci (cart_items (cart_after_add env item product uid (cart_of uid db))) ->
  exists p, product_of (ci_product_id ci) db = Some p.
Proof.
  intros Hres Hp. unfold cart_after_add. cbn [cart_items].
  assert (Hold : forall x,
             In x (cart_items match cart_of uid db with
                              | Some c => c
                              | None => Cart_new env uid
                              end) ->
             exists p, product_of (ci_product_id x) db = Some p).
  { destruct (cart_of uid db) as [c|] eqn:Hc; [|intros x []].
    apply cart_of_user in Hc as [_ Hin]. intros x Hx. now apply (Hres c). }
  destruct (find_index _ _) as [i|].
  - intros Hin. apply update_at_In in Hin as [Hin|(x & Hx & ->)]; auto.
    exact (Hold x Hx).
  - intros Hin. apply in_app_iff in Hin as [Hin|[<-|[]]]; auto.
    now exists product.
Qed.

Lemma step_lines_resolve (db : Db) (er : Env * Request) :
  lines_resolve db -> lines_resolve (step db er).
Proof.
  intros Hres. destruct er as [env r]. unfold step. cbn [fst snd].
  destruct r as [pid|d|cu|item cu|pid cu|od cu|cu|oid cu|oid cu|];
    cbn [handle]; rewrite fst_fmap.
  - unfold get_product. unfold_store. now destruct (find _ _).
  - rewrite create_product_run. destruct (fits_int64 _); [|assumption].
    cbn [fst coll_set db_products]. intros c ci Hc Hci.
    destruct (Hres c ci Hc Hci) as [p Hp]. exists p.
    unfold product_of in *. cbn [products]. now rewrite find_app, Hp.
  - rewrite get_cart_run. destruct (cart_of (u_id cu) db); [assumption|].
    cbn [fst coll_set db_carts]. intros c ci Hc Hci. cbn [carts] in Hc.
    apply in_app_iff in Hc as [Hc|[<-|[]]]; [|destruct Hci].
    destruct (Hres c ci Hc Hci) as [p Hp]. now exists p.
  - rewrite add_to_cart_run.
    destruct (product_of (req_product_id item) db) as [product|] eqn:Hp;
      [|assumption].
    cbn zeta. destruct (quantities_fit _); [|assumption].
    cbn [fst coll_set db_carts]. intros c ci Hc Hci. cbn [carts] in Hc.
    unfold product_of. cbn [products]. fold (product_of (ci_product_id ci) db).
    assert (Hnew : c = cart_after_add env item product (u_id cu) (cart_of (u_id cu) db)
                   \/ In c (carts db)).
    { destruct (replace_first _ _ (carts db)) as [l|] eqn:E.
      - now apply (replace_first_In _ _ _ _ _ E).
      - apply in_app_iff in Hc as [Hc|[<-|[]]]; auto. }
    destruct Hnew as [->|Hold]; [|now apply (Hres c)].
    now apply (cart_after_add_resolves env item product (u_id cu) db).
  - rewrite remove_from_cart_run.
    destruct (cart_of (u_id cu) db) as [c0|] eqn:Hc0; [|assumption].
    cbn zeta. apply cart_of_user in Hc0 as [_ Hin0].
    match goal with |- context [replace_first ?q ?c ?l] =>
      destruct (replace_first q c l) as [l'|] eqn:E end; [|assumption].
    cbn [fst coll_set db_carts]. intros c ci Hc Hci. cbn [carts] in Hc.
    unfold product_of. cbn [products]. fold (product_of (ci_product_id ci) db).
    apply (replace_first_In _ _ _ _ _ E) in Hc as [->|Hc]; [|now apply (Hres c)].
    cbn [cart_items] in Hci. apply filter_In in Hci as [Hci _]. now apply (Hres c0).
  - rewrite create_order_run.
    destruct (cart_of (u_id cu) db) as [c0|]; [|assumption].
    destruct (cart_items c0) as [|ci0 r0]; [assumption|].
    cbn [fst]. intros c ci Hc Hci. cbn [carts] in Hc.
    apply delete_first_incl in Hc. now apply (Hres c).
  - assumption.
  - unfold get_order. unfold_store. now destruct (find _ _).
  - rewrite process_payment_run. destruct (find _ (orders db)); assumption.
  - rewrite initialize_sample_products_run.
    destruct (products db) eqn:E; [|assumption].
    cbn [fst coll_set db_products]. intros c ci Hc Hci.
    destruct (Hres c ci Hc Hci) as [p Hp]. unfold product_of in Hp.
    rewrite E in Hp. discriminate.
Qed.

Lemma run_lines_resolve (trace : list (Env * Request)) (db : Db) :
  lines_resolve db -> lines_resolve (run trace db).
Proof.
  revert db. induction trace as [|er trace IH]; intros db Hdb; simpl; [assumption|].
  apply IH. now apply step_lines_resolve.
Qed.

Lemma empty_db_lines_resolve : lines_resolve empty_db.
Proof. intros c ci []. Qed.

(** every quantity of every stored cart fits the store's integers *)
Definition carts_fit (db : Db) : Prop :=
  forall c, In c (carts db) -> quantities_fit (cart_items c) = true.

Lemma quantities_fit_filter (p : CartItem -> bool) (items : list CartItem) :
  quantities_fit items = true -> quantities_fit (filter p items) = true.
Proof.
  unfold quantities_fit. rewrite !forallb_forall. intros H it Hit.
  apply filter_In in Hit as [Hit _]. now apply H.
Qed.

Lemma quantities_fit_replace (l1 l2 : list CartItem) (it it' : CartItem) :
  quantities_fit (l1 ++ it :: l2) = true ->
  quantities_fit (l1 ++ it' :: l2) = fits_int64 (ci_quantity it').
Proof.
  unfold quantities_fit. rewrite !forallb_app. cbn [forallb].
  rewrite !andb_true_iff. intros (-> & _ & ->). cbn. now rewrite andb_true_r.
Qed.

Lemma quantities_fit_snoc (old : list CartItem) (it : CartItem) :
  quantities_fit old = true ->
  quantities_fit (old ++ [it]) = fits_int64 (ci_quantity it).
Proof.
  unfold quantities_fit. rewrite forallb_app. cbn [forallb].
  intros ->. cbn. now rewrite andb_true_r.
Qed.

Lemma step_carts_fit (db : Db) (er : Env * Request) :
  carts_fit db -> carts_fit (step db er).
Proof.
  intros Hfit. destruct er as [env r]. unfold step. cbn [fst snd].
  destruct r as [pid|d|cu|item cu|pid cu|od cu|cu|oid cu|oid cu|];
    cbn [handle]; rewrite fst_fmap.
  - unfold get_product. unfold_store. now destruct (find _ _).
  - rewrite create_product_run. now destruct (fits_int64 _).
  - rewrite get_cart_run. destruct (cart_of (u_id cu) db); [assumption|].
    cbn [fst coll_set db_carts]. intros c Hc. cbn [carts] in Hc.
    apply in_app_iff in Hc as [Hc|[<-|[]]]; [now apply Hfit|reflexivity].
  - rewrite add_to_cart_run.
    destruct (product_of (req_product_id item) db) as [product|]; [|assumption].
    cbn zeta. destruct (quantities_fit _) eqn:Hnew; [|assumption].
    cbn [fst coll_set db_carts]. intros c Hc. cbn [carts] in Hc.
    destruct (replace_first _ _ (carts db)) as [l|] eqn:E.
    + apply (replace_first_In _ _ _ _ _ E) in Hc as [->|Hc]; [assumption|now apply Hfit].
    + apply in_app_iff in Hc as [Hc|[<-|[]]]; [now apply Hfit|assumption].
  - rewrite remove_from_cart_run.
    destruct (cart_of (u_id cu) db) as [c0|] eqn:Hc0; [|assumption].
    cbn zeta. apply cart_of_user in Hc0 as [_ Hin0].
    match goal with |- context [replace_first ?q ?c ?l] =>
      destruct (replace_first q c l) as [l'|] eqn:E end; [|assumption].
    cbn [fst coll_set db_carts]. intros c Hc. cbn [carts] in Hc.
    apply (replace_first_In _ _ _ _ _ E) in Hc as [->|Hc]; [|now apply Hfit].
    cbn [cart_items]. apply quantities_fit_filter. now apply Hfit.
  - rewrite create_order_run.
    destruct (cart_of (u_id cu) db) as [c0|]; [|assumption].
    destruct (cart_items c0) as [|ci0 r0]; [assumption|].
    cbn [fst]. intros c Hc. cbn [carts] in Hc.
    apply delete_first_incl in Hc. now apply Hfit.
  - assumption.
  - unfold get_order. unfold_store. now destruct (find _ _).
  - rewrite process_payment_run. destruct (find _ (orders db)); assumption.
  - rewrite initialize_sample_products_run. now destruct (products db).
Qed.

Lemma run_carts_fit (trace : list (Env * Request)) (db : Db) :
  carts_fit db -> carts_fit (run trace db).
Proof.
  revert db. induction trace as [|er trace IH]; intros db Hdb; simpl; [assumption|].
  apply IH. now apply step_carts_fit.
Qed.

Lemma reachable_carts_fit (trace : list (Env * Request)) : carts_fit (run trace empty_db).
Proof. apply run_carts_fit. intros c []. Qed.

(** merging into the line item of a cart with one line per product *)
Lemma add_to_cart_merge_step (env : Env) (item : AddToCartRequest) (u : User) (db : Db)
  (product : Product) (c : Cart) (l1 l2 : list CartItem) (it : CartItem) :
  product_of (req_product_id item) db = Some product ->
  cart_of (u_id u) db = Some c ->
  NoDup (map ci_product_id (cart_items c)) ->
  quantities_fit (cart_items c) = true ->
  cart_items c = l1 ++ it :: l2 ->
  ci_product_id it = req_product_id item ->
  (fits_int64 (ci_quantity it + req_quantity item) = true ->
   exists db' c',
     add_to_cart env item u db = (db', inr "Item added to cart") /\
     cart_of (u_id u) db' = Some c' /\
     cart_items c' = l1 ++ add_quantity (req_quantity item) it :: l2 /\
     filter (item_is (req_product_id item)) (cart_items c') =
       [ add_quantity (req_quantity item) it ] /\
     NoDup (map ci_product_id (cart_items c'))) /\
  (fits_int64 (ci_quantity it + req_quantity item) = false ->
   add_to_cart env item u db = (db, inl internal_server_error)).
Proof.
  intros Hp Hc Hn Hfit Hl Hit.
  rewrite Hl in Hn, Hfit. pose proof (NoDup_split_others _ _ _ Hn) as [H1 H2].
  rewrite Hit in H1, H2.
  pose proof (quantities_fit_replace l1 l2 it (add_quantity (req_quantity item) it) Hfit)
    as Hnew. cbn [add_quantity ci_quantity] in Hnew.
  split; intros Hq; rewrite Hq in Hnew.
  - destruct (add_to_cart_existing env item u db product c l1 l2 it Hp Hc Hl H1 Hit Hnew)
      as (db' & c' & E & Hc' & _ & Hitems).
    exists db', c'. split; [exact E|]. split; [exact Hc'|].
    split; [exact Hitems|]. split.
    + rewrite Hitems, filter_app. cbn [filter].
      rewrite (proj2 (item_is_true (req_product_id item)
                        (add_quantity (req_quantity item) it)) Hit).
      rewrite !filter_none, app_nil_l; [reflexivity| |].
      * eapply Forall_impl; [|exact H2]. intros ci Hci. now apply item_is_false.
      * eapply Forall_impl; [|exact H1]. intros ci Hci. now apply item_is_false.
    + rewrite Hitems. rewrite map_app in *. exact Hn.
  - apply (add_to_cart_overflow env item u db product Hp).
    rewrite Hc.
    now rewrite (cart_after_add_existing env item product (u_id u) c l1 l2 it Hl H1 Hit).
Qed.

(** C2 (amended). Adding a product that already has a line item in the
    cart raises that line item's quantity by the requested amount, leaves
    its price snapshot as it was whatever the catalog now says, and keeps
    exactly one line item for the product, provided the raised quantity
    still fits the store's 8-byte integers; when it does not, the add fails
    with the 500 answer and the store is unchanged.  No cart of a reachable
    store ever holds two line items with one product id or a quantity
    beyond 8 bytes.  Adding a product twice, with the catalog changed in
    between and quantities that fit, yields one line item with the summed
    quantity at the price captured by the first add. *)
Theorem add_to_cart_merges_line_item :
  (forall env item u db product c l1 it l2,
      product_of (req_product_id item) db = Some product ->
      cart_of (u_id u) db = Some c ->
      NoDup (map ci_product_id (cart_items c)) ->
      quantities_fit (cart_items c) = true ->
      cart_items c = l1 ++ it :: l2 ->
      ci_product_id it = req_product_id item ->
      (fits_int64 (ci_quantity it + req_quantity item) = true ->
       exists db' c',
         add_to_cart env item u db = (db', inr "Item added to cart") /\
         cart_of (u_id u) db' = Some c' /\
         cart_items c' =
           l1 ++ {| ci_product_id := ci_product_id it;
                    ci_quantity := ci_quantity it + req_quantity item;
                    ci_price := ci_price it |} :: l2 /\
         filter (item_is (req_product_id item)) (cart_items c') =
           [ {| ci_product_id := ci_product_id it;
                ci_quantity := ci_quantity it + req_quantity item;
                ci_price := ci_price it |} ] /\
         NoDup (map ci_product_id (cart_items c'))) /\
      (fits_int64 (ci_quantity it + req_quantity item) = false ->
       add_to_cart env item u db = (db, inl internal_server_error))) /\
  (forall trace env item u c it,
      cart_of (u_id u) (run trace empty_db) = Some c ->
      In it (cart_items c) ->
      ci_product_id it = req_product_id item ->
      (fits_int64 (ci_quantity it + req_quantity item) = true ->
       exists db' c',
         add_to_cart env item u (run trace empty_db) =
           (db', inr "Item added to cart") /\
         cart_of (u_id u) db' = Some c' /\
         map ci_product_id (cart_items c') = map ci_product_id (cart_items c) /\
         filter (item_is (req_product_id item)) (cart_items c') =
           [ {| ci_product_id := ci_product_id it;
                ci_quantity := ci_quantity it + req_quantity item;
                ci_price := ci_price it |} ]) /\
      (fits_int64 (ci_quantity it + req_quantity item) = false ->
       add_to_cart env item u (run trace empty_db) =
         (run trace empty_db, inl internal_server_error))) /\
  (forall trace c,
      In c (carts (run trace empty_db)) ->
      NoDup (map ci_product_id (cart_items c)) /\
      quantities_fit (cart_items c) = true) /\
  (forall env1 env2 u pid q1 q2 db product1 catalog2 product2,
      product_of pid db = Some product1 ->
      (forall c, cart_of (u_id u) db = Some c ->
                 Forall (fun ci => ci_product_id ci <> pid) (cart_items c) /\
                 quantities_fit (cart_items c) = true) ->
      find (product_by_id pid) catalog2 = Some product2 ->
      fits_int64 q1 = true ->
      fits_int64 (q1 + q2) = true ->
      let db1 := fst (add_to_cart env1 {| req_product_id := pid; req_quantity := q1 |}
                        u db) in
      let db2 := fst (add_to_cart env2 {| req_product_id := pid; req_quantity := q2 |}
                        u (coll_set db_products catalog2 db1)) in
      exists c,
        cart_of (u_id u) db2 = Some c /\
        filter (item_is pid) (cart_items c) =
          [ {| ci_product_id := pid;
               ci_quantity := q1 + q2;
               ci_price := p_price product1 |} ]).
Proof.
  split; [|split; [|split]].
  - intros env item u db product c l1 it l2 Hp Hc Hn Hfit Hl Hit.
    exact (add_to_cart_merge_step env item u db product c l1 l2 it Hp Hc Hn Hfit Hl Hit).
  - intros trace env item u c it Hc Hin Hit.
    destruct (cart_of_user _ _ _ Hc) as [_ Hstored].
    destruct (run_lines_resolve trace empty_db empty_db_lines_resolve c it Hstored Hin)
      as [product Hp].
    rewrite Hit in Hp.
    destruct (reachable_cart_ok trace c Hstored) as [_ Hn].
    pose proof (reachable_carts_fit trace c Hstored) as Hfit.
    destruct (in_split _ _ Hin) as (l1 & l2 & Hl).
    destruct (add_to_cart_merge_step env item u _ product c l1 l2 it Hp Hc Hn Hfit Hl Hit)
      as [Hok Hover].
    split; [|exact Hover]. intros Hq.
    destruct (Hok Hq) as (db' & c' & E & Hc' & Hitems & Hone & _).
    exists db', c'. split; [exact E|]. split; [exact Hc'|]. split; [|exact Hone].
    rewrite Hitems, Hl, !map_app. reflexivity.
  - intros trace c Hin. split.
    + now apply reachable_cart_ok in Hin as [_ Hn].
    + exact (reachable_carts_fit trace c Hin).
  - intros env1 env2 u pid q1 q2 db product1 catalog2 product2 Hp Hfree Hp2 Hq1 Hq12
           db1 db2.
    set (old := match cart_of (u_id u) db with
                | Some c => cart_items c
                | None => []
                end).
    assert (Hold : Forall (fun ci => ci_product_id ci <> pid) old /\
                   quantities_fit old = true).
    { unfold old. destruct (cart_of (u_id u) db) as [c|]; [now apply Hfree|].
      split; [constructor|reflexivity]. }
    destruct Hold as [Hold Hfit].
    destruct (add_to_cart_fresh env1 {| req_product_id := pid; req_quantity := q1 |}
                u db product1 Hp) as (d1 & c1 & E1 & Hc1 & _ & Hitems1).
    { intros c Hc. now apply Hfree. }
    { fold old. now rewrite quantities_fit_snoc. }
    assert (Hd1 : db1 = d1) by (unfold db1; now rewrite E1).
    cbn [req_product_id req_quantity] in Hitems1. fold old in Hitems1.
    destruct (add_to_cart_existing env2 {| req_product_id := pid; req_quantity := q2 |}
                u (coll_set db_products catalog2 db1) product2 c1 old []
                {| ci_product_id := pid; ci_quantity := q1;
                   ci_price := p_price product1 |})
      as (d2 & c2 & E2 & Hc2 & _ & Hitems2); try assumption; try reflexivity.
    { now rewrite Hd1. }
    { unfold add_quantity. cbn [ci_quantity ci_product_id ci_price req_quantity].
      now rewrite quantities_fit_snoc. }
    exists c2. split.
    + unfold db2. now rewrite E2.
    + rewrite Hitems2, filter_app, filter_none.
      * cbn [filter app]. unfold item_is, add_quantity.
        cbn [ci_product_id ci_quantity ci_price req_quantity].
        now rewrite String.eqb_refl.
      * eapply Forall_impl; [|exact Hold]. intros ci Hci. now apply item_is_false.
Qed.

(** after an add, the cart holds a line item for the product *)
Lemma cart_after_add_has_item (env : Env) (item : AddToCartRequest) (product : Product)
  (uid : string) (cart_data : option Cart) :
  exists it,
    In it (cart_items (cart_after_add env item product uid cart_data)) /\
    ci_product_id it = req_product_id item.
Proof.
  unfold cart_after_add. cbn [cart_items].
  set (cart := match cart_data with Some c => c | None => Cart_new env uid end).
  destruct (find_index _ (cart_items cart)) as [i|] eqn:E.
  - apply find_index_some in E as (l1 & x & l2 & Hl & <- & Hx & _).
    rewrite Hl, update_at_app. exists (add_quantity (req_quantity item) x).
    split; [apply in_elt|]. now apply item_is_true in Hx.
  - eexists. split; [apply in_elt|reflexivity].
Qed.

(** C6 (amended). [add_to_cart] fails with NotFound (404), the store
    untouched, exactly when the product id does not resolve in the catalog:
    for a product that resolves, no quantity makes it answer 404.  The
    quantity has no lower bound: for a product that resolves, a quantity of
    zero or below is accepted like any other, and the cart is written with
    a line item for the product, whenever the quantities of the cart to be
    written fit the store's 8-byte integers (otherwise the answer is 500
    and the store is untouched); when the cart held no line item of the
    product, the new one carries the requested quantity as given. *)
Theorem add_to_cart_fails_only_for_missing_product :
  forall env item u db,
    (product_of (req_product_id item) db = None ->
     exists e,
       add_to_cart env item u db = (db, inl e) /\
       NotFound e /\ detail e = "Product not found") /\
    (forall product,
        product_of (req_product_id item) db = Some product ->
        (forall e, snd (add_to_cart env item u db) = inl e -> ~ NotFound e) /\
        (quantities_fit
           (cart_items (cart_after_add env item product (u_id u) (cart_of (u_id u) db)))
           = false ->
         add_to_cart env item u db = (db, inl internal_server_error)) /\
        (quantities_fit
           (cart_items (cart_after_add env item product (u_id u) (cart_of (u_id u) db)))
           = true ->
         exists db' c',
           add_to_cart env item u db = (db', inr "Item added to cart") /\
           cart_of (u_id u) db' = Some c' /\
           (exists it, In it (cart_items c') /\
                       ci_product_id it = req_product_id item)) /\
        ((forall c, cart_of (u_id u) db = Some c ->
                    Forall (fun ci => ci_product_id ci <> req_product_id item)
                           (cart_items c) /\
                    quantities_fit (cart_items c) = true) ->
         fits_int64 (req_quantity item) = true ->
         exists db' c',
           add_to_cart env item u db = (db', inr "Item added to cart") /\
           cart_of (u_id u) db' = Some c' /\
           filter (item_is (req_product_id item)) (cart_items c') =
             [ {| ci_product_id := req_product_id item;
                  ci_quantity := req_quantity item;
                  ci_price := p_price product |} ])).
Proof.
  intros env item u db. split.
  - intros Hp. rewrite add_to_cart_run, Hp. eexists. repeat split.
  - intros product Hp. split; [|split; [|split]].
    + intros e He Hnf. rewrite add_to_cart_run, Hp in He. cbn zeta in He.
      destruct (quantities_fit _); cbn [snd] in He; [discriminate|].
      injection He as <-. discriminate Hnf.
    + now apply add_to_cart_overflow.
    + intros Hfit.
      destruct (add_to_cart_stored env item u db product Hp Hfit) as (E & Hc' & _).
      eexists. eexists. split; [exact E|]. split; [exact Hc'|].
      apply cart_after_add_has_item.
    + intros Hfree Hq.
      set (old := match cart_of (u_id u) db with
                  | Some c => cart_items c
                  | None => []
                  end).
      assert (Hold : Forall (fun ci => ci_product_id ci <> req_product_id item) old /\
                     quantities_fit old = true).
      { unfold old. destruct (cart_of (u_id u) db) as [c|]; [now apply Hfree|].
        split; [constructor|reflexivity]. }
      destruct Hold as [Hold Hfit].
      destruct (add_to_cart_fresh env item u db product Hp)
        as (db' & c' & E & Hc' & _ & Hitems).
      { intros c Hc. now apply Hfree. }
      { fold old. now rewrite quantities_fit_snoc. }
      exists db', c'. split; [exact E|]. split; [exact Hc'|].
      fold old in Hitems. rewrite Hitems, filter_app, filter_none.
      * cbn [filter app]. unfold item_is. cbn [ci_product_id].
        now rewrite String.eqb_refl.
      * eapply Forall_impl; [|exact Hold]. intros ci Hci. now apply item_is_false.
Qed.

(** replacing the first match of one filter does not disturb the lookups
    of a filter that shares no document with it *)
Lemma replace_first_other {D : Type} (q q2 : D -> bool) (d : D) (l l' : list D) :
  (forall x, q x = true -> q2 x = false) -> q2 d = false ->
  replace_first q d l = Some l' -> find q2 l' = find q2 l.
Proof.
  intros Hq Hd. revert l'. induction l as [|x r IH]; simpl; intros l' E; [discriminate|].
  destruct (q x) eqn:Hx.
  - injection E as <-. simpl. now rewrite Hd, (Hq x Hx).
  - destruct (replace_first q d r) as [r'|]; [|discriminate].
    injection E as <-. simpl. now rewrite (IH r' eq_refl).
Qed.

(** C7. In a reachable store, removing a product id that the user's cart
    does not hold succeeds and leaves the cart's items and total (and its
    id and owner) as they were, with every other user's cart and the other
    collections untouched; with no cart for the user, [remove_from_cart]
    raises 404 and leaves the store as it was. *)
Theorem remove_absent_product_is_noop :
  (forall trace env pid u c,
      cart_of (u_id u) (run trace empty_db) = Some c ->
      Forall (fun ci => ci_product_id ci <> pid) (cart_items c) ->
      exists db' c',
        remove_from_cart env pid u (run trace empty_db) =
          (db', inr "Item removed from cart") /\
        cart_of (u_id u) db' = Some c' /\
        cart_items c' = cart_items c /\
        cart_total c' = cart_total c /\
        cart_id c' = cart_id c /\
        cart_user_id c' = cart_user_id c /\
        (forall uid, uid <> u_id u ->
                     cart_of uid db' = cart_of uid (run trace empty_db)) /\
        products db' = products (run trace empty_db) /\
        orders db' = orders (run trace empty_db) /\
        payments db' = payments (run trace empty_db)) /\
  (forall env pid u db,
      cart_of (u_id u) db = None ->
      exists e,
        remove_from_cart env pid u db = (db, inl e) /\
        NotFound e /\ detail e = "Cart not found").
Proof.
  split.
  - intros trace env pid u c Hc Habsent.
    set (db := run trace empty_db) in *.
    assert (Hkeep : filter (fun it => negb (item_is pid it)) (cart_items c)
                    = cart_items c).
    { apply filter_all. eapply Forall_impl; [|exact Habsent].
      intros ci Hci. apply item_is_false in Hci. now rewrite Hci. }
    destruct (cart_of_user _ _ _ Hc) as [Hid Hin].
    destruct (reachable_cart_ok trace c Hin) as [Htotal _].
    rewrite remove_from_cart_run, Hc. cbn zeta. rewrite Hkeep.
    match goal with |- context [replace_first ?q ?c ?l] =>
      destruct (replace_first q c l) as [l'|] eqn:E end.
    + eexists. eexists. split; [reflexivity|].
      unfold cart_of. cbn [coll_set db_carts carts products orders payments].
      split; [apply (replace_first_find _ _ _ _ E); now apply cart_by_user_true|].
      cbn [cart_items cart_total cart_id cart_user_id].
      repeat split; try now symmetry.
      intros uid Hne. apply (replace_first_other _ _ _ _ _) with (3 := E).
      * intros x Hx. apply cart_by_user_true in Hx. unfold cart_by_user.
        apply String.eqb_neq. congruence.
      * unfold cart_by_user. cbn [cart_user_id]. apply String.eqb_neq. congruence.
    + apply replace_first_none in E. unfold cart_of in Hc. congruence.
  - intros env pid u db Hc. rewrite remove_from_cart_run, Hc.
    eexists. repeat split.
Qed.

(** * The order engine *)

(** a successful [create_order]: the cart it consumed and the store it left *)
Lemma create_order_outcome (env : Env) (od : OrderCreate) (u : User) (db db' : Db)
  (order : Order) :
  create_order env od u db = (db', inr order) ->
  exists c,
    cart_of (u_id u) db = Some c /\
    cart_items c <> [] /\
    order = order_of_cart env od (u_id u) db c /\
    db' = {| products := products db;
             carts := delete_first (cart_by_user (u_id u)) (carts db);
             orders := orders db ++ [order];
             payments := payments db |}.
Proof.
  rewrite create_order_run.
  destruct (cart_of (u_id u) db) as [c|]; [|discriminate].
  destruct (cart_items c) as [|ci r] eqn:Ei; [discriminate|].
  intros E. injection E as <- <-. exists c. rewrite Ei.
  repeat split. discriminate.
Qed.

(** C3. When [create_order] succeeds in a reachable store, the user's cart
    is gone from the store, and the next [get_cart] creates and returns a
    fresh cart with no items and total 0, while the cart checked out had
    items. *)
Theorem checkout_clears_cart :
  forall trace env od u db' order,
    create_order env od u (run trace empty_db) = (db', inr order) ->
    (exists c, cart_of (u_id u) (run trace empty_db) = Some c /\ cart_items c <> []) /\
    cart_of (u_id u) db' = None /\
    forall env',
      exists db'',
        get_cart env' u db' = (db'', inr (Cart_new env' (u_id u))) /\
        cart_items (Cart_new env' (u_id u)) = [] /\
        cart_total (Cart_new env' (u_id u)) = f_zero /\
        cart_of (u_id u) db'' = Some (Cart_new env' (u_id u)).
Proof.
  intros trace env od u db' order E.
  destruct (create_order_outcome _ _ _ _ _ _ E) as (c & Hc & Hne & _ & Hdb').
  destruct (run_ok trace empty_db empty_db_ok) as (_ & Hu & _).
  assert (Hgone : cart_of (u_id u) db' = None).
  { rewrite Hdb'. unfold cart_of. cbn [carts].
    apply (delete_first_find cart_user_id (u_id u)); [|assumption].
    intros x. apply cart_by_user_true. }
  split; [now exists c|]. split; [assumption|].
  intros env'. rewrite get_cart_run, Hgone. eexists. split; [reflexivity|].
  repeat split. unfold cart_of in *. cbn [coll_set db_carts carts].
  rewrite find_app, Hgone. unfold cart_by_user, Cart_new. cbn [find cart_user_id].
  now rewrite String.eqb_refl.
Qed.

(** C4. With no cart for the user, or a cart whose item list is empty,
    [create_order] raises the 400 error and hands back the store it was
    given: no order is inserted and no cart is touched. *)
Theorem create_order_rejects_empty_cart :
  forall env od u db,
    cart_of (u_id u) db = None \/
    (exists c, cart_of (u_id u) db = Some c /\ cart_items c = []) ->
    exists e,
      create_order env od u db = (db, inl e) /\
      InvalidState e /\ detail e = "Cart is empty".
Proof.
  intros env od u db H. rewrite create_order_run.
  exists {| status_code := 400; detail := "Cart is empty" |}.
  destruct H as [->|(c & -> & ->)]; repeat split.
Qed.

(** C5. A successful [create_order] gives the order the stored total of the
    cart as it is; its line items are, in cart order, one per cart line
    item whose product resolves in the catalog, carrying the cart's
    quantity and price snapshot and the product's name, and none for a cart
    line item whose product does not resolve; the order is appended to the
    orders. *)
Theorem create_order_snapshots_cart :
  forall env od u db db' order,
    create_order env od u db = (db', inr order) ->
    exists c,
      cart_of (u_id u) db = Some c /\
      order_total order = cart_total c /\
      order_items order = flat_map (order_lines db) (cart_items c) /\
      (forall ci product,
          In ci (cart_items c) ->
          product_of (ci_product_id ci) db = Some product ->
          In {| oi_product_id := ci_product_id ci;
                oi_product_name := p_name product;
                oi_quantity := ci_quantity ci;
                oi_price := ci_price ci |} (order_items order)) /\
      (forall oi,
          In oi (order_items order) ->
          exists ci product,
            In ci (cart_items c) /\
            product_of (ci_product_id ci) db = Some product /\
            oi = {| oi_product_id := ci_product_id ci;
                    oi_product_name := p_name product;
                    oi_quantity := ci_quantity ci;
                    oi_price := ci_price ci |}) /\
      orders db' = orders db ++ [order].
Proof.
  intros env od u db db' order E.
  destruct (create_order_outcome _ _ _ _ _ _ E) as (c & Hc & _ & Ho & Hdb').
  exists c. assert (Hitems : order_items order = flat_map (order_lines db) (cart_items c))
    by now rewrite Ho.
  rewrite Hitems. assert (Htotal : order_total order = cart_total c) by now rewrite Ho.
  split; [assumption|]. split; [assumption|]. split; [reflexivity|].
  split; [|split].
  - intros ci product Hin Hp. apply in_flat_map. exists ci. split; [assumption|].
    unfold order_lines. rewrite Hp. now left.
  - intros oi Hin. apply in_flat_map in Hin as (ci & Hci & Hoi).
    unfold order_lines in Hoi.
    destruct (product_of (ci_product_id ci) db) as [product|] eqn:Hp; [|contradiction].
    destruct Hoi as [<-|[]]. now exists ci, product.
  - now rewrite Hdb'.
Qed.

Lemma order_lines_none (db : Db) (items : list CartItem) :
  (forall ci, In ci items -> product_of (ci_product_id ci) db = None) ->
  flat_map (order_lines db) items = [].
Proof.
  induction items as [|ci r IH]; simpl; intros H; [reflexivity|].
  unfold order_lines at 1. rewrite (H ci (or_introl eq_refl)). simpl.
  apply IH. intros x Hx. apply H. now right.
Qed.

(** C10. A cart that has line items, none of whose products resolves in the
    catalog, still checks out: [create_order] succeeds with a pending order
    that has no line items and the cart's stored total, appends it to the
    orders and deletes the user's cart. *)
Theorem create_order_with_all_products_deleted :
  forall env od u db c,
    cart_of (u_id u) db = Some c ->
    cart_items c <> [] ->
    (forall ci, In ci (cart_items c) -> product_of (ci_product_id ci) db = None) ->
    exists db' order,
      create_order env od u db = (db', inr order) /\
      order_items order = [] /\
      order_total order = cart_total c /\
      order_status order = "pending" /\
      order_user_id order = u_id u /\
      orders db' = orders db ++ [order] /\
      carts db' = delete_first (cart_by_user (u_id u)) (carts db) /\
      (NoDup (map cart_user_id (carts db)) -> cart_of (u_id u) db' = None).
Proof.
  intros env od u db c Hc Hne Hgone. rewrite create_order_run, Hc.
  destruct (cart_items c) as [|ci r] eqn:Ei; [contradiction|].
  eexists. eexists. split; [reflexivity|].
  cbn [order_items order_total order_status order_user_id order_of_cart orders carts].
  repeat split.
  - rewrite Ei. now apply order_lines_none.
  - intros Hu. unfold cart_of. cbn [carts].
    apply (delete_first_find cart_user_id (u_id u)); [|assumption].
    intros x. apply cart_by_user_true.
Qed.


(** * The payment stub *)

Lemma Forall2_same {D : Type} (R : D -> D -> Prop) (l : list D) :
  (forall x, R x x) -> Forall2 R l l.
Proof. intros HR. induction l; constructor; auto. Qed.

Lemma update_first_Forall2 {D : Type} (R : D -> D -> Prop) (q : D -> bool)
  (f : D -> D) (l : list D) :
  (forall x, R x x) -> (forall x, q x = true -> R x (f x)) ->
  Forall2 R l (update_first q f l).
Proof.
  intros Hr Hf. induction l as [|x r IH]; simpl; [constructor|].
  destruct (q x) eqn:Hx; constructor; auto. now apply Forall2_same.
Qed.

(** a lookup that [f] does not disturb still finds a document that [f]
    leaves as it is *)
Lemma find_update_first {D : Type} (q q2 : D -> bool) (f : D -> D) (l : list D)
  (o : D) :
  (forall x, q (f x) = q x) -> f o = o ->
  find q l = Some o -> find q (update_first q2 f l) = Some o.
Proof.
  intros Hq Ho. induction l as [|x r IH]; simpl; [discriminate|].
  destruct (q x) eqn:Hx; intros E.
  - injection E as ->. destruct (q2 o); simpl; rewrite ?Hq, Hx; congruence.
  - destruct (q2 x); simpl; rewrite ?Hq, Hx; auto.
Qed.

Lemma set_status_same (o : Order) :
  set_status (order_status o) o = o.
Proof. now destruct o. Qed.

(** how one request may change the order at a given position *)
Definition status_change (r : Request) (o o' : Order) : Prop :=
  o' = o \/
  ((exists oid u, r = ProcessPayment oid u /\ order_id o = oid) /\
   o' = set_status "paid" o).

(** the orders after one request: the old ones in place, each as it was or
    set to paid by a payment, followed by the orders created *)
Lemma step_orders (db : Db) (env : Env) (r : Request) :
  exists kept added,
    orders (step db (env, r)) = kept ++ added /\
    Forall2 (status_change r) (orders db) kept /\
    Forall (fun o => order_status o = "pending") added.
Proof.
  assert (Hsame : forall l, Forall2 (status_change r) l l)
    by (intros l; apply Forall2_same; now left).
  assert (Hkeep : orders (step db (env, r)) = orders db ->
                  exists kept added,
                    orders (step db (env, r)) = kept ++ added /\
                    Forall2 (status_change r) (orders db) kept /\
                    Forall (fun o => order_status o = "pending") added).
  { intros ->. exists (orders db), []. rewrite app_nil_r. now repeat split. }
  unfold step in *. cbn [fst snd] in *.
  destruct r as [pid|d|cu|item cu|pid cu|od cu|cu|oid cu|oid cu|];
    cbn [handle] in *; rewrite fst_fmap in *.
  - apply Hkeep. unfold get_product. unfold_store. now destruct (find _ _).
  - apply Hkeep. rewrite create_product_run. now destruct (fits_int64 _).
  - apply Hkeep. rewrite get_cart_run. now destruct (cart_of _ _).
  - apply Hkeep. rewrite add_to_cart_run.
    destruct (product_of _ _); [|reflexivity]. cbn zeta.
    now destruct (quantities_fit _).
  - apply Hkeep. rewrite remove_from_cart_run.
    destruct (cart_of _ _); [|reflexivity]. cbn zeta.
    match goal with |- context [replace_first ?q ?c ?l] =>
      now destruct (replace_first q c l) end.
  - rewrite create_order_run in *.
    destruct (cart_of _ _) as [c|]; [|now apply Hkeep].
    destruct (cart_items c); [now apply Hkeep|].
    cbn [fst orders]. eexists. eexists. split; [reflexivity|].
    split; [apply Hsame|]. now repeat constructor.
  - now apply Hkeep.
  - apply Hkeep. unfold get_order. unfold_store. now destruct (find _ _).
  - rewrite process_payment_run in *.
    destruct (find _ (orders db)); [|now apply Hkeep].
    cbn [fst orders]. eexists. exists []. rewrite app_nil_r.
    split; [reflexivity|]. split; [|constructor].
    apply update_first_Forall2; [now left|]. intros x Hx. right. split; [|reflexivity].
    exists oid, cu. split; [reflexivity|].
    now apply String.eqb_eq in Hx.
  - apply Hkeep. rewrite initialize_sample_products_run. now destruct (products db).
Qed.

(** C8 (amended). An order's status only ever changes by [process_payment]
    setting it to "paid": every order of a reachable store is pending or
    paid, a request leaves each stored order in place and either as it was
    or set to "paid" by a payment for its id, so a paid order stays paid,
    and new orders start pending.  [process_payment] does not look at the
    status: applied to an order that is already paid it succeeds again,
    records one more completed payment and leaves the order paid. *)
Theorem order_status_only_becomes_paid :
  (forall trace o,
      In o (orders (run trace empty_db)) ->
      order_status o = "pending" \/ order_status o = "paid") /\
  (forall db env r,
      exists kept added,
        orders (step db (env, r)) = kept ++ added /\
        Forall2 (fun o o' =>
                   (o' = o \/
                    ((exists oid u, r = ProcessPayment oid u /\ order_id o = oid) /\
                     o' = set_status "paid" o)) /\
                   (order_status o = "paid" -> order_status o' = "paid"))
                (orders db) kept /\
        Forall (fun o => order_status o = "pending") added) /\
  (forall env oid u db o,
      find (order_by_id_user oid (u_id u)) (orders db) = Some o ->
      order_status o = "paid" ->
      exists db' payment,
        process_payment env oid u db = (db', inr payment) /\
        payments db' = payments db ++ [payment] /\
        pay_order_id payment = oid /\
        pay_status payment = "completed" /\
        pay_amount payment = order_total o /\
        find (order_by_id_user oid (u_id u)) (orders db') = Some o).
Proof.
  split; [|split].
  - intros trace o Hin. destruct (run_ok trace empty_db empty_db_ok) as (_ & _ & Ho).
    rewrite Forall_forall in Ho. now apply Ho.
  - intros db env r. destruct (step_orders db env r) as (kept & added & E & H2 & Hn).
    exists kept, added. split; [exact E|]. split; [|exact Hn].
    eapply Forall2_impl; [|exact H2]. intros o o' Hc. split; [exact Hc|].
    destruct Hc as [->|[_ ->]]; [auto|reflexivity].
  - intros env oid u db o Hf Hpaid. rewrite process_payment_run, Hf. cbn zeta.
    eexists. eexists. split; [reflexivity|].
    cbn [payments orders pay_order_id pay_status pay_amount]. repeat split.
    apply find_update_first; [reflexivity| |assumption].
    rewrite <- Hpaid. apply set_status_same.
Qed.

(** * The catalog seed *)

Lemma products_from_length (env : Env) (k : nat) (l : list ProductCreate) :
  List.length (products_from env k l) = List.length l.
Proof.
  revert k. induction l as [|d r IH]; intros k; simpl; [reflexivity|]. now rewrite IH.
Qed.

(** C9. On a non-empty catalog the seed inserts nothing and answers
    "Products already initialized"; on an empty catalog it inserts the 8
    sample products and answers with the count message; so whatever the
    store, a seed call following a seed call is a no-op with the first
    message, which differs from the count message. *)
Theorem seed_is_idempotent :
  (forall env db,
      products db <> [] ->
      initialize_sample_products env db = (db, inr "Products already initialized")) /\
  (forall env db,
      products db = [] ->
      exists db',
        initialize_sample_products env db =
          (db', inr "Initialized 8 sample products") /\
        products db' = products_from env 0 sample_products /\
        List.length (products db') = 8%nat /\
        map p_name (products db') = map pc_name sample_products) /\
  (forall env1 env2 db,
      let db1 := fst (initialize_sample_products env1 db) in
      products db1 <> [] /\
      initialize_sample_products env2 db1 = (db1, inr "Products already initialized")) /\
  "Products already initialized" <> "Initialized 8 sample products".
Proof.
  assert (H1 : forall env db, products db <> [] ->
            initialize_sample_products env db
            = (db, inr "Products already initialized")).
  { intros env db Hne. rewrite initialize_sample_products_run.
    now destruct (products db). }
  split; [exact H1|]. split; [|split].
  - intros env db Hempty. rewrite initialize_sample_products_run, Hempty.
    eexists. split; [reflexivity|]. cbn [coll_set db_products products].
    split; [reflexivity|]. split; [now rewrite products_from_length|reflexivity].
  - intros env1 env2 db db1.
    assert (Hne : products db1 <> []).
    { unfold db1. rewrite initialize_sample_products_run.
      destruct (products db) eqn:E; cbn [fst coll_set db_products products];
        [discriminate|rewrite E; discriminate]. }
    split; [exact Hne|now apply H1].
  - discriminate.
Qed.

(** * Further properties of the handlers *)

(** ** What a cart request leaves alone *)

Lemma cart_by_user_other (uid uid' : string) (c : Cart) :
  uid' <> uid -> cart_by_user uid c = true -> cart_by_user uid' c = false.
Proof.
  intros Hne Hc. apply cart_by_user_true in Hc. unfold cart_by_user.
  apply String.eqb_neq. congruence.
Qed.

Lemma delete_first_other {D : Type} (q q2 : D -> bool) (l : list D) :
  (forall x, q x = true -> q2 x = false) ->
  find q2 (delete_first q l) = find q2 l.
Proof.
  intros Hq. induction l as [|x r IH]; simpl; [reflexivity|].
  destruct (q x) eqn:Hx; [now rewrite (Hq x Hx)|]. simpl. now rewrite IH.
Qed.

(** [replace_one] with [upsert=True], as a list function *)
Definition upsert_first {D : Type} (q : D -> bool) (d : D) (l : list D) : list D :=
  match replace_first q d l with
  | Some l' => l'
  | None => l ++ [d]
  end.

Lemma upsert_first_other {D : Type} (q q2 : D -> bool) (d : D) (l : list D) :
  (forall x, q x = true -> q2 x = false) -> q2 d = false ->
  find q2 (upsert_first q d l) = find q2 l.
Proof.
  intros Hq Hd. unfold upsert_first.
  destruct (replace_first q d l) as [l'|] eqn:E.
  - now apply (replace_first_other q q2 d l l').
  - rewrite find_app. simpl. rewrite Hd. now destruct (find q2 l).
Qed.

Lemma upsert_first_find {D : Type} (q : D -> bool) (d : D) (l : list D) :
  q d = true -> find q (upsert_first q d l) = Some d.
Proof.
  intros Hd. unfold upsert_first.
  destruct (replace_first q d l) as [l'|] eqn:E.
  - now apply (replace_first_find q d l l').
  - apply replace_first_none in E. rewrite find_app, E. simpl. now rewrite Hd.
Qed.

Lemma add_to_cart_carts (env : Env) (item : AddToCartRequest) (u : User) (db : Db)
  (product : Product) :
  product_of (req_product_id item) db = Some product ->
  fst (add_to_cart env item u db) =
  if quantities_fit
       (cart_items (cart_after_add env item product (u_id u) (cart_of (u_id u) db)))
  then coll_set db_carts
         (upsert_first (cart_by_user (u_id u))
            (cart_after_add env item product (u_id u) (cart_of (u_id u) db))
            (carts db)) db
  else db.
Proof.
  intros Hp. rewrite add_to_cart_run, Hp. cbn zeta.
  now destruct (quantities_fit _).
Qed.

(** the stores [db] and [db'] differ at most in the cart of user [uid] *)
Definition only_cart_of (uid : string) (db db' : Db) : Prop :=
  products db' = products db /\
  orders db' = orders db /\
  payments db' = payments db /\
  forall uid', uid' <> uid -> cart_of uid' db' = cart_of uid' db.

(** X1. The cart handlers write to the caller's cart and to nothing else: the
    catalog, the orders, the payments and every other user's cart are the
    same after [get_cart], [add_to_cart] and [remove_from_cart], whether
    the call succeeds or raises. *)
Theorem cart_requests_are_confined :
  forall env u db,
    only_cart_of (u_id u) db (fst (get_cart env u db)) /\
    (forall item, only_cart_of (u_id u) db (fst (add_to_cart env item u db))) /\
    (forall pid, only_cart_of (u_id u) db (fst (remove_from_cart env pid u db))).
Proof.
  intros env u db. unfold only_cart_of.
  split; [|split; [intros item|intros pid]].
  - rewrite get_cart_run. destruct (cart_of (u_id u) db) eqn:Hc; [now repeat split|].
    cbn [fst coll_set db_carts]. repeat split. intros uid Hne.
    unfold cart_of. cbn [carts]. rewrite find_app. simpl.
    unfold cart_by_user at 2. cbn [Cart_new cart_user_id].
    apply String.eqb_neq in Hne. rewrite String.eqb_sym in Hne. rewrite Hne.
    now destruct (find _ (carts db)).
  - destruct (product_of (req_product_id item) db) as [product|] eqn:Hp.
    + rewrite (add_to_cart_carts env item u db product Hp).
      pose proof (cart_after_add_user env item product (u_id u) db) as Hid.
      set (c' := cart_after_add env item product (u_id u) (cart_of (u_id u) db)) in *.
      destruct (quantities_fit (cart_items c')); [|now repeat split].
      cbn [coll_set db_carts products orders payments]. repeat split.
      intros uid Hne. unfold cart_of. cbn [carts].
      apply upsert_first_other.
      * intros x. now apply cart_by_user_other.
      * unfold cart_by_user. apply String.eqb_neq. congruence.
    + rewrite add_to_cart_run, Hp. now repeat split.
  - destruct (cart_of (u_id u) db) as [c|] eqn:Hc.
    + destruct (remove_from_cart_stored env pid u db c Hc)
        as (d & E & _ & Hp & Ho & Hy).
      rewrite E. cbn [fst]. repeat split; try assumption.
      intros uid Hne. rewrite remove_from_cart_run, Hc in E. cbn zeta in E.
      destruct (cart_of_user _ _ _ Hc) as [Hid _].
      match type of E with context [replace_first ?q ?c ?l] =>
        destruct (replace_first q c l) as [l'|] eqn:Er end;
        injection E as <-; [|reflexivity].
      unfold cart_of. cbn [coll_set db_carts carts].
      apply (replace_first_other _ _ _ _ _) with (3 := Er).
      * intros x. now apply cart_by_user_other.
      * unfold cart_by_user. cbn [cart_user_id]. apply String.eqb_neq. congruence.
    + rewrite remove_from_cart_run, Hc. now repeat split.
Qed.

(** two cart documents that agree on everything but the timestamp *)
Definition same_cart_content (c c' : Cart) : Prop :=
  cart_id c' = cart_id c /\
  cart_user_id c' = cart_user_id c /\
  cart_items c' = cart_items c /\
  cart_total c' = cart_total c.

(** X2. [get_cart] never fails and creates at most once: it answers with a
    cart owned by the caller, an empty one with total 0 and a fresh id when
    the caller had none, which is then the caller's stored cart; a second
    call leaves the store as the first call left it and answers with a cart
    of the same id, owner, items and total. *)
Theorem get_cart_creates_once :
  forall env env' u db,
    exists c c2,
      get_cart env u db = (fst (get_cart env u db), inr c) /\
      cart_user_id c = u_id u /\
      (exists stored,
          cart_of (u_id u) (fst (get_cart env u db)) = Some stored /\
          same_cart_content c stored) /\
      (cart_of (u_id u) db = None ->
       cart_id c = uuid4 env 0 /\ cart_items c = [] /\ cart_total c = f_zero) /\
      (forall c0, cart_of (u_id u) db = Some c0 ->
                  c = c0 /\ fst (get_cart env u db) = db) /\
      get_cart env' u (fst (get_cart env u db)) = (fst (get_cart env u db), inr c2) /\
      same_cart_content c c2.
Proof.
  intros env env' u db. rewrite get_cart_run.
  assert (Hrefl : forall c, same_cart_content c c) by (intros c; now repeat split).
  destruct (cart_of (u_id u) db) as [c0|] eqn:Hc.
  - exists c0, c0. cbn [fst]. destruct (cart_of_user _ _ _ Hc) as [Hid _].
    split; [reflexivity|]. split; [assumption|].
    split; [exists c0; now split|]. split; [discriminate|].
    split; [intros c1 Hc1; injection Hc1 as <-; now split|].
    split; [now rewrite get_cart_run, Hc|apply Hrefl].
  - exists (Cart_new env (u_id u)), (Cart_new env (u_id u)). cbn [fst].
    assert (Hnew : cart_of (u_id u)
                     (coll_set db_carts (carts db ++ [Cart_new env (u_id u)]) db)
                   = Some (Cart_new env (u_id u))).
    { unfold cart_of in *. cbn [coll_set db_carts carts]. rewrite find_app, Hc. simpl.
      unfold cart_by_user. cbn [Cart_new cart_user_id]. now rewrite String.eqb_refl. }
    split; [reflexivity|]. split; [reflexivity|].
    split; [exists (Cart_new env (u_id u)); now split|].
    split; [intros _; now repeat split|]. split; [discriminate|].
    split; [now rewrite get_cart_run, Hnew|apply Hrefl].
Qed.

(** ** How the cart operations compose *)

Lemma filter_filter_other (pid pid' : string) (items : list CartItem) :
  pid' <> pid ->
  filter (item_is pid') (filter (fun it => negb (item_is pid it)) items) =
  filter (item_is pid') items.
Proof.
  intros Hne. induction items as [|ci r IH]; simpl; [reflexivity|].
  destruct (item_is pid ci) eqn:E; simpl.
  - apply item_is_true in E.
    replace (item_is pid' ci) with false; [assumption|].
    symmetry. apply item_is_false. congruence.
  - destruct (item_is pid' ci); now rewrite IH.
Qed.

(** X3. After a successful [remove_from_cart] the caller's cart holds no line
    item of that product, however many it held before; the line items of
    every other product are as they were, and the stored total is the sum
    over what is left. *)
Theorem remove_from_cart_drops_the_product :
  forall env pid u db c,
    cart_of (u_id u) db = Some c ->
    exists db' c',
      remove_from_cart env pid u db = (db', inr "Item removed from cart") /\
      cart_of (u_id u) db' = Some c' /\
      Forall (fun ci => ci_product_id ci <> pid) (cart_items c') /\
      (forall pid', pid' <> pid ->
                    filter (item_is pid') (cart_items c') =
                    filter (item_is pid') (cart_items c)) /\
      cart_total c' = cart_sum (cart_items c') /\
      cart_id c' = cart_id c /\
      cart_user_id c' = cart_user_id c.
Proof.
  intros env pid u db c Hc.
  destruct (remove_from_cart_stored env pid u db c Hc) as (db' & E & Hc' & _).
  eexists. eexists. split; [exact E|]. split; [exact Hc'|].
  cbn [cart_items cart_total cart_id cart_user_id]. repeat split.
  - apply Forall_forall. intros ci Hci. apply filter_In in Hci as [_ Hci].
    apply item_is_false. now destruct (item_is pid ci).
  - intros pid' Hne. now apply filter_filter_other.
Qed.

Lemma filter_drop_appended (pid : string) (old : list CartItem) (new : CartItem) :
  Forall (fun ci => ci_product_id ci <> pid) old ->
  ci_product_id new = pid ->
  filter (fun it => negb (item_is pid it)) (old ++ [new]) = old.
Proof.
  intros Hold Hnew. rewrite filter_app. simpl.
  apply item_is_true in Hnew. rewrite Hnew. simpl. rewrite app_nil_r.
  apply filter_all. eapply Forall_impl; [|exact Hold].
  intros ci Hci. apply item_is_false in Hci. now rewrite Hci.
Qed.

(** X4. In a reachable store, adding a product the caller's cart does not hold,
    in a quantity the store's 8-byte integers can hold, and then removing
    it gives back the cart's items and total (and the cart's id); when the
    caller had no cart, what is left is an empty cart with total 0.
    Nothing else in the store has changed. *)
Theorem add_then_remove_restores_cart :
  forall trace env1 env2 item u product,
    product_of (req_product_id item) (run trace empty_db) = Some product ->
    (forall c, cart_of (u_id u) (run trace empty_db) = Some c ->
               Forall (fun ci => ci_product_id ci <> req_product_id item)
                      (cart_items c)) ->
    fits_int64 (req_quantity item) = true ->
    exists db1 db2 c2,
      add_to_cart env1 item u (run trace empty_db) = (db1, inr "Item added to cart") /\
      remove_from_cart env2 (req_product_id item) u db1 =
        (db2, inr "Item removed from cart") /\
      cart_of (u_id u) db2 = Some c2 /\
      match cart_of (u_id u) (run trace empty_db) with
      | Some c => cart_items c2 = cart_items c /\
                  cart_total c2 = cart_total c /\
                  cart_id c2 = cart_id c
      | None => cart_items c2 = [] /\ cart_total c2 = f_zero
      end /\
      only_cart_of (u_id u) (run trace empty_db) db2.
Proof.
  intros trace env1 env2 item u product Hp Hfree Hq.
  assert (Hfit : quantities_fit
                   (match cart_of (u_id u) (run trace empty_db) with
                    | Some c => cart_items c
                    | None => []
                    end ++
                    [ {| ci_product_id := req_product_id item;
                         ci_quantity := req_quantity item;
                         ci_price := p_price product |} ]) = true).
  { rewrite quantities_fit_snoc; [exact Hq|].
    destruct (cart_of (u_id u) (run trace empty_db)) as [c|] eqn:Hc; [|reflexivity].
    destruct (cart_of_user _ _ _ Hc) as [_ Hin].
    exact (reachable_carts_fit trace c Hin). }
  set (db := run trace empty_db) in *.
  destruct (add_to_cart_fresh env1 item u db product Hp Hfree Hfit)
    as (db1 & c1 & E1 & Hc1 & _ & Hitems1).
  destruct (remove_from_cart_stored env2 (req_product_id item) u db1 c1 Hc1)
    as (db2 & E2 & Hc2 & _).
  exists db1, db2. eexists. split; [exact E1|]. split; [exact E2|].
  split; [exact Hc2|]. cbn [cart_items cart_total cart_id]. split.
  - assert (Hback : filter (fun it => negb (item_is (req_product_id item) it))
                      (cart_items c1)
                    = match cart_of (u_id u) db with
                      | Some c => cart_items c
                      | None => []
                      end).
    { rewrite Hitems1. apply filter_drop_appended; [|reflexivity].
      destruct (cart_of (u_id u) db) as [c|]; [now apply Hfree|constructor]. }
    rewrite Hback.
    destruct (add_to_cart_outcome _ _ _ _ _ _ E1) as (product' & Hp' & Hfit').
    rewrite Hp in Hp'. injection Hp' as <-.
    destruct (add_to_cart_stored env1 item u db product Hp Hfit') as (_ & Hstored & _).
    rewrite E1 in Hstored. cbn [fst] in Hstored. rewrite Hc1 in Hstored.
    injection Hstored as Hc1'.
    destruct (cart_of (u_id u) db) as [c|] eqn:Hc.
    + destruct (cart_of_user _ _ _ Hc) as [_ Hin].
      destruct (reachable_cart_ok trace c Hin) as [Htotal _].
      repeat split; [now symmetry|]. now rewrite Hc1'.
    + now split.
  - pose proof (cart_requests_are_confined env1 u db) as (_ & Hadd & _).
    pose proof (cart_requests_are_confined env2 u db1) as (_ & _ & Hrem).
    specialize (Hadd item). specialize (Hrem (req_product_id item)).
    rewrite E1 in Hadd. rewrite E2 in Hrem. cbn [fst] in *.
    destruct Hadd as (A1 & A2 & A3 & A4). destruct Hrem as (R1 & R2 & R3 & R4).
    repeat split; try congruence.
    intros uid Hne. now rewrite R4, A4.
Qed.

Lemma add_quantity_twice (q1 q2 : Z) (ci : CartItem) :
  add_quantity q2 (add_quantity q1 ci) = add_quantity (q1 + q2) ci.
Proof. unfold add_quantity. cbn. now rewrite Z.add_assoc. Qed.

Lemma cart_after_add_twice (env1 env2 env3 : Env) (pid : string) (q1 q2 : Z)
  (product : Product) (uid : string) (cart_data : option Cart) :
  cart_items
    (cart_after_add env2 {| req_product_id := pid; req_quantity := q2 |} product uid
       (Some (cart_after_add env1 {| req_product_id := pid; req_quantity := q1 |}
                product uid cart_data)))
  = cart_items
      (cart_after_add env3 {| req_product_id := pid; req_quantity := q1 + q2 |}
         product uid cart_data).
Proof.
  unfold cart_after_add. cbn [cart_items req_product_id req_quantity].
  set (items := cart_items match cart_data with
                           | Some c => c
                           | None => Cart_new env1 uid
                           end).
  assert (Hsame : cart_items match cart_data with
                             | Some c => c
                             | None => Cart_new env3 uid
                             end = items) by now destruct cart_data.
  rewrite Hsame.
  destruct (find_index (item_is pid) items) as [i|] eqn:E.
  - apply find_index_some in E as (l1 & x & l2 & Hl & <- & Hx & H1).
    rewrite Hl, !update_at_app.
    rewrite find_index_first, update_at_app; [|assumption|].
    + now rewrite add_quantity_twice.
    + apply item_is_true in Hx. now apply item_is_true.
  - apply find_index_none in E.
    rewrite find_index_first, update_at_app; [|assumption|].
    + reflexivity.
    + now apply item_is_true.
Qed.

(** X5. Quantities add up: when adding [q1] and then [q2] of a product both
    succeed, adding [q1 + q2] at once succeeds too and leaves the caller's
    cart with the same line items and the same total, whether or not the
    cart held the product (or existed) before. *)
Theorem add_twice_is_add_of_the_sum :
  forall env1 env2 env3 u pid q1 q2 db db1 db2,
    add_to_cart env1 {| req_product_id := pid; req_quantity := q1 |} u db
      = (db1, inr "Item added to cart") ->
    add_to_cart env2 {| req_product_id := pid; req_quantity := q2 |} u db1
      = (db2, inr "Item added to cart") ->
    exists db3 c12 c3,
      add_to_cart env3 {| req_product_id := pid; req_quantity := q1 + q2 |} u db
        = (db3, inr "Item added to cart") /\
      cart_of (u_id u) db2 = Some c12 /\
      cart_of (u_id u) db3 = Some c3 /\
      cart_items c12 = cart_items c3 /\
      cart_total c12 = cart_total c3.
Proof.
  intros env1 env2 env3 u pid q1 q2 db db1 db2 E1 E2.
  destruct (add_to_cart_outcome _ _ _ _ _ _ E1) as (product & Hp & Hfit1).
  cbn [req_product_id] in Hp.
  destruct (add_to_cart_stored env1 {| req_product_id := pid; req_quantity := q1 |}
              u db product Hp Hfit1) as (_ & Hc1 & Hprod1).
  rewrite E1 in Hc1, Hprod1. cbn [fst] in Hc1, Hprod1.
  destruct (add_to_cart_outcome _ _ _ _ _ _ E2) as (product2 & Hp2 & Hfit2).
  cbn [req_product_id] in Hp2.
  assert (Hsame : product2 = product).
  { unfold product_of in Hp, Hp2. rewrite Hprod1 in Hp2. congruence. }
  subst product2.
  destruct (add_to_cart_stored env2 {| req_product_id := pid; req_quantity := q2 |}
              u db1 product Hp2 Hfit2) as (_ & Hc12 & _).
  rewrite E2 in Hc12. cbn [fst] in Hc12.
  pose proof (cart_after_add_twice env1 env2 env3 pid q1 q2 product (u_id u)
                (cart_of (u_id u) db)) as Hitems.
  rewrite Hc1 in Hfit2, Hc12. rewrite Hitems in Hfit2.
  destruct (add_to_cart_stored env3 {| req_product_id := pid; req_quantity := q1 + q2 |}
              u db product Hp Hfit2) as (E3 & Hc3 & _).
  eexists. eexists. eexists. split; [exact E3|]. split; [exact Hc12|].
  split; [exact Hc3|]. split; [exact Hitems|].
  unfold cart_after_add at 1 3. cbn [cart_total].
  unfold cart_after_add at 1 3 in Hitems. cbn [cart_items] in Hitems.
  now rewrite Hitems.
Qed.

(** ** The catalog *)

Lemma get_product_run (pid : string) (db : Db) :
  get_product pid db =
  match product_of pid db with
  | None => (db, inl {| status_code := 404; detail := "Product not found" |})
  | Some product => (db, inr product)
  end.
Proof.
  unfold get_product, product_of. unfold_store.
  now destruct (find (product_by_id pid) (products db)).
Qed.



Lemma get_order_run (oid : string) (u : User) (db : Db) :
  get_order oid u db =
  match find (order_by_id_user oid (u_id u)) (orders db) with
  | None => (db, inl {| status_code := 404; detail := "Order not found" |})
  | Some order => (db, inr order)
  end.
Proof.
  unfold get_order. unfold_store.
  now destruct (find (order_by_id_user oid (u_id u)) (orders db)).
Qed.

(** how one request changes the catalog and the payments: by appending *)
Lemma step_appends (db : Db) (er : Env * Request) :
  exists ps ys,
    products (step db er) = products db ++ ps /\
    payments (step db er) = payments db ++ ys.
Proof.
  assert (Hsame : forall db', products db' = products db ->
                              payments db' = payments db ->
                  exists ps ys, products db' = products db ++ ps /\
                                payments db' = payments db ++ ys).
  { intros db' -> ->. exists [], []. now rewrite !app_nil_r. }
  destruct er as [env r]. unfold step. cbn [fst snd].
  destruct r as [pid|d|cu|item cu|pid cu|od cu|cu|oid cu|oid cu|];
    cbn [handle]; rewrite fst_fmap.
  - rewrite get_product_run. now destruct (product_of pid db); apply Hsame.
  - rewrite create_product_run. destruct (fits_int64 _); [|now apply Hsame].
    cbn [fst coll_set db_products products payments].
    eexists. exists []. split; [reflexivity|now rewrite app_nil_r].
  - destruct (cart_requests_are_confined env cu db) as ((Hp & _ & Hy & _) & _).
    now apply Hsame.
  - destruct (cart_requests_are_confined env cu db) as (_ & H & _).
    destruct (H item) as (Hp & _ & Hy & _). now apply Hsame.
  - destruct (cart_requests_are_confined env cu db) as (_ & _ & H).
    destruct (H pid) as (Hp & _ & Hy & _). now apply Hsame.
  - rewrite create_order_run. destruct (cart_of (u_id cu) db) as [c|];
      [|now apply Hsame]. destruct (cart_items c); now apply Hsame.
  - now apply Hsame.
  - unfold get_order. unfold_store. destruct (find _ (orders db));
      now apply Hsame.
  - rewrite process_payment_run. destruct (find _ (orders db));
      [|now apply Hsame]. cbn [fst products payments].
    exists []. eexists. split; [now rewrite app_nil_r|reflexivity].
  - rewrite initialize_sample_products_run.
    destruct (products db) eqn:E; [|now apply Hsame].
    cbn [fst coll_set db_products products payments].
    eexists. exists []. split; [reflexivity|now rewrite app_nil_r].
Qed.

(** X7. No request deletes or rewrites a product or a payment: over any run
    the catalog and the payments only grow at the end, so a product id that
    resolves keeps resolving to the same product (same name, price and
    stock) whatever is served afterwards. *)
Theorem catalog_and_payments_only_grow :
  forall trace db,
    (exists ps ys,
        products (run trace db) = products db ++ ps /\
        payments (run trace db) = payments db ++ ys) /\
    (forall pid p, product_of pid db = Some p ->
                   product_of pid (run trace db) = Some p).
Proof.
  assert (Hgrow : forall trace db, exists ps ys,
             products (run trace db) = products db ++ ps /\
             payments (run trace db) = payments db ++ ys).
  { induction trace as [|er trace IH]; intros db; simpl.
    - exists [], []. now rewrite !app_nil_r.
    - destruct (IH (step db er)) as (ps & ys & Hp & Hy).
      destruct (step_appends db er) as (ps0 & ys0 & Hp0 & Hy0).
      exists (ps0 ++ ps), (ys0 ++ ys). rewrite Hp, Hy, Hp0, Hy0, !app_assoc.
      now split. }
  intros trace db. split; [apply Hgrow|].
  intros pid p Hp. destruct (Hgrow trace db) as (ps & _ & E & _).
  unfold product_of in *. now rewrite E, find_app, Hp.
Qed.

(** every line item of every stored cart carries the price of the catalog
    product its id resolves to *)
Definition lines_priced (db : Db) : Prop :=
  forall c ci,
    In c (carts db) -> In ci (cart_items c) ->
    exists product,
      product_of (ci_product_id ci) db = Some product /\
      ci_price ci = p_price product.

Lemma cart_after_add_priced (env : Env) (item : AddToCartRequest) (product : Product)
  (uid : string) (db : Db) (ci : CartItem) :
  lines_priced db ->
  product_of (req_product_id item) db = Some product ->
  In ci (cart_items (cart_after_add env item product uid (cart_of uid db))) ->
  exists p, product_of (ci_product_id ci) db = Some p /\ ci_price ci = p_price p.
Proof.
  intros Hres Hp. unfold cart_after_add. cbn [cart_items].
  assert (Hold : forall x,
             In x (cart_items match cart_of uid db with
                              | Some c => c
                              | None => Cart_new env uid
                              end) ->
             exists p, product_of (ci_product_id x) db = Some p /\
                       ci_price x = p_price p).
  { destruct (cart_of uid db) as [c|] eqn:Hc; [|intros x []].
    apply cart_of_user in Hc as [_ Hin]. intros x Hx. now apply (Hres c). }
  destruct (find_index _ _) as [i|].
  - intros Hin. apply update_at_In in Hin as [Hin|(x & Hx & ->)]; auto.
    exact (Hold x Hx).
  - intros Hin. apply in_app_iff in Hin as [Hin|[<-|[]]]; auto.
    now exists product.
Qed.

Lemma step_lines_priced (db : Db) (er : Env * Request) :
  lines_priced db -> lines_priced (step db er).
Proof.
  intros Hres c ci Hc Hci.
  assert (Hold : exists c0, In c0 (carts db) /\ In ci (cart_items c0) \/
                 exists p, product_of (ci_product_id ci) db = Some p /\
                           ci_price ci = p_price p).
  { destruct er as [env r]. unfold step in Hc. cbn [fst snd] in Hc.
    destruct r as [pid|d|cu|item cu|pid cu|od cu|cu|oid cu|oid cu|];
      cbn [handle] in Hc; rewrite fst_fmap in Hc.
    - rewrite get_product_run in Hc. exists c. left.
      now destruct (product_of pid db).
    - rewrite create_product_run in Hc. exists c. left.
      now destruct (fits_int64 _).
    - rewrite get_cart_run in Hc. exists c. left.
      destruct (cart_of (u_id cu) db); [now split|].
      cbn [fst coll_set db_carts carts] in Hc.
      apply in_app_iff in Hc as [Hc|[<-|[]]]; [now split|destruct Hci].
    - rewrite add_to_cart_run in Hc.
      destruct (product_of (req_product_id item) db) as [product|] eqn:Hp;
        [|exists c; now left].
      cbn zeta in Hc. destruct (quantities_fit _); [|exists c; now left].
      cbn [fst coll_set db_carts carts] in Hc.
      assert (Hnew : c = cart_after_add env item product (u_id cu)
                           (cart_of (u_id cu) db) \/ In c (carts db)).
      { destruct (replace_first _ _ (carts db)) as [l|] eqn:E.
        - now apply (replace_first_In _ _ _ _ _ E).
        - apply in_app_iff in Hc as [Hc|[<-|[]]]; auto. }
      exists c. destruct Hnew as [->|Hin]; [right|now left].
      now apply (cart_after_add_priced env item product (u_id cu) db).
    - rewrite remove_from_cart_run in Hc.
      destruct (cart_of (u_id cu) db) as [c0|] eqn:Hc0; [|exists c; now left].
      cbn zeta in Hc. apply cart_of_user in Hc0 as [_ Hin0].
      match type of Hc with context [replace_first ?q ?c ?l] =>
        destruct (replace_first q c l) as [l'|] eqn:E end; [|exists c; now left].
      cbn [fst coll_set db_carts carts] in Hc.
      apply (replace_first_In _ _ _ _ _ E) in Hc as [->|Hc]; [|exists c; now left].
      cbn [cart_items] in Hci. apply filter_In in Hci as [Hci _].
      exists c0. now left.
    - rewrite create_order_run in Hc.
      destruct (cart_of (u_id cu) db) as [c0|]; [|exists c; now left].
      destruct (cart_items c0) as [|ci0 r0]; [exists c; now left|].
      cbn [fst carts] in Hc. apply delete_first_incl in Hc. exists c. now left.
    - exists c. now left.
    - rewrite get_order_run in Hc. exists c. left.
      now destruct (find _ (orders db)).
    - rewrite process_payment_run in Hc. exists c. left.
      now destruct (find _ (orders db)).
    - rewrite initialize_sample_products_run in Hc. exists c. left.
      now destruct (products db). }
  assert (Hp : exists p, product_of (ci_product_id ci) db = Some p /\
                         ci_price ci = p_price p).
  { destruct Hold as [c0 [[Hc0 Hci0]|Hp]]; [now apply (Hres c0)|exact Hp]. }
  destruct Hp as (p & Hp & Hprice). exists p. split; [|exact Hprice].
  change (step db er) with (run [er] db).
  now apply catalog_and_payments_only_grow.
Qed.

(** X8. Served by the handlers alone, a price snapshot is never out of date: in
    every store reachable from the empty database, each cart line item's
    product id resolves in the catalog and its price is that product's
    price. *)
Theorem reachable_snapshots_match_catalog :
  forall trace c ci,
    In c (carts (run trace empty_db)) ->
    In ci (cart_items c) ->
    exists product,
      product_of (ci_product_id ci) (run trace empty_db) = Some product /\
      ci_price ci = p_price product.
Proof.
  assert (Hrun : forall trace db, lines_priced db -> lines_priced (run trace db)).
  { induction trace as [|er trace IH]; intros db Hdb; simpl; [assumption|].
    apply IH. now apply step_lines_priced. }
  intros trace. apply Hrun. intros c ci [].
Qed.

(** ** Reading orders *)

Lemma order_by_id_user_true (oid uid : string) (o : Order) :
  order_by_id_user oid uid o = true <-> order_id o = oid /\ order_user_id o = uid.
Proof.
  unfold order_by_id_user. rewrite andb_true_iff, !String.eqb_eq. tauto.
Qed.

Lemma firstn_member {D : Type} (n : nat) (l : list D) (x : D) :
  In x (firstn n l) -> In x l.
Proof.
  intros H. rewrite <- (firstn_skipn n l). apply in_or_app. now left.
Qed.

Lemma firstn_all_short {D : Type} (n : nat) (l : list D) :
  (List.length l <= n)%nat -> firstn n l = l.
Proof. intros H. now apply firstn_all2. Qed.

(** X9. [get_orders] reads and never writes or fails: it answers with at most
    100 orders, all of them stored orders owned by the caller, in the order
    they were stored; with no more than 100 orders of the caller in the
    store, every one of them is in the answer. *)
Theorem get_orders_lists_own_orders :
  forall u db,
    exists l,
      get_orders u db = (db, inr l) /\
      (List.length l <= 100)%nat /\
      (forall o, In o l -> In o (orders db) /\ order_user_id o = u_id u) /\
      l = firstn 100 (filter (order_by_user (u_id u)) (orders db)) /\
      ((List.length (filter (order_by_user (u_id u)) (orders db)) <= 100)%nat ->
       forall o, In o (orders db) -> order_user_id o = u_id u -> In o l).
Proof.
  intros u db. eexists. split; [reflexivity|]. cbv beta. repeat split.
  - apply firstn_le_length.
  - apply firstn_member in H. now apply filter_In in H as [H _].
  - apply firstn_member in H. apply filter_In in H as [_ H].
    now apply String.eqb_eq in H.
  - intros Hshort o Hin Hown. rewrite firstn_all_short by assumption.
    apply filter_In. split; [assumption|]. now apply String.eqb_eq.
Qed.

(** X10. [get_order] answers with a stored order that has the requested id and
    is owned by the caller, and raises 404 exactly when the store holds no
    such order, also when the id belongs to another user's order; it never
    changes the store. *)
Theorem get_order_is_scoped_to_owner :
  forall oid u db,
    fst (get_order oid u db) = db /\
    (forall o, snd (get_order oid u db) = inr o ->
               In o (orders db) /\ order_id o = oid /\ order_user_id o = u_id u) /\
    ((exists e, snd (get_order oid u db) = inl e) <->
     (forall o, In o (orders db) -> order_id o = oid -> order_user_id o <> u_id u)) /\
    (forall e, snd (get_order oid u db) = inl e ->
               NotFound e /\ detail e = "Order not found").
Proof.
  intros oid u db. rewrite get_order_run.
  destruct (find (order_by_id_user oid (u_id u)) (orders db)) as [o|] eqn:E;
    cbn [fst snd]; (split; [reflexivity|]); (split; [|split]).
  - intros o' Ho. injection Ho as <-. apply find_some in E as [Hin Hq].
    apply order_by_id_user_true in Hq. tauto.
  - split; [intros [e He]; discriminate|].
    intros Hnone. exfalso. apply find_some in E as [Hin Hq].
    apply order_by_id_user_true in Hq as [Hid Hu]. now apply (Hnone o).
  - intros e He. discriminate.
  - intros o Ho. discriminate.
  - split; [|intros _; eexists; reflexivity].
    intros _ o Hin Hid Hu. apply (find_none _ _ E) in Hin.
    assert (order_by_id_user oid (u_id u) o = true)
      by now apply order_by_id_user_true.
    congruence.
  - intros e He. injection He as <-. now split.
Qed.

(** ** Checkout and payment together *)

Lemma update_first_app_none {D : Type} (q : D -> bool) (f : D -> D) (l1 l2 : list D) :
  Forall (fun x => q x = false) l1 ->
  update_first q f (l1 ++ l2) = l1 ++ update_first q f l2.
Proof.
  induction 1 as [|x r Hx Hr IH]; simpl; [reflexivity|]. now rewrite Hx, IH.
Qed.

Lemma find_app_none {D : Type} (q : D -> bool) (l1 l2 : list D) :
  Forall (fun x => q x = false) l1 -> find q (l1 ++ l2) = find q l2.
Proof.
  induction 1 as [|x r Hx Hr IH]; simpl; [reflexivity|]. now rewrite Hx.
Qed.

Lemma fresh_order_id (oid uid : string) (l : list Order) :
  Forall (fun o => order_id o <> oid) l ->
  Forall (fun o => order_by_id oid o = false) l /\
  Forall (fun o => order_by_id_user oid uid o = false) l.
Proof.
  intros H. split; eapply Forall_impl; try exact H; intros o Ho.
  - now apply String.eqb_neq.
  - unfold order_by_id_user. apply String.eqb_neq in Ho. now rewrite Ho.
Qed.

(** what an order document says, its timestamp apart *)
Definition same_order_answer (o o' : Order) : Prop :=
  order_id o' = order_id o /\
  order_user_id o' = order_user_id o /\
  order_items o' = order_items o /\
  order_total o' = order_total o /\
  order_status o' = order_status o /\
  order_shipping_address o' = order_shipping_address o.

(** X11. When a checkout succeeds with an order id that no stored order has,
    the caller reads the order back with [get_order] (same id, owner, line
    items, total, status and address), any other user gets 404 for it, and
    a payment by the caller succeeds for the amount of the cart's total;
    after it the caller reads the same order with status "paid", and the
    order is the only one the payment has changed. *)
Theorem checkout_then_pay :
  forall env env' od u db db' order,
    create_order env od u db = (db', inr order) ->
    Forall (fun o => order_id o <> uuid4 env 0) (orders db) ->
    (exists o1, get_order (order_id order) u db' = (db', inr o1) /\
                same_order_answer order o1) /\
    (forall u', u_id u' <> u_id u ->
                exists e, get_order (order_id order) u' db' = (db', inl e) /\
                          NotFound e) /\
    exists db'' payment c,
      process_payment env' (order_id order) u db' = (db'', inr payment) /\
      cart_of (u_id u) db = Some c /\
      pay_amount payment = cart_total c /\
      pay_order_id payment = order_id order /\
      pay_status payment = "completed" /\
      (exists o2, orders db'' = orders db ++ [o2] /\
                  same_order_answer (set_status "paid" order) o2) /\
      (exists y, payments db'' = payments db ++ [y] /\
                 pay_order_id y = order_id order /\
                 pay_amount y = cart_total c) /\
      (exists o3, get_order (order_id order) u db'' = (db'', inr o3) /\
                  same_order_answer (set_status "paid" order) o3).
Proof.
  intros env env' od u db db' order E Hfresh.
  assert (Hrefl : forall o, same_order_answer o o) by (intros o; now repeat split).
  destruct (create_order_outcome _ _ _ _ _ _ E) as (c & Hc & _ & Ho & Hdb').
  assert (Hid : order_id order = uuid4 env 0) by now rewrite Ho.
  assert (Huser : order_user_id order = u_id u) by now rewrite Ho.
  assert (Htotal : order_total order = cart_total c) by now rewrite Ho.
  rewrite <- Hid in Hfresh.
  assert (Hmine : order_by_id_user (order_id order) (u_id u) order = true)
    by now apply order_by_id_user_true.
  assert (Horders : orders db' = orders db ++ [order]) by now rewrite Hdb'.
  assert (Hfound : find (order_by_id_user (order_id order) (u_id u)) (orders db')
                   = Some order).
  { rewrite Horders, find_app_none; [|now apply fresh_order_id].
    simpl. now rewrite Hmine. }
  split; [exists order; split; [now rewrite get_order_run, Hfound|apply Hrefl]|].
  split.
  - intros u' Hne. rewrite get_order_run, Horders, find_app_none;
      [|now apply fresh_order_id].
    simpl. replace (order_by_id_user (order_id order) (u_id u') order) with false.
    + eexists. split; reflexivity.
    + symmetry. unfold order_by_id_user. rewrite Huser.
      apply String.eqb_neq in Hne. rewrite String.eqb_sym in Hne.
      rewrite Hne. apply andb_false_r.
  - rewrite process_payment_run, Hfound. cbn zeta.
    eexists. eexists. exists c. split; [reflexivity|].
    cbn [pay_amount pay_order_id pay_status orders payments].
    assert (Hupd : update_first (order_by_id (order_id order)) (set_status "paid")
                     (orders db') = orders db ++ [set_status "paid" order]).
    { rewrite Horders, update_first_app_none;
        [|now apply (fresh_order_id _ (u_id u))].
      simpl. unfold order_by_id. now rewrite String.eqb_refl. }
    rewrite Hupd. split; [assumption|]. do 3 (split; [assumption || reflexivity|]).
    split; [exists (set_status "paid" order); split; [reflexivity|apply Hrefl]|].
    split.
    + eexists. split; [now rewrite Hdb'|]. now split.
    + exists (set_status "paid" order). split; [|apply Hrefl].
      rewrite get_order_run. cbn [orders].
      rewrite find_app_none; [|now apply (fresh_order_id _ (u_id u))].
      simpl. unfold order_by_id_user, set_status. cbn [order_id order_user_id].
      now rewrite Huser, !String.eqb_refl.
Qed.

(** ** Orders and payments over whole runs *)

(** what one request does to the orders and the payments *)
Lemma step_orders_payments (db : Db) (env : Env) (r : Request) :
  (orders (step db (env, r)) = orders db /\
   payments (step db (env, r)) = payments db) \/
  (exists od uid c,
      cart_of uid db = Some c /\ cart_items c <> [] /\
      orders (step db (env, r)) = orders db ++ [order_of_cart env od uid db c] /\
      payments (step db (env, r)) = payments db) \/
  (exists oid found payment,
      In found (orders db) /\ order_id found = oid /\
      orders (step db (env, r)) =
        update_first (order_by_id oid) (set_status "paid") (orders db) /\
      payments (step db (env, r)) = payments db ++ [payment] /\
      pay_order_id payment = oid /\
      pay_amount payment = order_total found /\
      pay_status payment = "completed" /\
      pay_payment_method payment = "mock").
Proof.
  unfold step. cbn [fst snd].
  destruct r as [pid|d|cu|item cu|pid cu|od cu|cu|oid cu|oid cu|];
    cbn [handle]; rewrite fst_fmap.
  - left. rewrite get_product_run. now destruct (product_of pid db).
  - left. rewrite create_product_run. now destruct (fits_int64 _).
  - left. destruct (cart_requests_are_confined env cu db) as ((_ & Ho & Hy & _) & _).
    now split.
  - left. destruct (cart_requests_are_confined env cu db) as (_ & H & _).
    destruct (H item) as (_ & Ho & Hy & _). now split.
  - left. destruct (cart_requests_are_confined env cu db) as (_ & _ & H).
    destruct (H pid) as (_ & Ho & Hy & _). now split.
  - rewrite create_order_run. destruct (cart_of (u_id cu) db) as [c|] eqn:Hc;
      [|left; now split].
    destruct (cart_items c) as [|ci0 r0] eqn:Ei; [left; now split|].
    right. left. exists od, (u_id cu), c. rewrite Ei. repeat split; try assumption.
    discriminate.
  - left. now split.
  - left. rewrite get_order_run. now destruct (find _ (orders db)).
  - rewrite process_payment_run.
    destruct (find _ (orders db)) as [found|] eqn:E; [|left; now split].
    right. right. cbn zeta. cbn [fst orders payments].
    apply find_some in E as [Hin Hq]. apply order_by_id_user_true in Hq as [Hid _].
    exists oid, found. eexists. repeat split; try assumption.
  - left. rewrite initialize_sample_products_run. now destruct (products db).
Qed.

(** the fields of an order that no request writes *)
Definition same_order_content (o o' : Order) : Prop :=
  order_id o' = order_id o /\
  order_user_id o' = order_user_id o /\
  order_items o' = order_items o /\
  order_total o' = order_total o /\
  order_shipping_address o' = order_shipping_address o /\
  order_created_at o' = order_created_at o /\
  (order_status o' = order_status o \/ order_status o' = "paid").

Lemma Forall2_split_left {A B : Type} (R : A -> B -> Prop) (l1 l2 : list A)
  (l : list B) :
  Forall2 R (l1 ++ l2) l ->
  exists k1 k2, l = k1 ++ k2 /\ Forall2 R l1 k1 /\ Forall2 R l2 k2.
Proof.
  intros H. apply Forall2_app_inv_l in H as (k1 & k2 & H1 & H2 & ->).
  now exists k1, k2.
Qed.

Lemma Forall2_compose {A : Type} (R : A -> A -> Prop) (l1 l2 l3 : list A) :
  (forall x y z, R x y -> R y z -> R x z) ->
  Forall2 R l1 l2 -> Forall2 R l2 l3 -> Forall2 R l1 l3.
Proof.
  intros Ht H12. revert l3. induction H12 as [|x y r1 r2 Hxy Hr IH]; intros l3 H23;
    inversion H23; subst; constructor; eauto.
Qed.

(** X12. Orders are never removed, reordered or rewritten: after any run from
    any store, the orders that were stored are still there, in place and
    ahead of the newer ones, each with its id, owner, line items, total,
    address and creation time; a status is as it was or has become
    "paid". *)
Theorem orders_keep_their_content :
  forall trace db,
    exists kept added,
      orders (run trace db) = kept ++ added /\
      Forall2 same_order_content (orders db) kept.
Proof.
  assert (Hrefl : forall o, same_order_content o o)
    by (intros o; unfold same_order_content; tauto).
  assert (Hstep : forall db er, exists kept added,
             orders (step db er) = kept ++ added /\
             Forall2 same_order_content (orders db) kept).
  { intros db [env r]. destruct (step_orders db env r) as (kept & added & E & H2 & _).
    exists kept, added. split; [exact E|]. eapply Forall2_impl; [|exact H2].
    intros o o' [->|[_ ->]]; [apply Hrefl|].
    unfold same_order_content, set_status. cbn. tauto. }
  induction trace as [|er trace IH]; intros db; simpl.
  - exists (orders db), []. rewrite app_nil_r. split; [reflexivity|].
    now apply Forall2_same.
  - destruct (Hstep db er) as (k0 & a0 & E0 & H0).
    destruct (IH (step db er)) as (k1 & a1 & E1 & H1).
    rewrite E0 in H1. apply Forall2_split_left in H1 as (k & a & -> & Hk & _).
    exists k, (a ++ a1). rewrite E1, app_assoc. split; [reflexivity|].
    apply (Forall2_compose same_order_content _ k0 _); try assumption.
    unfold same_order_content. intros x y z Hxy Hyz.
    destruct Hxy as (? & ? & ? & ? & ? & ? & Hs1).
    destruct Hyz as (? & ? & ? & ? & ? & ? & Hs2).
    repeat split; try congruence.
    destruct Hs2 as [Hs2|Hs2]; [rewrite Hs2; exact Hs1|now right].
Qed.

(** [sum(item.price * item.quantity)] over the line items of an order *)
Definition order_sum (items : list OrderItem) : float :=
  fold_left (fun acc it => f_add acc (f_mul_int (oi_price it) (oi_quantity it)))
            items f_zero.

Lemma order_lines_sum (db : Db) (items : list CartItem) (acc : float) :
  (forall ci, In ci items -> exists p, product_of (ci_product_id ci) db = Some p) ->
  fold_left (fun acc it => f_add acc (f_mul_int (oi_price it) (oi_quantity it)))
            (flat_map (order_lines db) items) acc
  = fold_left (fun acc it => f_add acc (f_mul_int (ci_price it) (ci_quantity it)))
              items acc.
Proof.
  revert acc. induction items as [|ci r IH]; intros acc Hres; simpl; [reflexivity|].
  destruct (Hres ci (or_introl eq_refl)) as [p Hp].
  unfold order_lines at 1. rewrite Hp. simpl.
  apply IH. intros x Hx. apply Hres. now right.
Qed.

Definition order_consistent (o : Order) : Prop :=
  order_total o = order_sum (order_items o) /\ order_items o <> [].

Lemma step_order_consistent (db : Db) (er : Env * Request) :
  store_ok db -> lines_resolve db ->
  Forall order_consistent (orders db) ->
  Forall order_consistent (orders (step db er)).
Proof.
  intros (Hcarts & _ & _) Hres Hcons. destruct er as [env r].
  destruct (step_orders_payments db env r)
    as [[-> _]|[(od & uid & c & Hc & Hne & -> & _)|
                (oid & found & payment & _ & _ & -> & _)]].
  - assumption.
  - apply Forall_app. split; [assumption|]. constructor; [|constructor].
    destruct (cart_of_user _ _ _ Hc) as [_ Hin].
    rewrite Forall_forall in Hcarts. destruct (Hcarts c Hin) as [Htotal _].
    unfold order_consistent, order_of_cart. cbn [order_total order_items]. split.
    + rewrite Htotal. unfold order_sum, cart_sum. symmetry.
      apply order_lines_sum. intros ci Hci. now apply (Hres c).
    + destruct (cart_items c) as [|ci r0] eqn:Ei; [contradiction|].
      destruct (Hres c ci Hin) as [p Hp]; [rewrite Ei; now left|].
      simpl. unfold order_lines at 1. rewrite Hp. discriminate.
  - apply update_first_Forall; [|assumption]. intros o Ho. exact Ho.
Qed.

(** X13. Served by the handlers alone, the gap between an order's copied total
    and its line items never opens: every order of a store reachable from
    the empty database has at least one line item, and its total is the
    sum of price times quantity over its own line items. *)
Theorem reachable_order_total_is_sum_of_items :
  forall trace o,
    In o (orders (run trace empty_db)) ->
    order_total o = order_sum (order_items o) /\ order_items o <> [].
Proof.
  assert (Hrun : forall trace db,
             store_ok db -> lines_resolve db ->
             Forall order_consistent (orders db) ->
             Forall order_consistent (orders (run trace db))).
  { induction trace as [|er trace IH]; intros db H1 H2 H3; simpl; [assumption|].
    apply IH; [now apply step_ok|now apply step_lines_resolve|
               now apply step_order_consistent]. }
  intros trace o Hin.
  pose proof (Hrun trace empty_db empty_db_ok empty_db_lines_resolve
                (Forall_nil _)) as H.
  rewrite Forall_forall in H. now apply H.
Qed.

Lemma update_first_In {D : Type} (q : D -> bool) (f : D -> D) (l : list D) (y : D) :
  In y (update_first q f l) ->
  In y l \/ exists x, In x l /\ q x = true /\ y = f x.
Proof.
  induction l as [|x r IH]; simpl; [tauto|].
  destruct (q x) eqn:Hx; intros [<-|Hin]; auto.
  - right. exists x. auto.
  - destruct (IH Hin) as [H|(z & Hz & Hq & ->)]; auto.
    right. exists z. auto.
Qed.

Lemma update_first_keeps {D : Type} (q : D -> bool) (f : D -> D) (l : list D) (x : D) :
  In x l -> In x (update_first q f l) \/ In (f x) (update_first q f l).
Proof.
  induction l as [|y r IH]; simpl; [tauto|].
  destruct (q y); intros [->|Hin]; simpl; auto.
  destruct (IH Hin); auto.
Qed.

Lemma update_first_hits {D : Type} (q : D -> bool) (f : D -> D) (l : list D) (x : D) :
  In x l -> q x = true ->
  exists x0, q x0 = true /\ In (f x0) (update_first q f l).
Proof.
  induction l as [|y r IH]; simpl; [tauto|].
  destruct (q y) eqn:Hy; intros Hin Hx.
  - exists y. split; [assumption|now left].
  - destruct Hin as [->|Hin]; [congruence|].
    destruct (IH Hin Hx) as (x0 & H0 & Hin0). exists x0. split; [assumption|now right].
Qed.

(** the payments agree with the orders *)
Definition payments_match (db : Db) : Prop :=
  (forall p, In p (payments db) ->
     pay_status p = "completed" /\
     pay_payment_method p = "mock" /\
     (exists o, In o (orders db) /\ order_id o = pay_order_id p /\
                order_total o = pay_amount p) /\
     (exists o, In o (orders db) /\ order_id o = pay_order_id p /\
                order_status o = "paid")) /\
  (forall o, In o (orders db) -> order_status o = "paid" ->
     exists p, In p (payments db) /\ pay_order_id p = order_id o).

Lemma step_payments_match (db : Db) (er : Env * Request) :
  payments_match db -> payments_match (step db er).
Proof.
  intros [Hpay Hpaid]. destruct er as [env r].
  destruct (step_orders_payments db env r)
    as [[Eo Ey]|[(od & uid & c & _ & _ & Eo & Ey)|
                 (oid & found & payment & Hfound & Hid & Eo & Ey & Hpo & Hpa & Hps & Hpm)]];
    unfold payments_match; rewrite Eo, Ey.
  - now split.
  - split.
    + intros p Hp. destruct (Hpay p Hp) as (H1 & H2 & (o & Ho & Ho') & (o2 & Ho2 & Ho2')).
      repeat split; try assumption.
      * exists o. split; [apply in_or_app; now left|assumption].
      * exists o2. split; [apply in_or_app; now left|assumption].
    + intros o Ho Hs. apply in_app_iff in Ho as [Ho|[<-|[]]]; [now apply Hpaid|].
      discriminate Hs.
  - assert (Hkeep : forall o, In o (orders db) ->
              exists o', In o' (update_first (order_by_id oid) (set_status "paid")
                                  (orders db)) /\
                         order_id o' = order_id o /\ order_total o' = order_total o /\
                         (order_status o = "paid" -> order_status o' = "paid")).
    { intros o Ho.
      destruct (update_first_keeps (order_by_id oid) (set_status "paid") _ o Ho)
        as [H|H]; [exists o|exists (set_status "paid" o)]; now repeat split. }
    assert (Hhit : exists o, In o (update_first (order_by_id oid) (set_status "paid")
                                     (orders db)) /\
                             order_id o = oid /\ order_status o = "paid").
    { destruct (update_first_hits (order_by_id oid) (set_status "paid") _ found Hfound)
        as (x0 & Hq & Hin); [now apply String.eqb_eq|].
      exists (set_status "paid" x0). apply String.eqb_eq in Hq. now repeat split. }
    split.
    + intros p Hp. apply in_app_iff in Hp as [Hp|[<-|[]]].
      * destruct (Hpay p Hp) as (H1 & H2 & (o & Ho & Hoi & Hot) & (o2 & Ho2 & Ho2i & Ho2s)).
        repeat split; try assumption.
        -- destruct (Hkeep o Ho) as (o' & Hin & Hi & Ht & _).
           exists o'. repeat split; congruence.
        -- destruct (Hkeep o2 Ho2) as (o' & Hin & Hi & _ & Hs).
           exists o'. repeat split; [assumption|congruence|auto].
      * repeat split; try assumption.
        -- destruct (Hkeep found Hfound) as (o' & Hin & Hi & Ht & _).
           exists o'. repeat split; congruence.
        -- destruct Hhit as (o & Hin & Hi & Hs). exists o. repeat split; congruence.
    + intros o Ho Hs. apply update_first_In in Ho as [Ho|(x & Hx & Hq & ->)].
      * destruct (Hpaid o Ho Hs) as (p & Hp & Hpi).
        exists p. split; [apply in_or_app; now left|assumption].
      * exists payment. split; [apply in_or_app; right; now left|].
        apply String.eqb_eq in Hq. cbn [set_status order_id]. congruence.
Qed.

(** X14. In every store reachable from the empty database the payments and the
    orders agree: each payment is completed, made by the mock method, and
    carries the id and the total of a stored order; some order with that id
    is paid; and every paid order has a payment recorded for its id. *)
Theorem reachable_payments_match_orders :
  forall trace,
    (forall p, In p (payments (run trace empty_db)) ->
       pay_status p = "completed" /\
       pay_payment_method p = "mock" /\
       (exists o, In o (orders (run trace empty_db)) /\
                  order_id o = pay_order_id p /\ order_total o = pay_amount p) /\
       (exists o, In o (orders (run trace empty_db)) /\
                  order_id o = pay_order_id p /\ order_status o = "paid")) /\
    (forall o, In o (orders (run trace empty_db)) -> order_status o = "paid" ->
       exists p, In p (payments (run trace empty_db)) /\
                 pay_order_id p = order_id o).
Proof.
  assert (Hrun : forall trace db, payments_match db -> payments_match (run trace db)).
  { induction trace as [|er trace IH]; intros db Hdb; simpl; [assumption|].
    apply IH. now apply step_payments_match. }
  intros trace. apply (Hrun trace empty_db). split; intros x [].
Qed.

(** ** What the order and payment requests leave alone *)

Lemma update_first_others {D : Type} (q : D -> bool) (f : D -> D) (l : list D) :
  Forall2 (fun x x' => x' = x \/ (q x = true /\ x' = f x)) l (update_first q f l).
Proof.
  apply update_first_Forall2; [now left|]. intros x Hx. now right.
Qed.

(** X15. [create_order] writes to the orders and to the caller's cart only: the
    catalog (stock included), the payments and every other user's cart are
    as before, the stored orders are untouched and at most one is added. *)
Theorem create_order_is_confined :
  forall env od u db,
    products (fst (create_order env od u db)) = products db /\
    payments (fst (create_order env od u db)) = payments db /\
    (forall uid, uid <> u_id u ->
                 cart_of uid (fst (create_order env od u db)) = cart_of uid db) /\
    (exists added,
        orders (fst (create_order env od u db)) = orders db ++ added /\
        (List.length added <= 1)%nat).
Proof.
  intros env od u db. rewrite create_order_run.
  assert (Hsame : products db = products db /\ payments db = payments db /\
                  (forall uid, uid <> u_id u -> cart_of uid db = cart_of uid db) /\
                  exists added, orders db = orders db ++ added /\
                                (List.length added <= 1)%nat).
  { repeat split. exists []. rewrite app_nil_r. split; [reflexivity|simpl; lia]. }
  destruct (cart_of (u_id u) db) as [c|]; [|exact Hsame].
  destruct (cart_items c); [exact Hsame|].
  cbn [fst products payments orders]. repeat split.
  - intros uid Hne. unfold cart_of. cbn [carts]. apply delete_first_other.
    intros x. now apply cart_by_user_other.
  - eexists. split; [reflexivity|simpl; lia].
Qed.

(** X16. A caller can only pay for an order of their own: when no stored order
    has both the requested id and the caller as owner (also when the id is
    another user's order) [process_payment] raises 404 and changes
    nothing.  Otherwise it records one payment for the total of the
    caller's order, leaves the catalog and the carts alone, and changes no
    order of another id. *)
Theorem process_payment_pays_own_order :
  forall env oid u db,
    ((forall o, In o (orders db) -> order_id o = oid -> order_user_id o <> u_id u) ->
     exists e, process_payment env oid u db = (db, inl e) /\
               NotFound e /\ detail e = "Order not found") /\
    (forall o, find (order_by_id_user oid (u_id u)) (orders db) = Some o ->
       exists db' payment,
         process_payment env oid u db = (db', inr payment) /\
         pay_order_id payment = oid /\
         pay_amount payment = order_total o /\
         payments db' = payments db ++ [payment] /\
         products db' = products db /\
         carts db' = carts db /\
         Forall2 (fun x x' => x' = x \/ (order_id x = oid /\ x' = set_status "paid" x))
                 (orders db) (orders db')).
Proof.
  intros env oid u db. rewrite process_payment_run. split.
  - intros Hnone.
    destruct (find (order_by_id_user oid (u_id u)) (orders db)) as [o|] eqn:E.
    + apply find_some in E as [Hin Hq].
      apply order_by_id_user_true in Hq as [Hid Hu]. now destruct (Hnone o Hin Hid).
    + eexists. repeat split.
  - intros o Ho. rewrite Ho. cbn zeta. eexists. eexists. split; [reflexivity|].
    cbn [pay_order_id pay_amount payments products carts orders]. repeat split.
    eapply Forall2_impl; [|apply update_first_others].
    intros x x' [->|[Hq ->]]; [now left|right].
    apply String.eqb_eq in Hq. now split.
Qed.

(** ** Listing the catalog *)

Section ProductSearch.

(** The store's [$regex] with option "i": the test a pattern stands for,
    or nothing for a pattern the store rejects (the query then raises an
    error of the store). *)
Variable regex_compile_i : string -> option (string -> bool).





End ProductSearch.

(** ** User service *)

(** The user routes read and write [db.users] and no other collection; the
    collection is kept here on its own, as the list of its documents. *)

Record UserCreate : Type := {
  uc_email : string;
  uc_password : string;
  uc_first_name : string;
  uc_last_name : string
}.

Record UserLogin : Type := {
  ul_email : string;
  ul_password : string
}.

Record UserResponse : Type := {
  ur_user : User;
  ur_token : string
}.

(** a document of [db.users]: [user.dict()] with the "password" key added *)
Record UserDoc : Type := {
  ud_user : User;
  ud_password : string
}.

Definition UsersM (A : Type) : Type :=
  list UserDoc -> list UserDoc * (HTTPException + A).

Definition user_by_email (email : string) (d : UserDoc) : bool :=
  String.eqb (u_email (ud_user d)) email.

Section UserService.

(** [bcrypt.hashpw(password, salt)] and [bcrypt.checkpw(password, hashed)],
    each with nothing for an input on which the library raises (a password
    it finds too long, a hash it cannot read), and [jwt.encode] of the
    payload (user id, expiry) under the configured secret: the libraries'
    functions, left open. *)
Variable hashpw : string -> string -> option string.
Variable checkpw : string -> string -> option bool.
Variable jwt_encode : string -> Z -> string.

(** [hash_password]; [salt] is what [bcrypt.gensalt()] hands out *)
Definition hash_password (salt password : string) : option string :=
  hashpw password salt.

Definition verify_password (password hashed : string) : option bool :=
  checkpw password hashed.

(** [create_jwt_token]: expiry 24 hours after the clock reading *)
Definition create_jwt_token (now : datetime) (user_id : string) : string :=
  jwt_encode user_id (now + 86400).

(** POST /users/register *)
Definition register_user (env : Env) (salt : string) (user_data : UserCreate)
  : UsersM UserResponse :=
  fun users =>
    match find (user_by_email (uc_email user_data)) users with
    | Some _ =>
        (users, inl {| status_code := 400; detail := "Email already registered" |})
    | None =>
        match hash_password salt (uc_password user_data) with
        | None => (users, inl internal_server_error)
        | Some hashed_password =>
            let user := {| u_id := uuid4 env 0;
                           u_email := uc_email user_data;
                           u_first_name := uc_first_name user_data;
                           u_last_name := uc_last_name user_data;
                           u_created_at := utcnow env 0 |} in
            (users ++ [ {| ud_user := user; ud_password := hashed_password |} ],
             inr {| ur_user := user;
                    ur_token := create_jwt_token (utcnow env 1) (u_id user) |})
        end
    end.

(** POST /users/login *)
Definition login_user (env : Env) (login_data : UserLogin) : UsersM UserResponse :=
  fun users =>
    match find (user_by_email (ul_email login_data)) users with
    | None => (users, inl {| status_code := 401; detail := "Invalid credentials" |})
    | Some user_data =>
        match verify_password (ul_password login_data) (ud_password user_data) with
        | None => (users, inl internal_server_error)
        | Some true =>
            (users,
             inr {| ur_user := ud_user user_data;
                    ur_token := create_jwt_token (utcnow env 0)
                                  (u_id (ud_user user_data)) |})
        | Some false =>
            (users, inl {| status_code := 401; detail := "Invalid credentials" |})
        end
    end.

Inductive UserRequest : Type :=
| Register (env : Env) (salt : string) (user_data : UserCreate)
| Login (env : Env) (login_data : UserLogin).

Definition user_step (users : list UserDoc) (r : UserRequest) : list UserDoc :=
  match r with
  | Register env salt user_data => fst (register_user env salt user_data users)
  | Login env login_data => fst (login_user env login_data users)
  end.

Definition user_run (trace : list UserRequest) (users : list UserDoc) : list UserDoc :=
  fold_left user_step trace users.

(** what a user record says, its timestamp apart *)
Definition same_user_answer (u u' : User) : Prop :=
  u_id u' = u_id u /\
  u_email u' = u_email u /\
  u_first_name u' = u_first_name u /\
  u_last_name u' = u_last_name u.

Lemma user_by_email_true (email : string) (d : UserDoc) :
  user_by_email email d = true <-> u_email (ud_user d) = email.
Proof. unfold user_by_email. apply String.eqb_eq. Qed.

Lemma login_user_reads (env : Env) (login_data : UserLogin) (users : list UserDoc) :
  fst (login_user env login_data users) = users.
Proof.
  unfold login_user. destruct (find _ users) as [d|]; [|reflexivity].
  now destruct (verify_password _ _) as [[|]|].
Qed.

Lemma user_step_appends (users : list UserDoc) (r : UserRequest) :
  exists added, user_step users r = users ++ added.
Proof.
  destruct r as [env salt user_data|env login_data]; cbn [user_step].
  - unfold register_user. destruct (find _ users); cbn [fst].
    + exists []. now rewrite app_nil_r.
    + destruct (hash_password _ _); cbn [fst].
      * eexists. reflexivity.
      * exists []. now rewrite app_nil_r.
  - rewrite login_user_reads. exists []. now rewrite app_nil_r.
Qed.

Lemma user_run_appends (trace : list UserRequest) (users : list UserDoc) :
  exists added, user_run trace users = users ++ added.
Proof.
  revert users. induction trace as [|r trace IH]; intros users; simpl.
  - exists []. now rewrite app_nil_r.
  - destruct (user_step_appends users r) as [a0 E0].
    destruct (IH (user_step users r)) as [a1 E1].
    exists (a0 ++ a1). now rewrite E1, E0, app_assoc.
Qed.

(** X18. Registration keeps e-mail addresses unique.  Registering an address
    that a stored user has raises 400 and stores nothing; for an unused
    address the outcome follows [hashpw]: when it raises, the answer is 500
    and nothing is stored, and when it gives a hash, one user document with
    that hash, the new id and the request's address is appended and the
    answer carries a user of that id and address and a token for the id.
    Whatever requests are served, starting from users with distinct
    addresses, the addresses stay distinct and no user document is removed
    or changed. *)
Theorem register_keeps_emails_unique :
  (forall env salt user_data users d,
      find (user_by_email (uc_email user_data)) users = Some d ->
      exists e,
        register_user env salt user_data users = (users, inl e) /\
        status_code e = 400 /\ detail e = "Email already registered") /\
  (forall env salt user_data users,
      find (user_by_email (uc_email user_data)) users = None ->
      (hashpw (uc_password user_data) salt = None ->
       register_user env salt user_data users = (users, inl internal_server_error)) /\
      (forall hashed,
          hashpw (uc_password user_data) salt = Some hashed ->
          exists stored user token,
            register_user env salt user_data users =
              (users ++ [stored], inr {| ur_user := user; ur_token := token |}) /\
            ud_password stored = hashed /\
            same_user_answer user (ud_user stored) /\
            u_email user = uc_email user_data /\
            u_id user = uuid4 env 0 /\
            token = jwt_encode (uuid4 env 0) (utcnow env 1 + 86400))) /\
  (forall trace users,
      NoDup (map (fun d => u_email (ud_user d)) users) ->
      NoDup (map (fun d => u_email (ud_user d)) (user_run trace users)) /\
      exists added, user_run trace users = users ++ added).
Proof.
  split; [|split].
  - intros env salt user_data users d Hd. unfold register_user. rewrite Hd.
    eexists. repeat split.
  - intros env salt user_data users Hnone. unfold register_user, hash_password.
    rewrite Hnone. split.
    + now intros ->.
    + intros hashed ->. eexists. eexists. eexists. split; [reflexivity|].
      now repeat split.
  - intros trace users Hn. split; [|apply user_run_appends].
    revert users Hn. induction trace as [|r trace IH]; intros users Hn; simpl;
      [assumption|].
    apply IH. destruct r as [env salt user_data|env login_data]; cbn [user_step].
    + unfold register_user.
      destruct (find (user_by_email (uc_email user_data)) users) eqn:E;
        cbn [fst]; [assumption|].
      destruct (hash_password _ _); cbn [fst]; [|assumption].
      apply (NoDup_map_snoc (fun d => u_email (ud_user d))
               (user_by_email (uc_email user_data))); try assumption.
      intros x Hx. now apply user_by_email_true.
    + now rewrite login_user_reads.
Qed.

(** X19. [login_user] never writes.  It succeeds exactly when a user with the
    address is stored and [checkpw] accepts the password against that
    user's stored hash; the answer then carries that stored user and a
    token for its id.  An unknown address and a password that [checkpw]
    rejects raise the same 401 error; the only other failure is the 500
    answer, given exactly when a user with the address is stored and
    [checkpw] raises. *)
Theorem login_checks_the_stored_hash :
  forall env login_data users,
    fst (login_user env login_data users) = users /\
    (forall r, snd (login_user env login_data users) = inr r ->
       exists d,
         find (user_by_email (ul_email login_data)) users = Some d /\
         checkpw (ul_password login_data) (ud_password d) = Some true /\
         ur_user r = ud_user d /\
         u_email (ur_user r) = ul_email login_data /\
         ur_token r = jwt_encode (u_id (ud_user d)) (utcnow env 0 + 86400)) /\
    (forall d,
        find (user_by_email (ul_email login_data)) users = Some d ->
        checkpw (ul_password login_data) (ud_password d) = Some true ->
        exists r, snd (login_user env login_data users) = inr r) /\
    (forall e, snd (login_user env login_data users) = inl e ->
       (e = {| status_code := 401; detail := "Invalid credentials" |} /\
        (find (user_by_email (ul_email login_data)) users = None \/
         exists d, find (user_by_email (ul_email login_data)) users = Some d /\
                   checkpw (ul_password login_data) (ud_password d) = Some false)) \/
       (e = internal_server_error /\
        exists d, find (user_by_email (ul_email login_data)) users = Some d /\
                  checkpw (ul_password login_data) (ud_password d) = None)).
Proof.
  intros env login_data users. split; [apply login_user_reads|].
  unfold login_user, verify_password, create_jwt_token.
  destruct (find (user_by_email (ul_email login_data)) users) as [d|] eqn:E.
  - destruct (checkpw (ul_password login_data) (ud_password d)) as [[|]|] eqn:Hv;
      cbn [snd]; (split; [|split]).
    + intros r Hr. injection Hr as <-. exists d. cbn [ur_user ur_token].
      apply find_some in E as [_ Hq]. apply user_by_email_true in Hq.
      now repeat split.
    + intros d' Hd' _. eexists. reflexivity.
    + intros e He. discriminate.
    + intros r Hr. discriminate.
    + intros d' Hd' Hv'. injection Hd' as <-. congruence.
    + intros e He. injection He as <-. left. split; [reflexivity|].
      right. now exists d.
    + intros r Hr. discriminate.
    + intros d' Hd' Hv'. injection Hd' as <-. congruence.
    + intros e He. injection He as <-. right. split; [reflexivity|]. now exists d.
  - cbn [snd]. split; [|split].
    + intros r Hr. discriminate.
    + intros d Hd. discriminate.
    + intros e He. injection He as <-. left. split; [reflexivity|now left].
Qed.

(** X20. Provided [checkpw] accepts a password against every hash [hashpw]
    makes of it, a user who has registered can log in with the same address
    and password, right away and after any further registrations and
    logins, and is answered with a user of the id, address and names that
    registration answered with. *)
Theorem register_then_login :
  (forall password salt hashed,
      hashpw password salt = Some hashed -> checkpw password hashed = Some true) ->
  forall env salt user_data users users' r trace env',
    register_user env salt user_data users = (users', inr r) ->
    exists r',
      login_user env'
        {| ul_email := uc_email user_data; ul_password := uc_password user_data |}
        (user_run trace users')
      = (user_run trace users', inr r') /\
      same_user_answer (ur_user r) (ur_user r').
Proof.
  intros Hbcrypt env salt user_data users users' r trace env' E.
  unfold register_user, hash_password in E.
  destruct (find (user_by_email (uc_email user_data)) users) eqn:Hnone;
    [discriminate|].
  destruct (hashpw (uc_password user_data) salt) as [hashed|] eqn:Hh;
    [|discriminate].
  injection E as <- <-.
  destruct (user_run_appends trace
              (users ++ [ {| ud_user := {| u_id := uuid4 env 0;
                                           u_email := uc_email user_data;
                                           u_first_name := uc_first_name user_data;
                                           u_last_name := uc_last_name user_data;
                                           u_created_at := utcnow env 0 |};
                             ud_password := hashed |} ]))
    as [added ->].
  unfold login_user. cbn [ul_email ul_password].
  rewrite !find_app, Hnone. cbn [find]. unfold user_by_email at 1.
  cbn [ud_user u_email]. rewrite String.eqb_refl. cbn [ud_password].
  unfold verify_password. rewrite (Hbcrypt _ _ _ Hh).
  eexists. split; [reflexivity|]. now repeat split.
Qed.

End UserService.

(** ** One cart per user, and checkouts that lose nothing *)

Lemma NoDup_map_same_key {D K : Type} (k : D -> K) (l : list D) (x y : D) :
  NoDup (map k l) -> In x l -> In y l -> k x = k y -> x = y.
Proof.
  induction l as [|z r IH]; simpl; intros Hn Hx Hy E; [contradiction|].
  inversion Hn as [|? ? Hz Hr]; subst.
  destruct Hx as [->|Hx], Hy as [->|Hy]; auto.
  - exfalso. apply Hz. rewrite E. now apply in_map.
  - exfalso. apply Hz. rewrite <- E. now apply in_map.
Qed.

(** X21. In every store reachable from the empty database a user has at most one
    cart: two stored carts of one user are the same cart, and the cart
    [find_one] returns for a user is the only stored cart of that user. *)
Theorem reachable_one_cart_per_user :
  forall trace,
    NoDup (map cart_user_id (carts (run trace empty_db))) /\
    (forall c1 c2,
        In c1 (carts (run trace empty_db)) ->
        In c2 (carts (run trace empty_db)) ->
        cart_user_id c1 = cart_user_id c2 -> c1 = c2) /\
    (forall c, In c (carts (run trace empty_db)) ->
               cart_of (cart_user_id c) (run trace empty_db) = Some c).
Proof.
  intros trace. destruct (run_ok trace empty_db empty_db_ok) as (_ & Hu & _).
  assert (Hsame : forall c1 c2,
             In c1 (carts (run trace empty_db)) ->
             In c2 (carts (run trace empty_db)) ->
             cart_user_id c1 = cart_user_id c2 -> c1 = c2).
  { intros c1 c2 H1 H2 E. now apply (NoDup_map_same_key cart_user_id _ c1 c2 Hu). }
  split; [assumption|]. split; [assumption|].
  intros c Hc. destruct (cart_of (cart_user_id c) (run trace empty_db)) as [c'|] eqn:E.
  - destruct (cart_of_user _ _ _ E) as [Hid Hin]. f_equal. now apply Hsame.
  - unfold cart_of in E. apply (find_none _ _ E) in Hc.
    unfold cart_by_user in Hc. now rewrite String.eqb_refl in Hc.
Qed.

Lemma order_lines_all (db : Db) (items : list CartItem) :
  (forall ci, In ci items -> exists p, product_of (ci_product_id ci) db = Some p) ->
  map oi_product_id (flat_map (order_lines db) items) = map ci_product_id items /\
  map oi_quantity (flat_map (order_lines db) items) = map ci_quantity items /\
  map oi_price (flat_map (order_lines db) items) = map ci_price items /\
  Forall (fun oi => exists p, product_of (oi_product_id oi) db = Some p /\
                              oi_product_name oi = p_name p)
         (flat_map (order_lines db) items).
Proof.
  induction items as [|ci r IH]; intros Hres; simpl; [now repeat split|].
  destruct (Hres ci (or_introl eq_refl)) as [p Hp].
  destruct IH as (H1 & H2 & H3 & H4); [intros x Hx; apply Hres; now right|].
  assert (Hline : order_lines db ci =
                  [ {| oi_product_id := ci_product_id ci;
                       oi_product_name := p_name p;
                       oi_quantity := ci_quantity ci;
                       oi_price := ci_price ci |} ])
    by (unfold order_lines; now rewrite Hp).
  rewrite Hline. cbn [app map oi_product_id oi_quantity oi_price].
  rewrite H1, H2, H3. repeat split. constructor; [|assumption]. now exists p.
Qed.

(** X22. Served by the handlers alone, a checkout drops no line item: when
    [create_order] succeeds in a store reachable from the empty database,
    the order has one line item per cart line item, in order, with the same
    product ids, quantities and prices, each named after its catalog
    product, and the order's total is the sum over the cart's items. *)
Theorem reachable_checkout_drops_nothing :
  forall trace env od u db' order,
    create_order env od u (run trace empty_db) = (db', inr order) ->
    exists c,
      cart_of (u_id u) (run trace empty_db) = Some c /\
      map oi_product_id (order_items order) = map ci_product_id (cart_items c) /\
      map oi_quantity (order_items order) = map ci_quantity (cart_items c) /\
      map oi_price (order_items order) = map ci_price (cart_items c) /\
      Forall (fun oi => exists p,
                product_of (oi_product_id oi) (run trace empty_db) = Some p /\
                oi_product_name oi = p_name p) (order_items order) /\
      order_total order = cart_sum (cart_items c).
Proof.
  intros trace env od u db' order E.
  destruct (create_order_outcome _ _ _ _ _ _ E) as (c & Hc & _ & Ho & _).
  destruct (cart_of_user _ _ _ Hc) as [_ Hin].
  destruct (reachable_cart_ok trace c Hin) as [Htotal _].
  destruct (order_lines_all (run trace empty_db) (cart_items c))
    as (H1 & H2 & H3 & H4).
  { intros ci Hci.
    now apply (run_lines_resolve trace empty_db empty_db_lines_resolve c ci). }
  exists c. rewrite Ho. cbn [order_items order_total order_of_cart].
  repeat split; assumption.
Qed.

End MicroMart.

Arguments coll_get {float D} _ _.
Arguments coll_set {float D} _ _ _.

(** * Concrete runs, with rational prices *)

Definition env_of (ident : string) (now : datetime) : Env :=
  {| uuid4 := fun _ => ident; utcnow := fun _ => now |}.

Definition alice : User :=
  {| u_id := "alice"; u_email := "alice@example.com"; u_first_name := "Alice";
     u_last_name := "A"; u_created_at := 0 |}.

Definition bob : User :=
  {| u_id := "bob"; u_email := "bob@example.com"; u_first_name := "Bob";
     u_last_name := "B"; u_created_at := 0 |}.

Definition pen : @ProductCreate Q :=
  {| pc_name := "Pen"; pc_description := "A pen"; pc_price := 10%Q;
     pc_image_url := "pen.png"; pc_category := "Office"; pc_stock := 7 |}.

Definition ink : @ProductCreate Q :=
  {| pc_name := "Ink"; pc_description := "A bottle of ink"; pc_price := 5%Q;
     pc_image_url := "ink.png"; pc_category := "Office"; pc_stock := 3 |}.

(** two products are created (ids P1 and P2) *)
Definition trace_catalog : list (Env * @Request Q) :=
  [ (env_of "P1" 1, CreateProduct pen);
    (env_of "P2" 2, CreateProduct ink) ].

(** ... then alice adds 2 of P1 and 1 of P2 *)
Definition trace_cart : list (Env * @Request Q) :=
  trace_catalog ++
  [ (env_of "C1" 3, AddToCart {| req_product_id := "P1"; req_quantity := 2 |} alice);
    (env_of "C2" 4, AddToCart {| req_product_id := "P2"; req_quantity := 1 |} alice) ].

(** ... then checks out (order id O1) and pays *)
Definition trace_paid : list (Env * @Request Q) :=
  trace_cart ++
  [ (env_of "O1" 5, CreateOrder {| oc_shipping_address := "123 Main St" |} alice);
    (env_of "Y1" 6, ProcessPayment "O1" alice) ].

Definition line_P1 : @CartItem Q :=
  {| ci_product_id := "P1"; ci_quantity := 2; ci_price := 10%Q |}.
Definition line_P2 : @CartItem Q :=
  {| ci_product_id := "P2"; ci_quantity := 1; ci_price := 5%Q |}.

(** alice's cart after [trace_cart] *)
Definition cart_25 : @Cart Q :=
  {| cart_id := "C1"; cart_user_id := "alice";
     cart_items := [line_P1; line_P2];
     cart_total := 25%Q; cart_updated_at := 4 |}.

(** the order [trace_paid] creates, once paid *)
Definition order_25 (status : string) : @Order Q :=
  {| order_id := "O1"; order_user_id := "alice";
     order_items :=
       [ {| oi_product_id := "P1"; oi_product_name := "Pen";
            oi_quantity := 2; oi_price := 10%Q |};
         {| oi_product_id := "P2"; oi_product_name := "Ink";
            oi_quantity := 1; oi_price := 5%Q |} ];
     order_total := 25%Q; order_status := status;
     order_shipping_address := "123 Main St"; order_created_at := 5 |}.

(** a store whose only cart refers to a product that is not in the catalog *)
Definition db_orphan : @Db Q :=
  {| products := [];
     carts := [ {| cart_id := "C9"; cart_user_id := "alice";
                   cart_items := [ {| ci_product_id := "gone"; ci_quantity := 2;
                                      ci_price := 10%Q |} ];
                   cart_total := 20%Q; cart_updated_at := 9 |} ];
     orders := []; payments := [] |}.

Example run_trace_cart :
  carts (run trace_cart empty_db) = [cart_25].
Proof. reflexivity. Qed.

Example run_trace_paid :
  orders (run trace_paid empty_db) = [order_25 "paid"] /\
  carts (run trace_paid empty_db) = [] /\
  map pay_amount (payments (run trace_paid empty_db)) = [25%Q].
Proof. repeat split. Qed.

Definition add_3_P1 : AddToCartRequest :=
  {| req_product_id := "P1"; req_quantity := 3 |}.

Lemma cart_total_invariant_witness :
  (In cart_25 (carts (run trace_cart empty_db)) /\
   cart_total cart_25 = cart_sum (cart_items cart_25)) /\
  (add_to_cart (env_of "C3" 7) add_3_P1 alice (run trace_cart empty_db) =
     (fst (add_to_cart (env_of "C3" 7) add_3_P1 alice (run trace_cart empty_db)),
      inr "Item added to cart") /\
   exists c,
     cart_of "alice"
       (fst (add_to_cart (env_of "C3" 7) add_3_P1 alice (run trace_cart empty_db)))
       = Some c /\
     cart_total c = cart_sum (cart_items c)) /\
  (remove_from_cart (env_of "C4" 8) "P1" alice (run trace_cart empty_db) =
     (fst (remove_from_cart (env_of "C4" 8) "P1" alice (run trace_cart empty_db)),
      inr "Item removed from cart") /\
   exists c,
     cart_of "alice"
       (fst (remove_from_cart (env_of "C4" 8) "P1" alice (run trace_cart empty_db)))
       = Some c /\
     cart_total c = cart_sum (cart_items c)).
Proof.
  destruct (cart_total_invariant (float:=Q)) as (_ & Hreach & Hadd & Hremove).
  split; [|split].
  - assert (Hin : In cart_25 (carts (run trace_cart empty_db)))
      by (left; reflexivity).
    split; [exact Hin|exact (Hreach trace_cart cart_25 Hin)].
  - assert (E : add_to_cart (env_of "C3" 7) add_3_P1 alice (run trace_cart empty_db) =
                (fst (add_to_cart (env_of "C3" 7) add_3_P1 alice
                        (run trace_cart empty_db)),
                 inr "Item added to cart")) by reflexivity.
    split; [exact E|exact (Hadd _ _ _ _ _ _ E)].
  - assert (E : remove_from_cart (env_of "C4" 8) "P1" alice (run trace_cart empty_db) =
                (fst (remove_from_cart (env_of "C4" 8) "P1" alice
                        (run trace_cart empty_db)),
                 inr "Item removed from cart")) by reflexivity.
    split; [exact E|exact (Hremove _ _ _ _ _ _ E)].
Defined.

(** the catalog after a price change: P1 now costs 99 *)
Definition pen_repriced : @Product Q :=
  {| p_id := "P1"; p_name := "Pen"; p_description := "A pen"; p_price := 99%Q;
     p_image_url := "pen.png"; p_category := "Office"; p_stock := 7;
     p_created_at := 1 |}.

Definition catalog_repriced : list (@Product Q) := [pen_repriced].

Lemma add_to_cart_merges_line_item_witness :
  (exists db' c',
      add_to_cart (env_of "C3" 7) add_3_P1 alice
        (coll_set db_products catalog_repriced (run trace_cart empty_db))
        = (db', inr "Item added to cart") /\
      cart_of "alice" db' = Some c' /\
      cart_items c' =
        [ {| ci_product_id := "P1"; ci_quantity := 2 + 3; ci_price := 10%Q |};
          line_P2 ] /\
      filter (item_is "P1") (cart_items c') =
        [ {| ci_product_id := "P1"; ci_quantity := 2 + 3; ci_price := 10%Q |} ] /\
      NoDup (map ci_product_id (cart_items c'))) /\
  (cart_of "alice" (run trace_cart empty_db) = Some cart_25 /\
   In line_P1 (cart_items cart_25) /\
   exists db' c',
     add_to_cart (env_of "C3" 7) add_3_P1 alice (run trace_cart empty_db)
       = (db', inr "Item added to cart") /\
     cart_of "alice" db' = Some c' /\
     map ci_product_id (cart_items c') = ["P1"; "P2"] /\
     filter (item_is "P1") (cart_items c') =
       [ {| ci_product_id := "P1"; ci_quantity := 2 + 3; ci_price := 10%Q |} ]) /\
  (In cart_25 (carts (run trace_cart empty_db)) /\
   NoDup (map ci_product_id (cart_items cart_25)) /\
   quantities_fit (cart_items cart_25) = true) /\
  (exists c,
      cart_of "alice"
        (fst (add_to_cart (env_of "C3" 7)
                {| req_product_id := "P1"; req_quantity := 3 |} alice
                (coll_set db_products catalog_repriced
                   (fst (add_to_cart (env_of "C1" 3)
                           {| req_product_id := "P1"; req_quantity := 2 |} alice
                           (run trace_catalog empty_db))))))
        = Some c /\
      filter (item_is "P1") (cart_items c) =
        [ {| ci_product_id := "P1"; ci_quantity := 2 + 3; ci_price := 10%Q |} ]).
Proof.
  destruct (add_to_cart_merges_line_item (float:=Q))
    as (Hmerge & Hreach & Hnodup & Htwice).
  split; [|split; [|split]].
  - apply (Hmerge (env_of "C3" 7) add_3_P1 alice
             (coll_set db_products catalog_repriced (run trace_cart empty_db))
             pen_repriced cart_25 [] line_P1 [line_P2]).
    + reflexivity.
    + reflexivity.
    + repeat constructor; simpl; intuition discriminate.
    + reflexivity.
    + reflexivity.
    + reflexivity.
    + reflexivity.
  - assert (Hc : cart_of (u_id alice) (run trace_cart empty_db) = Some cart_25)
      by reflexivity.
    assert (Hin : In line_P1 (cart_items cart_25)) by (left; reflexivity).
    split; [exact Hc|]. split; [exact Hin|].
    apply (Hreach trace_cart (env_of "C3" 7) add_3_P1 alice cart_25 line_P1
             Hc Hin eq_refl).
    reflexivity.
  - assert (Hin : In cart_25 (carts (run trace_cart empty_db)))
      by (left; reflexivity).
    split; [exact Hin|exact (Hnodup trace_cart cart_25 Hin)].
  - apply (Htwice (env_of "C1" 3) (env_of "C3" 7) alice "P1" 2 3
             (run trace_catalog empty_db)
             (Product_new "P1" 1 pen) catalog_repriced pen_repriced).
    + reflexivity.
    + intros c Hc. discriminate Hc.
    + reflexivity.
    + reflexivity.
    + reflexivity.
Defined.

(** alice holds the largest quantity of P1 that the store can keep *)
Definition add_most_P1 : AddToCartRequest :=
  {| req_product_id := "P1"; req_quantity := 2 ^ 63 - 1 |}.

Definition add_1_P1 : AddToCartRequest :=
  {| req_product_id := "P1"; req_quantity := 1 |}.

Definition trace_brim : list (Env * @Request Q) :=
  trace_catalog ++ [ (env_of "C1" 3, AddToCart add_most_P1 alice) ].

Definition line_brim : @CartItem Q :=
  {| ci_product_id := "P1"; ci_quantity := 2 ^ 63 - 1; ci_price := 10%Q |}.

(** Against C2 as stated: in a store that requests have produced, alice's
    cart holds a line item for P1, and [add_to_cart] for P1 with quantity 1
    does not increment it: the quantity would no longer fit the store's
    8-byte integers, the write raises, the answer is 500 and the cart is as
    it was. *)
Lemma add_to_cart_overflows_instead_of_merging :
  (exists c,
      cart_of "alice" (run trace_brim empty_db) = Some c /\
      cart_items c = [line_brim]) /\
  add_to_cart (env_of "C2" 4) add_1_P1 alice (run trace_brim empty_db)
    = (run trace_brim empty_db, inl internal_server_error) /\
  ~ (exists db' c',
        add_to_cart (env_of "C2" 4) add_1_P1 alice (run trace_brim empty_db)
          = (db', inr "Item added to cart") /\
        cart_of "alice" db' = Some c' /\
        In {| ci_product_id := "P1";
              ci_quantity := ci_quantity line_brim + req_quantity add_1_P1;
              ci_price := 10%Q |} (cart_items c')).
Proof.
  split; [eexists; split; reflexivity|].
  split; [reflexivity|].
  intros (db' & c' & E & _). discriminate E.
Qed.

Definition checkout_request : OrderCreate := {| oc_shipping_address := "123 Main St" |}.

(** the store after alice's checkout of [cart_25] *)
Definition db_checked_out : @Db Q :=
  fst (create_order (env_of "O1" 5) checkout_request alice (run trace_cart empty_db)).

Lemma checkout_run :
  create_order (env_of "O1" 5) checkout_request alice (run trace_cart empty_db)
  = (db_checked_out, inr (order_25 "pending")).
Proof. reflexivity. Qed.

Lemma checkout_clears_cart_witness :
  create_order (env_of "O1" 5) checkout_request alice (run trace_cart empty_db)
    = (db_checked_out, inr (order_25 "pending")) /\
  cart_of "alice" (run trace_cart empty_db) = Some cart_25 /\
  cart_of "alice" db_checked_out = None /\
  exists db'',
    get_cart (env_of "C5" 6) alice db_checked_out
      = (db'', inr (Cart_new (env_of "C5" 6) "alice")) /\
    cart_items (Cart_new (float:=Q) (env_of "C5" 6) "alice") = [] /\
    cart_total (Cart_new (float:=Q) (env_of "C5" 6) "alice") = 0%Q /\
    cart_of "alice" db'' = Some (Cart_new (env_of "C5" 6) "alice").
Proof.
  destruct (checkout_clears_cart (float:=Q) trace_cart (env_of "O1" 5)
              checkout_request alice db_checked_out (order_25 "pending") checkout_run)
    as (_ & Hgone & Hfresh).
  split; [exact checkout_run|]. split; [reflexivity|]. split; [exact Hgone|].
  exact (Hfresh (env_of "C5" 6)).
Defined.

Lemma create_order_rejects_empty_cart_witness :
  (cart_of "bob" (run trace_cart empty_db) = None /\
   exists e,
     create_order (env_of "O2" 7) checkout_request bob (run trace_cart empty_db)
       = (run trace_cart empty_db, inl e) /\
     InvalidState e /\ detail e = "Cart is empty") /\
  (cart_of "bob" (run [(env_of "C7" 1, GetCart bob)] (@empty_db Q))
     = Some (Cart_new (env_of "C7" 1) "bob") /\
   exists e,
     create_order (env_of "O2" 7) checkout_request bob
       (run [(env_of "C7" 1, GetCart bob)] (@empty_db Q))
       = (run [(env_of "C7" 1, GetCart bob)] empty_db, inl e) /\
     InvalidState e /\ detail e = "Cart is empty").
Proof.
  split.
  - split; [reflexivity|].
    apply (create_order_rejects_empty_cart (float:=Q)). left. reflexivity.
  - split; [reflexivity|].
    apply (create_order_rejects_empty_cart (float:=Q)). right.
    exists (Cart_new (env_of "C7" 1) "bob"). split; reflexivity.
Defined.

Lemma create_order_snapshots_cart_witness :
  create_order (env_of "O1" 5) checkout_request alice (run trace_cart empty_db)
    = (db_checked_out, inr (order_25 "pending")) /\
  exists c,
    cart_of "alice" (run trace_cart empty_db) = Some c /\
    order_total (order_25 "pending") = cart_total c /\
    order_items (order_25 "pending")
      = flat_map (order_lines (run trace_cart empty_db)) (cart_items c) /\
    orders db_checked_out = orders (run trace_cart empty_db) ++ [order_25 "pending"].
Proof.
  split; [exact checkout_run|].
  destruct (create_order_snapshots_cart (float:=Q) (env_of "O1" 5) checkout_request
              alice (run trace_cart empty_db) db_checked_out (order_25 "pending")
              checkout_run) as (c & Hc & Ht & Hi & _ & _ & Ho).
  exists c. repeat split; assumption.
Defined.

Lemma create_order_with_all_products_deleted_witness :
  exists db' order,
    create_order (env_of "O3" 10) checkout_request alice db_orphan = (db', inr order) /\
    order_items order = [] /\
    order_total order = 20%Q /\
    order_status order = "pending" /\
    order_user_id order = "alice" /\
    orders db' = [order] /\
    carts db' = [] /\
    cart_of "alice" db' = None.
Proof.
  destruct (create_order_with_all_products_deleted (float:=Q) (env_of "O3" 10)
              checkout_request alice db_orphan
              {| cart_id := "C9"; cart_user_id := "alice";
                 cart_items := [ {| ci_product_id := "gone"; ci_quantity := 2;
                                    ci_price := 10%Q |} ];
                 cart_total := 20%Q; cart_updated_at := 9 |})
    as (db' & order & E & Hi & Ht & Hs & Hu & Ho & Hc & Hn).
  - reflexivity.
  - discriminate.
  - intros ci [<-|[]]. reflexivity.
  - exists db', order. repeat split; try assumption.
    apply Hn. repeat constructor. intros [].
Defined.

(** requests with a quantity below 1 *)
Definition add_0_P1 : AddToCartRequest :=
  {| req_product_id := "P1"; req_quantity := 0 |}.

Definition add_minus_P1 : AddToCartRequest :=
  {| req_product_id := "P1"; req_quantity := -4 |}.

(** Against C6 as stated: an add of quantity 0 for an existing product is
    not rejected; it answers with the success message and writes a cart
    with a line item of quantity 0 into a store that had no cart. *)
Lemma add_to_cart_accepts_quantity_zero :
  req_quantity add_0_P1 = 0 /\
  carts (run trace_catalog (@empty_db Q)) = [] /\
  snd (add_to_cart (env_of "C1" 3) add_0_P1 alice (run trace_catalog empty_db))
    = inr "Item added to cart" /\
  carts (fst (add_to_cart (env_of "C1" 3) add_0_P1 alice (run trace_catalog empty_db)))
    = [ {| cart_id := "C1"; cart_user_id := "alice";
           cart_items := [ {| ci_product_id := "P1"; ci_quantity := 0;
                              ci_price := 10%Q |} ];
           cart_total := 0%Q; cart_updated_at := 3 |} ] /\
  ~ (exists e,
        add_to_cart (env_of "C1" 3) add_0_P1 alice (run trace_catalog empty_db)
          = (run trace_catalog empty_db, inl e) /\
        NotFound e).
Proof.
  repeat split. intros (e & E & _). discriminate E.
Qed.

Lemma add_to_cart_fails_only_for_missing_product_witness :
  (product_of "P1" (@empty_db Q) = None /\
   exists e,
     add_to_cart (env_of "C1" 3) add_0_P1 alice (@empty_db Q) = (empty_db, inl e) /\
     NotFound e /\ detail e = "Product not found") /\
  (product_of "P1" (run trace_catalog (@empty_db Q)) = Some (Product_new "P1" 1 pen) /\
   exists db' c',
     add_to_cart (env_of "C1" 3) add_minus_P1 alice (run trace_catalog empty_db)
       = (db', inr "Item added to cart") /\
     cart_of "alice" db' = Some c' /\
     filter (item_is "P1") (cart_items c') =
       [ {| ci_product_id := "P1"; ci_quantity := -4; ci_price := 10%Q |} ]).
Proof.
  split.
  - split; [reflexivity|].
    apply (add_to_cart_fails_only_for_missing_product (float:=Q)). reflexivity.
  - split; [reflexivity|].
    destruct (proj2 (add_to_cart_fails_only_for_missing_product (float:=Q)
                       (env_of "C1" 3) add_minus_P1 alice (run trace_catalog empty_db))
                (Product_new "P1" 1 pen) eq_refl)
      as (_ & _ & _ & Hline).
    apply Hline.
    + intros c H. discriminate H.
    + reflexivity.
Defined.

Lemma remove_absent_product_is_noop_witness :
  (cart_of "alice" (run trace_cart empty_db) = Some cart_25 /\
   exists db' c',
     remove_from_cart (env_of "C6" 9) "P7" alice (run trace_cart empty_db)
       = (db', inr "Item removed from cart") /\
     cart_of "alice" db' = Some c' /\
     cart_items c' = [line_P1; line_P2] /\
     cart_total c' = 25%Q) /\
  (cart_of "bob" (run trace_cart empty_db) = None /\
   exists e,
     remove_from_cart (env_of "C6" 9) "P1" bob (run trace_cart empty_db)
       = (run trace_cart empty_db, inl e) /\
     NotFound e /\ detail e = "Cart not found").
Proof.
  destruct (remove_absent_product_is_noop (float:=Q)) as [Hnoop Hmissing].
  split.
  - split; [reflexivity|].
    destruct (Hnoop trace_cart (env_of "C6" 9) "P7" alice cart_25)
      as (db' & c' & E & Hc & Hi & Ht & _).
    + reflexivity.
    + repeat constructor; discriminate.
    + exists db', c'. repeat split; assumption.
  - split; [reflexivity|]. apply Hmissing. reflexivity.
Defined.

(** Against C8 as stated: [process_payment] is applied a second time to an
    order that is already paid.  After [trace_paid] order O1 is paid and has
    one payment; a second payment request for it succeeds and a second
    completed payment for O1 is recorded. *)
Lemma process_payment_applies_to_paid_order :
  find (order_by_id_user "O1" "alice") (orders (run trace_paid empty_db))
    = Some (order_25 "paid") /\
  order_status (order_25 "paid") = "paid" /\
  map pay_order_id (payments (run trace_paid (@empty_db Q))) = ["O1"] /\
  snd (process_payment (env_of "Y2" 7) "O1" alice (run trace_paid empty_db))
    = inr {| pay_id := "Y2"; pay_order_id := "O1"; pay_amount := 25%Q;
             pay_status := "completed"; pay_payment_method := "mock";
             pay_created_at := 7 |} /\
  map pay_order_id
    (payments (fst (process_payment (env_of "Y2" 7) "O1" alice
                      (run trace_paid (@empty_db Q)))))
    = ["O1"; "O1"] /\
  map pay_status
    (payments (run (trace_paid ++ [(env_of "Y2" 7, ProcessPayment "O1" alice)])
                 (@empty_db Q)))
    = ["completed"; "completed"] /\
  map order_status
    (orders (run (trace_paid ++ [(env_of "Y2" 7, ProcessPayment "O1" alice)])
               (@empty_db Q)))
    = ["paid"].
Proof. repeat split. Qed.

Lemma order_status_only_becomes_paid_witness :
  (In (order_25 "paid") (orders (run trace_paid empty_db)) /\
   (order_status (order_25 "paid") = "pending" \/
    order_status (order_25 "paid") = "paid")) /\
  (find (order_by_id_user "O1" "alice") (orders (run trace_paid empty_db))
     = Some (order_25 "paid") /\
   exists db' payment,
     process_payment (env_of "Y2" 7) "O1" alice (run trace_paid empty_db)
       = (db', inr payment) /\
     payments db' = payments (run trace_paid empty_db) ++ [payment] /\
     pay_status payment = "completed" /\
     find (order_by_id_user "O1" "alice") (orders db') = Some (order_25 "paid")).
Proof.
  destruct (order_status_only_becomes_paid (float:=Q)) as (Hstatus & _ & Hagain).
  split.
  - assert (Hin : In (order_25 "paid") (orders (run trace_paid empty_db)))
      by (left; reflexivity).
    split; [exact Hin|exact (Hstatus trace_paid _ Hin)].
  - assert (Hfound : find (order_by_id_user "O1" (u_id alice))
                       (orders (run trace_paid empty_db)) = Some (order_25 "paid"))
      by reflexivity.
    split; [exact Hfound|].
    destruct (Hagain (env_of "Y2" 7) "O1" alice (run trace_paid empty_db)
                (order_25 "paid") Hfound eq_refl)
      as (db' & payment & E & Hp & _ & Hs & _ & Ho).
    exists db', payment. repeat split; assumption.
Defined.

Definition env_seed : Env :=
  {| uuid4 := fun k => String.append "S" (str_of_len k); utcnow := fun k => Z.of_nat k |}.

Lemma seed_is_idempotent_witness :
  (products (run trace_catalog (@empty_db Q)) <> [] /\
   initialize_sample_products env_seed (run trace_catalog (@empty_db Q))
     = (run trace_catalog empty_db, inr "Products already initialized")) /\
  (products (@empty_db Q) = [] /\
   exists db',
     initialize_sample_products env_seed (@empty_db Q)
       = (db', inr "Initialized 8 sample products") /\
     List.length (products db') = 8%nat /\
     initialize_sample_products (env_of "T" 1) db'
       = (db', inr "Products already initialized")).
Proof.
  destruct (seed_is_idempotent (float:=Q)) as (Hfull & Hempty & Hagain & _).
  split.
  - assert (Hne : products (run trace_catalog (@empty_db Q)) <> []) by discriminate.
    split; [exact Hne|exact (Hfull env_seed _ Hne)].
  - split; [reflexivity|].
    destruct (Hempty env_seed (@empty_db Q) eq_refl) as (db' & E & _ & Hlen & _).
    exists db'. split; [exact E|]. split; [exact Hlen|].
    pose proof (Hagain env_seed (env_of "T" 1) (@empty_db Q)) as H.
    cbv zeta in H. rewrite E in H. exact (proj2 H).
Defined.

(** * Concrete runs for the further properties *)

Arguments only_cart_of {float} uid db db'.

(** the catalog exists and alice holds 2 of P1 *)
Definition trace_one : list (Env * @Request Q) :=
  trace_catalog ++
  [ (env_of "C1" 3, AddToCart {| req_product_id := "P1"; req_quantity := 2 |} alice) ].

Definition add_1_P2 : AddToCartRequest :=
  {| req_product_id := "P2"; req_quantity := 1 |}.

Lemma cart_requests_are_confined_witness :
  cart_of "bob" (fst (get_cart (env_of "C8" 9) bob (run trace_cart empty_db)))
    = Some (Cart_new (env_of "C8" 9) "bob") /\
  only_cart_of "bob" (run trace_cart empty_db)
    (fst (get_cart (env_of "C8" 9) bob (run trace_cart empty_db))) /\
  only_cart_of "bob" (run trace_cart empty_db)
    (fst (add_to_cart (env_of "C8" 9) add_3_P1 bob (run trace_cart empty_db))) /\
  only_cart_of "alice" (run trace_cart empty_db)
    (fst (remove_from_cart (env_of "C8" 9) "P1" alice (run trace_cart empty_db))).
Proof.
  split; [reflexivity|].
  destruct (cart_requests_are_confined (float:=Q) (env_of "C8" 9) bob
              (run trace_cart empty_db)) as (Hget & Hadd & _).
  destruct (cart_requests_are_confined (float:=Q) (env_of "C8" 9) alice
              (run trace_cart empty_db)) as (_ & _ & Hremove).
  split; [exact Hget|]. split; [exact (Hadd add_3_P1)|exact (Hremove "P1")].
Defined.

Lemma get_cart_creates_once_witness :
  cart_of "bob" (run trace_cart empty_db) = None /\
  exists c c2,
    get_cart (env_of "C8" 9) bob (run trace_cart empty_db)
      = (fst (get_cart (env_of "C8" 9) bob (run trace_cart empty_db)), inr c) /\
    (cart_id c = "C8" /\ cart_items c = [] /\ cart_total c = 0%Q) /\
    get_cart (env_of "C9" 10) bob
      (fst (get_cart (env_of "C8" 9) bob (run trace_cart empty_db)))
      = (fst (get_cart (env_of "C8" 9) bob (run trace_cart empty_db)), inr c2) /\
    same_cart_content c c2.
Proof.
  assert (Hnone : cart_of (u_id bob) (run trace_cart empty_db) = None) by reflexivity.
  split; [exact Hnone|].
  destruct (get_cart_creates_once (float:=Q) (env_of "C8" 9) (env_of "C9" 10) bob
              (run trace_cart empty_db))
    as (c & c2 & E & _ & _ & Hnew & _ & Hagain & Hsame).
  exists c, c2. split; [exact E|]. split; [exact (Hnew Hnone)|].
  split; [exact Hagain|exact Hsame].
Defined.

Lemma remove_from_cart_drops_the_product_witness :
  cart_of "alice" (run trace_cart empty_db) = Some cart_25 /\
  exists db' c',
    remove_from_cart (env_of "C8" 9) "P1" alice (run trace_cart empty_db)
      = (db', inr "Item removed from cart") /\
    cart_of "alice" db' = Some c' /\
    Forall (fun ci => ci_product_id ci <> "P1") (cart_items c') /\
    filter (item_is "P2") (cart_items c') = [line_P2] /\
    cart_total c' = cart_sum (cart_items c').
Proof.
  assert (Hc : cart_of (u_id alice) (run trace_cart empty_db) = Some cart_25)
    by reflexivity.
  split; [exact Hc|].
  destruct (remove_from_cart_drops_the_product (float:=Q) (env_of "C8" 9) "P1" alice
              (run trace_cart empty_db) cart_25 Hc)
    as (db' & c' & E & Hc' & Hgone & Hrest & Htotal & _).
  exists db', c'. split; [exact E|]. split; [exact Hc'|]. split; [exact Hgone|].
  split; [|exact Htotal]. rewrite (Hrest "P2"); [reflexivity|discriminate].
Defined.

Lemma add_then_remove_restores_cart_witness :
  product_of "P2" (run trace_one empty_db) = Some (Product_new "P2" 2 ink) /\
  exists db1 db2 c2,
    add_to_cart (env_of "C2" 4) add_1_P2 alice (run trace_one empty_db)
      = (db1, inr "Item added to cart") /\
    remove_from_cart (env_of "C3" 5) "P2" alice db1
      = (db2, inr "Item removed from cart") /\
    cart_of "alice" db2 = Some c2 /\
    cart_items c2 = [line_P1] /\
    cart_total c2 = 20%Q.
Proof.
  assert (Hp : product_of (req_product_id add_1_P2) (run trace_one empty_db)
               = Some (Product_new "P2" 2 ink)) by reflexivity.
  split; [exact Hp|].
  destruct (add_then_remove_restores_cart (float:=Q) trace_one (env_of "C2" 4)
              (env_of "C3" 5) add_1_P2 alice (Product_new "P2" 2 ink) Hp)
    as (db1 & db2 & c2 & E1 & E2 & Hc2 & Hsame & _).
  - intros c Hc. injection Hc as <-. repeat constructor. discriminate.
  - reflexivity.
  - exists db1, db2, c2. split; [exact E1|]. split; [exact E2|]. split; [exact Hc2|].
    change (cart_of (u_id alice) (run trace_one empty_db))
      with (Some {| cart_id := "C1"; cart_user_id := "alice";
                    cart_items := [line_P1]; cart_total := 20%Q;
                    cart_updated_at := 3 |}) in Hsame.
    destruct Hsame as (Hi & Ht & _). split; assumption.
Defined.

Lemma add_twice_is_add_of_the_sum_witness :
  exists db3 c12 c3,
    add_to_cart (env_of "C4" 6) {| req_product_id := "P1"; req_quantity := 3 + 4 |}
      alice (run trace_one empty_db) = (db3, inr "Item added to cart") /\
    cart_of "alice"
      (fst (add_to_cart (env_of "C3" 5) {| req_product_id := "P1"; req_quantity := 4 |}
              alice
              (fst (add_to_cart (env_of "C2" 4)
                      {| req_product_id := "P1"; req_quantity := 3 |} alice
                      (run trace_one empty_db))))) = Some c12 /\
    cart_of "alice" db3 = Some c3 /\
    cart_items c12 = cart_items c3 /\
    cart_total c12 = cart_total c3.
Proof.
  apply (add_twice_is_add_of_the_sum (float:=Q) (env_of "C2" 4) (env_of "C3" 5)
           (env_of "C4" 6) alice "P1" 3 4 (run trace_one empty_db)
           (fst (add_to_cart (env_of "C2" 4)
                   {| req_product_id := "P1"; req_quantity := 3 |} alice
                   (run trace_one empty_db)))).
  - reflexivity.
  - reflexivity.
Defined.

Definition desk : @ProductCreate Q :=
  {| pc_name := "Desk"; pc_description := "A desk"; pc_price := 120%Q;
     pc_image_url := "desk.png"; pc_category := "Furniture"; pc_stock := 2 |}.


Lemma catalog_and_payments_only_grow_witness :
  product_of "P1" (run trace_catalog (@empty_db Q)) = Some (Product_new "P1" 1 pen) /\
  product_of "P1"
    (run [(env_of "P1" 8, CreateProduct desk);
          (env_of "S" 9, InitializeSampleProducts)]
       (run trace_catalog (@empty_db Q)))
    = Some (Product_new "P1" 1 pen).
Proof.
  assert (Hp : product_of "P1" (run trace_catalog (@empty_db Q))
               = Some (Product_new "P1" 1 pen)) by reflexivity.
  split; [exact Hp|].
  exact (proj2 (catalog_and_payments_only_grow (float:=Q)
                  [(env_of "P1" 8, CreateProduct desk);
                   (env_of "S" 9, InitializeSampleProducts)]
                  (run trace_catalog empty_db))
           "P1" (Product_new "P1" 1 pen) Hp).
Defined.

Lemma reachable_snapshots_match_catalog_witness :
  In cart_25 (carts (run trace_cart empty_db)) /\
  In line_P1 (cart_items cart_25) /\
  exists product,
    product_of "P1" (run trace_cart empty_db) = Some product /\
    ci_price line_P1 = p_price product.
Proof.
  assert (Hc : In cart_25 (carts (run trace_cart empty_db))) by (left; reflexivity).
  assert (Hl : In line_P1 (cart_items cart_25)) by (left; reflexivity).
  split; [exact Hc|]. split; [exact Hl|].
  exact (reachable_snapshots_match_catalog (float:=Q) trace_cart cart_25 line_P1 Hc Hl).
Defined.

Lemma get_orders_lists_own_orders_witness :
  In (order_25 "paid") (orders (run trace_paid empty_db)) /\
  exists l,
    get_orders alice (run trace_paid empty_db) = (run trace_paid empty_db, inr l) /\
    In (order_25 "paid") l /\
    get_orders bob (run trace_paid (@empty_db Q)) = (run trace_paid empty_db, inr []).
Proof.
  assert (Hin : In (order_25 "paid") (orders (run trace_paid empty_db)))
    by (left; reflexivity).
  split; [exact Hin|].
  destruct (get_orders_lists_own_orders (float:=Q) alice (run trace_paid empty_db))
    as (l & E & _ & _ & _ & Hall).
  exists l. split; [exact E|]. split; [|reflexivity].
  apply Hall; [simpl; lia|exact Hin|reflexivity].
Defined.

Lemma get_order_is_scoped_to_owner_witness :
  snd (get_order "O1" alice (run trace_paid empty_db)) = inr (order_25 "paid") /\
  order_user_id (order_25 "paid") = "alice" /\
  (exists e, snd (get_order "O1" bob (run trace_paid (@empty_db Q))) = inl e) /\
  fst (get_order "O1" bob (run trace_paid (@empty_db Q))) = run trace_paid empty_db.
Proof.
  assert (Hmine : snd (get_order "O1" alice (run trace_paid empty_db))
                  = inr (order_25 "paid")) by reflexivity.
  destruct (get_order_is_scoped_to_owner (float:=Q) "O1" alice
              (run trace_paid empty_db)) as (_ & Hown & _).
  destruct (get_order_is_scoped_to_owner (float:=Q) "O1" bob
              (run trace_paid empty_db)) as (Hsame & _ & Hnot & _).
  split; [exact Hmine|]. split; [exact (proj2 (proj2 (Hown _ Hmine)))|].
  split; [|exact Hsame].
  apply Hnot. intros o [<-|[]] _. discriminate.
Defined.

Lemma checkout_then_pay_witness :
  create_order (env_of "O1" 5) checkout_request alice (run trace_cart empty_db)
    = (db_checked_out, inr (order_25 "pending")) /\
  orders (run trace_cart (@empty_db Q)) = [] /\
  (exists o1,
      get_order "O1" alice db_checked_out = (db_checked_out, inr o1) /\
      same_order_answer (order_25 "pending") o1) /\
  exists db'' payment,
    process_payment (env_of "Y1" 6) "O1" alice db_checked_out = (db'', inr payment) /\
    pay_amount payment = 25%Q /\
    (exists o2, orders db'' = [o2] /\ same_order_answer (order_25 "paid") o2) /\
    (exists o3, get_order "O1" alice db'' = (db'', inr o3) /\
                same_order_answer (order_25 "paid") o3).
Proof.
  split; [exact checkout_run|]. split; [reflexivity|].
  destruct (checkout_then_pay (float:=Q) (env_of "O1" 5) (env_of "Y1" 6)
              checkout_request alice (run trace_cart empty_db) db_checked_out
              (order_25 "pending") checkout_run (Forall_nil _))
    as (Hget & _ & db'' & payment & c & E & Hc & Hamount & _ & _ & Ho & _ & Hget').
  split; [exact Hget|]. exists db'', payment.
  split; [exact E|]. split; [|split; [exact Ho|exact Hget']].
  rewrite Hamount.
  change (cart_of (u_id alice) (run trace_cart empty_db)) with (Some cart_25) in Hc.
  now injection Hc as <-.
Defined.

Lemma orders_keep_their_content_witness :
  orders db_checked_out = [order_25 "pending"] /\
  exists kept added,
    orders (run [(env_of "Y1" 6, ProcessPayment "O1" alice);
                 (env_of "C5" 7, GetCart alice)] db_checked_out) = kept ++ added /\
    Forall2 same_order_content [order_25 "pending"] kept.
Proof.
  split; [reflexivity|].
  exact (orders_keep_their_content (float:=Q)
           [(env_of "Y1" 6, ProcessPayment "O1" alice);
            (env_of "C5" 7, GetCart alice)] db_checked_out).
Defined.

Lemma reachable_order_total_is_sum_of_items_witness :
  In (order_25 "paid") (orders (run trace_paid empty_db)) /\
  order_total (order_25 "paid") = order_sum (order_items (order_25 "paid")) /\
  order_items (order_25 "paid") <> [].
Proof.
  assert (Hin : In (order_25 "paid") (orders (run trace_paid empty_db)))
    by (left; reflexivity).
  split; [exact Hin|].
  exact (reachable_order_total_is_sum_of_items (float:=Q) trace_paid _ Hin).
Defined.

Definition payment_25 : @Payment Q :=
  {| pay_id := "Y1"; pay_order_id := "O1"; pay_amount := 25%Q;
     pay_status := "completed"; pay_payment_method := "mock"; pay_created_at := 6 |}.

Lemma reachable_payments_match_orders_witness :
  In payment_25 (payments (run trace_paid empty_db)) /\
  (exists o, In o (orders (run trace_paid empty_db)) /\
             order_id o = "O1" /\ order_total o = 25%Q) /\
  In (order_25 "paid") (orders (run trace_paid empty_db)) /\
  (exists p, In p (payments (run trace_paid empty_db)) /\ pay_order_id p = "O1").
Proof.
  destruct (reachable_payments_match_orders (float:=Q) trace_paid) as [Hpay Hpaid].
  assert (Hp : In payment_25 (payments (run trace_paid empty_db)))
    by (left; reflexivity).
  assert (Ho : In (order_25 "paid") (orders (run trace_paid empty_db)))
    by (left; reflexivity).
  split; [exact Hp|]. split; [exact (proj1 (proj2 (proj2 (Hpay _ Hp))))|].
  split; [exact Ho|exact (Hpaid _ Ho eq_refl)].
Defined.

Lemma create_order_is_confined_witness :
  products (fst (create_order (env_of "O1" 5) checkout_request alice
                   (run trace_cart empty_db)))
    = products (run trace_cart empty_db) /\
  cart_of "bob" (fst (create_order (env_of "O1" 5) checkout_request alice
                        (run trace_cart empty_db)))
    = cart_of "bob" (run trace_cart empty_db).
Proof.
  destruct (create_order_is_confined (float:=Q) (env_of "O1" 5) checkout_request alice
              (run trace_cart empty_db)) as (Hp & _ & Hc & _).
  split; [exact Hp|]. apply Hc. discriminate.
Defined.

Lemma process_payment_pays_own_order_witness :
  In (order_25 "pending") (orders db_checked_out) /\
  (exists e, process_payment (env_of "Y1" 6) "O1" bob db_checked_out
               = (db_checked_out, inl e) /\
             NotFound e /\ detail e = "Order not found") /\
  exists db' payment,
    process_payment (env_of "Y1" 6) "O1" alice db_checked_out = (db', inr payment) /\
    pay_amount payment = 25%Q /\
    carts db' = carts db_checked_out.
Proof.
  split; [left; reflexivity|].
  destruct (process_payment_pays_own_order (float:=Q) (env_of "Y1" 6) "O1" bob
              db_checked_out) as [Hother _].
  destruct (process_payment_pays_own_order (float:=Q) (env_of "Y1" 6) "O1" alice
              db_checked_out) as [_ Hmine].
  split.
  - apply Hother. intros o [<-|[]] _. discriminate.
  - destruct (Hmine (order_25 "pending") eq_refl)
      as (db' & payment & E & _ & Hamount & _ & _ & Hcarts & _).
    exists db', payment. split; [exact E|]. split; [exact Hamount|exact Hcarts].
Defined.



(** stand-ins for bcrypt and the token encoder; like bcrypt, the stand-ins
    raise on a password of more than 72 bytes *)
Definition toy_hashpw (password salt : string) : option string :=
  if (72 <? String.length password)%nat then None
  else Some (String.append (String.append password "$") salt).
Definition toy_checkpw (password hashed : string) : option bool :=
  if (72 <? String.length password)%nat then None
  else Some (String.prefix (String.append password "$") hashed).
Definition toy_jwt_encode (user_id : string) (exp : Z) : string :=
  String.append "token-for-" user_id.

Definition carol_signup : UserCreate :=
  {| uc_email := "carol@example.com"; uc_password := "s3cret";
     uc_first_name := "Carol"; uc_last_name := "C" |}.

(** a password of 80 bytes *)
Definition long_password : string :=
  "01234567890123456789012345678901234567890123456789012345678901234567890123456789".

Definition frank_signup : UserCreate :=
  {| uc_email := "frank@example.com"; uc_password := long_password;
     uc_first_name := "Frank"; uc_last_name := "F" |}.

Definition users_with_carol : list UserDoc :=
  fst (register_user toy_hashpw toy_jwt_encode (env_of "U1" 1) "salt" carol_signup []).

Lemma register_keeps_emails_unique_witness :
  (exists d, find (user_by_email "carol@example.com") users_with_carol = Some d) /\
  (exists e,
      register_user toy_hashpw toy_jwt_encode (env_of "U2" 2) "pepper" carol_signup
        users_with_carol = (users_with_carol, inl e) /\
      status_code e = 400 /\ detail e = "Email already registered") /\
  register_user toy_hashpw toy_jwt_encode (env_of "U2" 2) "pepper" frank_signup
    users_with_carol = (users_with_carol, inl internal_server_error) /\
  (exists stored user token,
      register_user toy_hashpw toy_jwt_encode (env_of "U1" 1) "salt" carol_signup []
        = ([stored], inr {| ur_user := user; ur_token := token |}) /\
      ud_password stored = "s3cret$salt" /\
      u_id user = "U1") /\
  NoDup (map (fun d => u_email (ud_user d))
           (user_run toy_hashpw toy_checkpw toy_jwt_encode
              [Register (env_of "U2" 2) "pepper" carol_signup] users_with_carol)).
Proof.
  destruct (register_keeps_emails_unique toy_hashpw toy_checkpw toy_jwt_encode)
    as (Htaken & Hnew & Hrun).
  split; [eexists; reflexivity|]. split; [|split; [|split]].
  - eapply Htaken. reflexivity.
  - apply (Hnew (env_of "U2" 2) "pepper" frank_signup users_with_carol);
      reflexivity.
  - destruct (Hnew (env_of "U1" 1) "salt" carol_signup [] eq_refl) as [_ Hok].
    destruct (Hok "s3cret$salt" eq_refl)
      as (stored & user & token & E & Hpw & _ & _ & Hid & _).
    exists stored, user, token. split; [exact E|]. split; [exact Hpw|exact Hid].
  - apply Hrun. repeat constructor. intros [].
Defined.

Lemma prefix_append (s1 s2 : string) : String.prefix s1 (String.append s1 s2) = true.
Proof.
  induction s1 as [|c s IH]; simpl; [now destruct s2|].
  destruct (Ascii.ascii_dec c c) as [_|Hne]; [exact IH|now destruct Hne].
Qed.

Lemma toy_checkpw_accepts (password salt hashed : string) :
  toy_hashpw password salt = Some hashed -> toy_checkpw password hashed = Some true.
Proof.
  unfold toy_checkpw, toy_hashpw.
  destruct (72 <? String.length password)%nat; [discriminate|].
  intros H. injection H as <-. now rewrite prefix_append.
Qed.

Definition carol_login : UserLogin :=
  {| ul_email := "carol@example.com"; ul_password := "s3cret" |}.

Definition carol_wrong : UserLogin :=
  {| ul_email := "carol@example.com"; ul_password := "guess" |}.

Definition carol_long : UserLogin :=
  {| ul_email := "carol@example.com"; ul_password := long_password |}.

Definition dave_login : UserLogin :=
  {| ul_email := "dave@example.com"; ul_password := "s3cret" |}.

Lemma login_checks_the_stored_hash_witness :
  (exists r d,
      snd (login_user toy_checkpw toy_jwt_encode (env_of "L1" 3) carol_login
             users_with_carol) = inr r /\
      find (user_by_email "carol@example.com") users_with_carol = Some d /\
      ur_user r = ud_user d /\
      u_id (ur_user r) = "U1") /\
  snd (login_user toy_checkpw toy_jwt_encode (env_of "L1" 3) carol_wrong
         users_with_carol)
    = inl {| status_code := 401; detail := "Invalid credentials" |} /\
  snd (login_user toy_checkpw toy_jwt_encode (env_of "L1" 3) dave_login
         users_with_carol)
    = inl {| status_code := 401; detail := "Invalid credentials" |} /\
  (snd (login_user toy_checkpw toy_jwt_encode (env_of "L1" 3) carol_long
          users_with_carol)
     = inl internal_server_error /\
   exists d,
     find (user_by_email "carol@example.com") users_with_carol = Some d /\
     toy_checkpw long_password (ud_password d) = None).
Proof.
  destruct (login_checks_the_stored_hash toy_checkpw toy_jwt_encode (env_of "L1" 3)
              carol_login users_with_carol) as (_ & Hok & _ & _).
  destruct (login_checks_the_stored_hash toy_checkpw toy_jwt_encode (env_of "L1" 3)
              carol_long users_with_carol) as (_ & _ & _ & Hlong).
  split; [|split; [|split]].
  - eexists. destruct (Hok _ eq_refl) as (d & Hd & _ & Hu & _).
    exists d. split; [reflexivity|]. split; [exact Hd|]. split; [exact Hu|reflexivity].
  - reflexivity.
  - reflexivity.
  - split; [reflexivity|].
    destruct (Hlong internal_server_error eq_refl) as [[H _]|[_ H]];
      [discriminate H|exact H].
Defined.

Definition erin_signup : UserCreate :=
  {| uc_email := "erin@example.com"; uc_password := "hunter2";
     uc_first_name := "Erin"; uc_last_name := "E" |}.

Lemma register_then_login_witness :
  (forall password salt hashed,
      toy_hashpw password salt = Some hashed ->
      toy_checkpw password hashed = Some true) /\
  exists r r',
    register_user toy_hashpw toy_jwt_encode (env_of "U1" 1) "salt" carol_signup []
      = (users_with_carol, inr r) /\
    login_user toy_checkpw toy_jwt_encode (env_of "L1" 3) carol_login
      (user_run toy_hashpw toy_checkpw toy_jwt_encode
         [Register (env_of "U2" 2) "pepper" erin_signup] users_with_carol)
      = (user_run toy_hashpw toy_checkpw toy_jwt_encode
           [Register (env_of "U2" 2) "pepper" erin_signup] users_with_carol,
         inr r') /\
    same_user_answer (ur_user r) (ur_user r').
Proof.
  split; [exact toy_checkpw_accepts|].
  eexists.
  destruct (register_then_login toy_hashpw toy_checkpw toy_jwt_encode
              toy_checkpw_accepts (env_of "U1" 1) "salt" carol_signup []
              users_with_carol _
              [Register (env_of "U2" 2) "pepper" erin_signup] (env_of "L1" 3)
              eq_refl) as (r' & E & Hsame).
  exists r'. split; [reflexivity|]. split; [exact E|exact Hsame].
Defined.

Lemma reachable_one_cart_per_user_witness :
  In cart_25 (carts (run trace_cart empty_db)) /\
  NoDup (map cart_user_id (carts (run trace_cart (@empty_db Q)))) /\
  cart_of (cart_user_id cart_25) (run trace_cart empty_db) = Some cart_25.
Proof.
  destruct (reachable_one_cart_per_user (float:=Q) trace_cart) as (Hn & _ & Hfind).
  assert (Hin : In cart_25 (carts (run trace_cart empty_db))) by (left; reflexivity).
  split; [exact Hin|]. split; [exact Hn|exact (Hfind _ Hin)].
Defined.

Lemma reachable_checkout_drops_nothing_witness :
  create_order (env_of "O1" 5) checkout_request alice (run trace_cart empty_db)
    = (db_checked_out, inr (order_25 "pending")) /\
  exists c,
    cart_of "alice" (run trace_cart empty_db) = Some c /\
    map oi_product_id (order_items (order_25 "pending")) = map ci_product_id (cart_items c) /\
    map oi_quantity (order_items (order_25 "pending")) = map ci_quantity (cart_items c) /\
    map oi_price (order_items (order_25 "pending")) = map ci_price (cart_items c) /\
    order_total (order_25 "pending") = cart_sum (cart_items c).
Proof.
  split; [exact checkout_run|].
  destruct (reachable_checkout_drops_nothing (float:=Q) trace_cart (env_of "O1" 5)
              checkout_request alice db_checked_out (order_25 "pending") checkout_run)
    as (c & Hc & H1 & H2 & H3 & _ & Ht).
  exists c. repeat split; assumption.
Defined.
